(** * QRFileTransfer: the transfer protocol of [js/QRFileTransfer.js]

    A shallow embedding of the three classes that carry the protocol
    ([QRFileTransfer.Utils], [QRFileTransfer.FileWorker] and
    [QRFileTransfer.Core]) and the properties of the stop-and-wait
    transfer they implement. The second copy of the source keeps the
    static fields private ([#fileWorker] for [_fileWorker], and so on)
    and is otherwise the same code, line by line; the names used here
    are those of [js/QRFileTransfer.js].

    Conventions of the embedding.
    - A JavaScript string is a [string]; each [ascii] stands for one code
      unit below 256 (Base64 text, hex digests and the JSON of the protocol
      live there).
    - Binary data ([Blob], [Uint8Array], [File] contents) is a [list byte].
    - JavaScript numbers are restricted to the integers ([Z]): chunk type
      ids, [Date.now()] readings, sizes and counts.
    - [async] methods are run to completion, one call at a time.
    - DOM labels ([_updateMetaInformation], [_updateProgresses], the elapsed
      time) are output only: their texts are left out; of the methods
      that write them, what is kept is whether they return or throw. *)

From Stdlib Require Import String Ascii ZArith NArith List Bool Lia.
From Stdlib Require Import Init.Byte Strings.Byte DecimalString.
Import ListNotations.

Local Open Scope string_scope.
Local Open Scope Z_scope.

(* ================================================================== *)
(** * Part I. Definitions                                             *)
(* ================================================================== *)

(** ** JavaScript strings *)

Module JsString.

(** White space and line terminators removed by [String.prototype.trim],
    among the code units below 256: TAB, LF, VT, FF, CR, SP and NBSP. *)
Definition is_space (c : ascii) : bool :=
  match N_of_ascii c with
  | 9%N | 10%N | 11%N | 12%N | 13%N | 32%N | 160%N => true
  | _ => false
  end.

Fixpoint trimStart (s : string) : string :=
  match s with
  | EmptyString => EmptyString
  | String c r => if is_space c then trimStart r else s
  end.

Fixpoint trimEnd (s : string) : string :=
  match s with
  | EmptyString => EmptyString
  | String c r =>
      match trimEnd r with
      | EmptyString => if is_space c then EmptyString else String c EmptyString
      | r' => String c r'
      end
  end.

(** [s.trim()] *)
Definition trim (s : string) : string := trimEnd (trimStart s).

(** No white space anywhere in [s]. *)
Fixpoint no_space (s : string) : bool :=
  match s with
  | EmptyString => true
  | String c r => negb (is_space c) && no_space r
  end.

(** [new TextEncoder().encode(s)]: UTF-8 of the code units of [s]. *)
Definition utf8_unit (c : ascii) : list byte :=
  let n := N_of_ascii c in
  if (n <? 128)%N then [byte_of_ascii c]
  else [byte_of_ascii (ascii_of_N (192 + n / 64));
        byte_of_ascii (ascii_of_N (128 + n mod 64))].

Fixpoint TextEncoder_encode (s : string) : list byte :=
  match s with
  | EmptyString => []
  | String c r => utf8_unit c ++ TextEncoder_encode r
  end.

End JsString.

(** ** Base64, as the browser produces and reads it *)

Module Base64.

(** The standard alphabet (RFC 4648, table 1). *)
Definition alphabet : list ascii :=
  list_ascii_of_string
    "ABCDEFGHIJKLMNOPQRSTUVWXYZabcdefghijklmnopqrstuvwxyz0123456789+/".

Definition pad : ascii := "="%char.

Definition digit (k : N) : ascii := nth (N.to_nat k) alphabet pad.

Fixpoint index_from (i : N) (c : ascii) (l : list ascii) : option N :=
  match l with
  | [] => None
  | x :: r => if Ascii.eqb x c then Some i else index_from (N.succ i) c r
  end.

Definition value (c : ascii) : option N := index_from 0%N c alphabet.

(** The 24-bit group of three bytes. *)
Definition group (a b c : byte) : N :=
  (Byte.to_N a * 65536 + Byte.to_N b * 256 + Byte.to_N c)%N.

(** The sextets of the encoding: four for every three bytes, two for a
    last single byte, three for a last pair. *)
Fixpoint sextets (bs : list byte) : list N :=
  match bs with
  | [] => []
  | [a] =>
      let n := group a "000"%byte "000"%byte in
      [n / 262144; (n / 4096) mod 64]%N
  | [a; b] =>
      let n := group a b "000"%byte in
      [n / 262144; (n / 4096) mod 64; (n / 64) mod 64]%N
  | a :: b :: c :: r =>
      let n := group a b c in
      (n / 262144 :: (n / 4096) mod 64 :: (n / 64) mod 64 :: n mod 64
         :: sextets r)%N
  end.

(** The digits of the encoding, without the padding. *)
Definition digits (bs : list byte) : list ascii := map digit (sextets bs).

Definition padding (len : nat) : list ascii :=
  match (len mod 3)%nat with
  | 0%nat => []
  | 1%nat => [pad; pad]
  | _ => [pad]
  end.

(** The Base64 text of a byte sequence, padding preserved, no line
    breaks: the part after the comma of [FileReader.readAsDataURL]. *)
Definition encode (bs : list byte) : string :=
  string_of_list_ascii (digits bs ++ padding (length bs)).

(** ASCII white space skipped by [window.atob]: TAB, LF, FF, CR, SP. *)
Definition is_ascii_whitespace (c : ascii) : bool :=
  match N_of_ascii c with
  | 9%N | 10%N | 12%N | 13%N | 32%N => true
  | _ => false
  end.

(** Drops one trailing [=], if there is one. *)
Definition drop_pad (l : list ascii) : list ascii :=
  match rev l with
  | c :: r => if Ascii.eqb c pad then rev r else l
  | [] => l
  end.

Fixpoint values (l : list ascii) : option (list N) :=
  match l with
  | [] => Some []
  | c :: r =>
      match value c, values r with
      | Some v, Some vs => Some (v :: vs)
      | _, _ => None
      end
  end.

(** Groups of four sextets give three code units; a tail of two gives
    one, a tail of three gives two, the spare bits being dropped. *)
Fixpoint units (vs : list N) : list ascii :=
  match vs with
  | s1 :: s2 :: s3 :: s4 :: r =>
      let n := (s1 * 262144 + s2 * 4096 + s3 * 64 + s4)%N in
      ascii_of_N (n / 65536) :: ascii_of_N ((n / 256) mod 256)
        :: ascii_of_N (n mod 256) :: units r
  | [s1; s2; s3] =>
      let n := (s1 * 262144 + s2 * 4096 + s3 * 64)%N in
      [ascii_of_N (n / 65536); ascii_of_N ((n / 256) mod 256)]
  | [s1; s2] =>
      let n := (s1 * 262144 + s2 * 4096)%N in
      [ascii_of_N (n / 65536)]
  | _ => []
  end.

(** [window.atob(s)], the forgiving Base64 decoder of the HTML standard;
    [None] when it throws [InvalidCharacterError]. *)
Definition atob (s : string) : option string :=
  let data := filter (fun c => negb (is_ascii_whitespace c))
                     (list_ascii_of_string s) in
  let data :=
    if (length data mod 4 =? 0)%nat then drop_pad (drop_pad data) else data in
  if (length data mod 4 =? 1)%nat then None
  else option_map (fun vs => string_of_list_ascii (units vs)) (values data).

(** A character [window.atob] refuses wherever it stands: neither a
    digit of the alphabet, nor [=], nor ASCII white space. *)
Definition refused (c : ascii) : bool :=
  match value c with
  | Some _ => false
  | None => negb (Ascii.eqb c pad) && negb (is_ascii_whitespace c)
  end.

End Base64.

(** How a call ends: it returns, or an exception leaves it (for an
    [async] method, the promise is rejected). What was assigned before
    the exception stays assigned. *)
Inductive completion : Type := Returned | Thrown.

(** Calls one after the other: the first exception ends them. *)
Fixpoint sequence (calls : list completion) : completion :=
  match calls with
  | [] => Returned
  | Returned :: r => sequence r
  | Thrown :: _ => Thrown
  end.

(** ** JavaScript values, as [JSON.parse] delivers them *)

Module Js.

#[warnings="-register-all"]
Inductive value : Type :=
| Undefined
| Null
| Bool (b : bool)
| Num (n : Z)
| Str (s : string)
| Arr (items : list value)
| Obj (fields : list (string * value)).

Fixpoint assoc (k : string) (fields : list (string * value)) : value :=
  match fields with
  | [] => Undefined
  | (k', v) :: r => if String.eqb k k' then v else assoc k r
  end.

(** [v[k]] for a key [k] that no prototype defines (all the keys of the
    protocol are such): [None] is the [TypeError] of a property read on
    [null] or [undefined]. *)
Definition get (v : value) (k : string) : option value :=
  match v with
  | Undefined | Null => None
  | Obj fields => Some (assoc k fields)
  | _ => Some Undefined
  end.

Definition is_undefined (v : value) : bool :=
  match v with Undefined => true | _ => false end.

(** [a === b], where [b] is a value a later [JSON.parse] built: two
    objects or arrays are then never the same reference. *)
Definition strict_equal (a b : value) : bool :=
  match a, b with
  | Undefined, Undefined => true
  | Null, Null => true
  | Bool x, Bool y => Bool.eqb x y
  | Num x, Num y => Z.eqb x y
  | Str x, Str y => String.eqb x y
  | _, _ => false
  end.

(** The value of a field that holds a string or [null]. *)
Definition of_option (o : option string) : value :=
  match o with Some s => Str s | None => Null end.

(** [fields] has a property of its own named [k], whatever its value. *)
Definition has_own (k : string) (fields : list (string * value)) : bool :=
  existsb (fun kv => String.eqb k (fst kv)) fields.

(** The value has a primitive conversion: [ToPrimitive] returns, as
    [+] with a string, [==] with a primitive, [ToNumber] and [ToString]
    need. An object of [JSON.parse] inherits [valueOf], which gives the
    object back, and [toString], which gives a string; a property of
    its own named [toString] hides the latter with a value that is no
    function ([JSON] has none), and the conversion throws [TypeError].
    An array is converted by [join], which converts its items, [null]
    apart. *)
Fixpoint convertible (v : value) : bool :=
  match v with
  | Arr items => forallb convertible items
  | Obj fields => negb (has_own "toString" fields)
  | _ => true
  end.

(** How the conversion to a primitive ends. *)
Definition ToPrimitive (v : value) : completion :=
  if convertible v then Returned else Thrown.

End Js.

(** ** What the browser provides

    Functions of the platform the source calls and does not define. *)

Class Platform : Type := {
  (** [JSON.parse(v)]; [None] when it throws [SyntaxError]. It never
      returns [undefined]. *)
  JSON_parse : Js.value -> option Js.value;
  (** [JSON.stringify(v)] *)
  JSON_stringify : Js.value -> string;
  (** [crypto.subtle.digest('SHA-256', bytes)] *)
  subtle_digest_SHA256 : list byte -> list byte;
  (** [a == b] for operands of different types, neither of them [null]
      or [undefined]: the coercions of the language decide. *)
  coerced_equal : Js.value -> Js.value -> bool
}.

Module JsEq.

(** [a == b] throws: one operand is a boolean, a number or a string,
    and the other an object or array that has no primitive
    conversion. *)
Definition throws (a b : Js.value) : bool :=
  match a, b with
  | (Js.Arr _ | Js.Obj _), (Js.Bool _ | Js.Num _ | Js.Str _) =>
      negb (Js.convertible a)
  | (Js.Bool _ | Js.Num _ | Js.Str _), (Js.Arr _ | Js.Obj _) =>
      negb (Js.convertible b)
  | _, _ => false
  end.

(** [a == b] when it does not throw, where [a] is a freshly parsed
    value. *)
Definition loose_equal {P : Platform} (a b : Js.value) : bool :=
  match a, b with
  | (Js.Undefined | Js.Null), (Js.Undefined | Js.Null) => true
  | (Js.Undefined | Js.Null), _ => false
  | _, (Js.Undefined | Js.Null) => false
  | Js.Bool x, Js.Bool y => Bool.eqb x y
  | Js.Num x, Js.Num y => Z.eqb x y
  | Js.Str x, Js.Str y => String.eqb x y
  | (Js.Arr _ | Js.Obj _), (Js.Arr _ | Js.Obj _) => false
  | _, _ => coerced_equal a b
  end.

End JsEq.

(** ** [QRFileTransfer.Utils] *)

Module Utils.

Definition hex_digit (n : N) : ascii :=
  nth (N.to_nat n) (list_ascii_of_string "0123456789abcdef") "0"%char.

(** [b.toString(16).padStart(2, '0')] *)
Definition hex_byte (b : byte) : list ascii :=
  [hex_digit (Byte.to_N b / 16); hex_digit (Byte.to_N b mod 16)].

(** [hashArray.map(...).join('')] *)
Definition hex (bs : list byte) : string :=
  string_of_list_ascii (flat_map hex_byte bs).

Definition is_lower_hex (c : ascii) : bool :=
  existsb (Ascii.eqb c) (list_ascii_of_string "0123456789abcdef").

(** [Utils.sha256(message)] for a string [message]. *)
Definition sha256 {P : Platform} (message : string) : string :=
  let msgUint8 := JsString.TextEncoder_encode message in
  let hashArray := subtle_digest_SHA256 msgUint8 in
  let hashHex := hex hashArray in
  JsString.trim hashHex.

(** [Utils.blobAsBase64(blob)]: the text after the comma of the data
    URL, trimmed. (What a browser makes of an empty blob varies;
    [readNextChunk] never passes one, see [chunk_not_empty].) *)
Definition blobAsBase64 (blob : list byte) : string :=
  JsString.trim (Base64.encode blob).

(** [Utils.bufferArrayFromBase64(base64)] for a string [base64]; [None]
    when [window.atob] throws and the promise is rejected. *)
Definition bufferArrayFromBase64 (base64 : string) : option (list byte) :=
  match Base64.atob base64 with
  | Some raw => Some (map byte_of_ascii (list_ascii_of_string raw))
  | None => None
  end.

(** [String(n)] for an integer [n]. *)
Definition Number_toString (n : Z) : string :=
  DecimalString.NilZero.string_of_int (Z.to_int n).

(** [if (n < 10) { n = "0" + n }]: the text that stands for [n] in the
    result of [elapsedTime]. *)
Definition padded (n : Z) : string :=
  if n <? 10 then "0" ++ Number_toString n else Number_toString n.

(** [Utils.elapsedTime(fromDate)] at the clock reading [now];
    [fromDate] is a reading of [Date.now()] or [null]. *)
Definition elapsedTime (now : Z) (fromDate : option Z) : string :=
  match fromDate with
  | None => "00:00:00"
  | Some fromDate =>
      let milliseconds := now - fromDate in
      let sec_num := milliseconds / 1000 in
      let hours := sec_num / 3600 in
      let minutes := (sec_num - hours * 3600) / 60 in
      let seconds := sec_num - hours * 3600 - minutes * 60 in
      padded hours ++ ":" ++ padded minutes ++ ":" ++ padded seconds
  end.

(** The character of the decimal digit [n]. *)
Definition decimal_digit (n : Z) : ascii := ascii_of_N (48 + Z.to_N n).

(** How [Utils.formatBytes(a)] ends. Its text is for a label; the
    call throws when [Math.log(a)] cannot make a number of [a]. Zero,
    and what converts to no number or to zero, give a text all the
    same. *)
Definition formatBytes (a : Js.value) : completion := Js.ToPrimitive a.

End Utils.

(** ** Lowercase hexadecimal, read back

    Not of the source: what the specification means by the lowercase
    hexadecimal text of a byte sequence, stated by the reading of such
    a text and without reference to [Utils.hex], which is compared
    with it. *)

Module LowerHex.

(** The value of a digit, by its character code: [0] to [9] are the
    codes 48 to 57, [a] to [f] the codes 97 to 102. *)
Definition value (c : ascii) : option N :=
  let code := N_of_ascii c in
  if ((48 <=? code) && (code <=? 57))%N then Some (code - 48)%N
  else if ((97 <=? code) && (code <=? 102))%N then Some (code - 87)%N
  else None.

(** The bytes of a text of two digits a byte, the high digit first. *)
Fixpoint read (s : string) : option (list byte) :=
  match s with
  | EmptyString => Some []
  | String hi (String lo r) =>
      match value hi, value lo, read r with
      | Some h, Some l, Some bs =>
          Some (byte_of_ascii (ascii_of_N (16 * h + l)) :: bs)
      | _, _, _ => None
      end
  | String _ EmptyString => None
  end.

End LowerHex.

(** ** [Blob.slice] and [Math.ceil] of a quotient *)

Module Blob.

(** [blob.slice(start, end)] *)
Definition slice (blob : list byte) (start end_ : Z) : list byte :=
  let size := Z.of_nat (length blob) in
  let relativeStart :=
    if start <? 0 then Z.max (size + start) 0 else Z.min start size in
  let relativeEnd :=
    if end_ <? 0 then Z.max (size + end_) 0 else Z.min end_ size in
  let span := Z.max (relativeEnd - relativeStart) 0 in
  firstn (Z.to_nat span) (skipn (Z.to_nat relativeStart) blob).

End Blob.

(** [Math.ceil(a / b)] for a divisor other than zero. (A zero divisor
    gives an infinity or NaN, outside the integers.) *)
Definition ceil_div (a b : Z) : Z := - ((- a) / b).

(** ** [QRFileTransfer.Core.ChunkType] and [ViewOption] *)

Module ChunkType.

Inductive t : Type :=
| metaInfo
| metaInfoReceived
| okNext
| evalSha256
| invalidSha256
| completed
| unknown.

Definition id (k : t) : Z :=
  match k with
  | metaInfo => 0
  | metaInfoReceived => 1
  | okNext => 2
  | evalSha256 => 3
  | invalidSha256 => 4
  | completed => 50
  | unknown => 100
  end.

End ChunkType.

Module ViewOption.

Inductive t : Type := home | help | sendFile | receiveFile.

End ViewOption.

(** ** [QRFileTransfer.FileWorker] *)

Module FileWorker.

(** A [File] of the file picker. *)
Record File : Type := {
  name : string;
  type : string;
  content : list byte
}.

Definition size (f : File) : Z := Z.of_nat (length (content f)).

Record t : Type := {
  readMode : bool;
  _inputFile : option File;
  _chunkSize : Js.value;
  inputFileType : Js.value;
  inputFileName : Js.value;
  fileSize : Js.value;
  fileChunks : Js.value;
  curChunk : Z;
  lastChunkBlob : option (list byte);
  lastChunkBase64 : option string;
  lastChunkSha256 : option string;
  _writerBuffer : list (list byte)
}.

(** The field initialisers of the class. *)
Definition new : t := {|
  readMode := true;
  _inputFile := None;
  _chunkSize := Js.Num 128;
  inputFileType := Js.Null;
  inputFileName := Js.Null;
  fileSize := Js.Num 0;
  fileChunks := Js.Num 0;
  curChunk := 0;
  lastChunkBlob := None;
  lastChunkBase64 := None;
  lastChunkSha256 := None;
  _writerBuffer := []
|}.

Definition number (v : Js.value) : option Z :=
  match v with Js.Num n => Some n | _ => None end.

(** The three cached fields of the last chunk, assigned together. *)
Definition set_lastChunk (blob : option (list byte)) (base64 sha : option string)
  (w : t) : t := {|
  readMode := readMode w;
  _inputFile := _inputFile w;
  _chunkSize := _chunkSize w;
  inputFileType := inputFileType w;
  inputFileName := inputFileName w;
  fileSize := fileSize w;
  fileChunks := fileChunks w;
  curChunk := curChunk w;
  lastChunkBlob := blob;
  lastChunkBase64 := base64;
  lastChunkSha256 := sha;
  _writerBuffer := _writerBuffer w
|}.

Definition set_curChunk (n : Z) (w : t) : t := {|
  readMode := readMode w;
  _inputFile := _inputFile w;
  _chunkSize := _chunkSize w;
  inputFileType := inputFileType w;
  inputFileName := inputFileName w;
  fileSize := fileSize w;
  fileChunks := fileChunks w;
  curChunk := n;
  lastChunkBlob := lastChunkBlob w;
  lastChunkBase64 := lastChunkBase64 w;
  lastChunkSha256 := lastChunkSha256 w;
  _writerBuffer := _writerBuffer w
|}.

Definition set_writerBuffer (b : list (list byte)) (w : t) : t := {|
  readMode := readMode w;
  _inputFile := _inputFile w;
  _chunkSize := _chunkSize w;
  inputFileType := inputFileType w;
  inputFileName := inputFileName w;
  fileSize := fileSize w;
  fileChunks := fileChunks w;
  curChunk := curChunk w;
  lastChunkBlob := lastChunkBlob w;
  lastChunkBase64 := lastChunkBase64 w;
  lastChunkSha256 := lastChunkSha256 w;
  _writerBuffer := b
|}.

(** [updateChunkSize(size)]. Without an input file the read of
    [_inputFile.size] throws after the chunk size was assigned. For a
    size of zero the quotient is an infinity or NaN, which the numbers
    of the embedding do not have: statements about this method leave
    that size aside. *)
Definition updateChunkSize (size_ : Z) (w : t) : t :=
  if negb (readMode w) then w
  else {|
    readMode := readMode w;
    _inputFile := _inputFile w;
    _chunkSize := Js.Num size_;
    inputFileType := inputFileType w;
    inputFileName := inputFileName w;
    fileSize := fileSize w;
    fileChunks :=
      match _inputFile w with
      | Some file => Js.Num (ceil_div (size file) size_)
      | None => fileChunks w
      end;
    curChunk := curChunk w;
    lastChunkBlob := lastChunkBlob w;
    lastChunkBase64 := lastChunkBase64 w;
    lastChunkSha256 := lastChunkSha256 w;
    _writerBuffer := _writerBuffer w
  |}.

(** [FileWorker.createReader(file)] *)
Definition createReader (file : File) : t :=
  updateChunkSize 128 {|
    readMode := true;
    _inputFile := Some file;
    _chunkSize := Js.Num 128;
    inputFileType :=
      Js.Str (if (String.length (JsString.trim (type file)) =? 0)%nat
              then "application/octet-stream" else type file);
    inputFileName := Js.Str (name file);
    fileSize := Js.Num (size file);
    fileChunks := Js.Num 0;
    curChunk := 0;
    lastChunkBlob := None;
    lastChunkBase64 := None;
    lastChunkSha256 := None;
    _writerBuffer := []
  |}.

(** [FileWorker.createWriter(senderMetaInfo)]; [None] when reading a
    property of [senderMetaInfo] throws. The five fields are copied as
    they come. *)
Definition createWriter (senderMetaInfo : Js.value) : option t :=
  match Js.get senderMetaInfo "fileType", Js.get senderMetaInfo "fileName",
        Js.get senderMetaInfo "fileSize", Js.get senderMetaInfo "chunkSize",
        Js.get senderMetaInfo "fileChunks" with
  | Some ty, Some nm, Some sz, Some cs, Some ch =>
      Some {|
        readMode := false;
        _inputFile := None;
        _chunkSize := cs;
        inputFileType := ty;
        inputFileName := nm;
        fileSize := sz;
        fileChunks := ch;
        curChunk := 0;
        lastChunkBlob := None;
        lastChunkBase64 := None;
        lastChunkSha256 := None;
        _writerBuffer := []
      |}
  | _, _, _, _, _ => None
  end.

(** [metaInfo()] *)
Definition metaInfo (w : t) : Js.value :=
  match readMode w, _inputFile w with
  | true, None => Js.Null
  | _, _ =>
      Js.Obj [("fileName", inputFileName w); ("fileType", inputFileType w);
              ("fileSize", fileSize w); ("fileChunks", fileChunks w);
              ("chunkSize", _chunkSize w)]
  end.

(** How [progress()] ends. The quotient [curChunk / fileChunks] is for
    a label; the division throws when [fileChunks] has no primitive
    conversion. *)
Definition progress (w : t) : completion := Js.ToPrimitive (fileChunks w).

(** [readNextChunk()]. A worker in read mode holds numbers in
    [fileChunks] and [_chunkSize] ([createReader] and [updateChunkSize]
    put them there); the last case is not met by such a worker. *)
Definition readNextChunk {P : Platform} (w : t) : t :=
  if negb (readMode w) then w
  else
    match _inputFile w, number (fileChunks w), number (_chunkSize w) with
    | None, _, _ => set_lastChunk None None None w
    | Some file, Some chunks, Some chunkSize =>
        if curChunk w >=? chunks then set_lastChunk None None None w
        else
          let offset := curChunk w * chunkSize in
          let blob := Blob.slice (content file) offset (offset + chunkSize) in
          let base64 := Utils.blobAsBase64 blob in
          let sha := Utils.sha256 base64 in
          set_curChunk (curChunk w + 1)
            (set_lastChunk (Some blob) (Some base64) (Some sha) w)
    | Some _, _, _ => w
    end.

(** [writerSetPendingChunk(base64Chunk)]. A [base64Chunk] that is not a
    string has no [trim] method; a string [window.atob] refuses rejects
    the promise. In both cases nothing was assigned yet. *)
Definition writerSetPendingChunk {P : Platform} (base64Chunk : Js.value)
  (w : t) : t * completion :=
  if readMode w then (w, Returned)
  else
    match base64Chunk with
    | Js.Str s =>
        match Utils.bufferArrayFromBase64 (JsString.trim s) with
        | Some lastChunkUInt8Array =>
            (set_lastChunk (Some lastChunkUInt8Array) (Some s)
               (Some (Utils.sha256 s)) w, Returned)
        | None => (w, Thrown)
        end
    | _ => (w, Thrown)
    end.

(** [writerCommitPendingChunk()] *)
Definition writerCommitPendingChunk (w : t) : t :=
  if readMode w then w
  else
    match lastChunkBlob w with
    | None => w
    | Some blob =>
        set_curChunk (curChunk w + 1)
          (set_lastChunk None None None
             (set_writerBuffer (_writerBuffer w ++ [blob]) w))
    end.

(** What [_writerCreateDownloadFile] builds: the [Blob] made of the
    buffer with its [type] option, and the [download] name of the
    anchor. *)
Record Download : Type := {
  download : Js.value;
  blobType : Js.value;
  blobContent : list byte
}.

(** [_writerCreateDownloadFile()]; [None] when no anchor comes out of
    it: a worker in read mode gets [undefined], and the promise is
    rejected when [new Blob(buffer, {type})] or the assignment to
    [aTag.download] cannot make a string of the type or of the name. *)
Definition _writerCreateDownloadFile (w : t) : option Download :=
  if readMode w then None
  else
    match Js.ToPrimitive (inputFileType w), Js.ToPrimitive (inputFileName w) with
    | Returned, Returned =>
        Some {|
          download := inputFileName w;
          blobType := inputFileType w;
          blobContent := concat (_writerBuffer w)
        |}
    | _, _ => None
    end.

(** Calls of the methods that change a worker, and their effect one
    after the other. *)
Inductive call : Type :=
| call_updateChunkSize (size_ : Z)
| call_readNextChunk
| call_writerSetPendingChunk (base64Chunk : Js.value)
| call_writerCommitPendingChunk.

Definition perform {P : Platform} (k : call) (w : t) : t :=
  match k with
  | call_updateChunkSize size_ => updateChunkSize size_ w
  | call_readNextChunk => readNextChunk w
  | call_writerSetPendingChunk base64Chunk =>
      fst (writerSetPendingChunk base64Chunk w)
  | call_writerCommitPendingChunk => writerCommitPendingChunk w
  end.

Definition performs {P : Platform} (ks : list call) (w : t) : t :=
  fold_left (fun w k => perform k w) ks w.

(** The three cached fields fit together: all [null], or a Base64 text
    with the blob it decodes to and its digest. *)
Definition coherent {P : Platform} (w : t) : Prop :=
  match lastChunkBlob w, lastChunkBase64 w, lastChunkSha256 w with
  | None, None, None => True
  | Some blob, Some base64, Some sha =>
      Utils.bufferArrayFromBase64 (JsString.trim base64) = Some blob /\
      sha = Utils.sha256 base64
  | _, _, _ => False
  end.

End FileWorker.

(** ** [QRFileTransfer.Core] *)

Module Core.

(** The static fields of the class the protocol uses, and what it shows
    to the outside.
    - [qrCode] is the object whose [JSON.stringify] text was last handed
      to [Utils.generateQRCode], [None] once the image is cleared.
      Whether [qrcode.js] can render the text is its own business.
    - [qrViewHasImg] tells whether the QR view holds an [img] element
      (the canvas renderer of [qrcode.js] puts one there).
    - [downloads] lists the files handed to the browser for download. *)
Record t : Type := {
  _displayedView : option ViewOption.t;
  _fileWorker : option FileWorker.t;
  _isRunning : bool;
  _lastReceivedDatetime : Js.value;
  qrCode : option Js.value;
  qrViewHasImg : bool;
  downloads : list FileWorker.Download
}.

Definition set_fileWorker (w : option FileWorker.t) (c : t) : t := {|
  _displayedView := _displayedView c;
  _fileWorker := w;
  _isRunning := _isRunning c;
  _lastReceivedDatetime := _lastReceivedDatetime c;
  qrCode := qrCode c;
  qrViewHasImg := qrViewHasImg c;
  downloads := downloads c
|}.

Definition set_isRunning (b : bool) (c : t) : t := {|
  _displayedView := _displayedView c;
  _fileWorker := _fileWorker c;
  _isRunning := b;
  _lastReceivedDatetime := _lastReceivedDatetime c;
  qrCode := qrCode c;
  qrViewHasImg := qrViewHasImg c;
  downloads := downloads c
|}.

Definition set_lastReceivedDatetime (v : Js.value) (c : t) : t := {|
  _displayedView := _displayedView c;
  _fileWorker := _fileWorker c;
  _isRunning := _isRunning c;
  _lastReceivedDatetime := v;
  qrCode := qrCode c;
  qrViewHasImg := qrViewHasImg c;
  downloads := downloads c
|}.

Definition set_qrCode (q : option Js.value) (c : t) : t := {|
  _displayedView := _displayedView c;
  _fileWorker := _fileWorker c;
  _isRunning := _isRunning c;
  _lastReceivedDatetime := _lastReceivedDatetime c;
  qrCode := q;
  qrViewHasImg := qrViewHasImg c;
  downloads := downloads c
|}.

Definition add_download (d : FileWorker.Download) (c : t) : t := {|
  _displayedView := _displayedView c;
  _fileWorker := _fileWorker c;
  _isRunning := _isRunning c;
  _lastReceivedDatetime := _lastReceivedDatetime c;
  qrCode := qrCode c;
  qrViewHasImg := qrViewHasImg c;
  downloads := downloads c ++ [d]
|}.

(** [_isSenderReceiverView()] *)
Definition _isSenderReceiverView (c : t) : bool :=
  match _displayedView c with
  | Some ViewOption.sendFile | Some ViewOption.receiveFile => true
  | _ => false
  end.

(** The object [qrData] of [_updateQRImage]; [dt] is the reading of
    [Date.now()]. *)
Definition qrData (chunkType : ChunkType.t) (bd : string) (dt : Z) : Js.value :=
  Js.Obj [("ckTId", Js.Num (ChunkType.id chunkType)); ("bd", Js.Str bd);
          ("dt", Js.Num dt)].

(** [_updateQRImage(chunkType, input)] at the clock reading [now]. With
    a [null] input and no [img] in the view, the method goes on to
    [chunkType.id] and [input.trim()], which throw. *)
Definition _updateQRImage (now : Z) (chunkType : option ChunkType.t)
  (input : option string) (c : t) : t * completion :=
  if negb (_isSenderReceiverView c) then (c, Returned)
  else
    match input, chunkType with
    | None, _ =>
        if qrViewHasImg c then (set_qrCode None c, Returned) else (c, Thrown)
    | Some _, None => (c, Thrown)
    | Some s, Some k =>
        (set_qrCode (Some (qrData k (JsString.trim s) now)) c, Returned)
    end.

(** [_chunkTypeFromId(id)]: the [switch] compares with [===]. *)
Definition _chunkTypeFromId (id : Js.value) : ChunkType.t :=
  match id with
  | Js.Num 0 => ChunkType.metaInfo
  | Js.Num 1 => ChunkType.metaInfoReceived
  | Js.Num 2 => ChunkType.okNext
  | Js.Num 3 => ChunkType.evalSha256
  | Js.Num 4 => ChunkType.invalidSha256
  | Js.Num 50 => ChunkType.completed
  | _ => ChunkType.unknown
  end.

(** How [_updateMetaInformation()] ends. The two labels get ["n/a"]
    without meta information; with it, the file name and the chunk
    count are joined to strings and the two sizes go through
    [Utils.formatBytes]. *)
Definition _updateMetaInformation (c : t) : completion :=
  if negb (_isSenderReceiverView c) then Returned
  else
    let metaInfo :=
      match _fileWorker c with
      | Some w => FileWorker.metaInfo w
      | None => Js.Null
      end in
    match metaInfo with
    | Js.Obj fields =>
        sequence [Js.ToPrimitive (Js.assoc "fileName" fields);
                  Utils.formatBytes (Js.assoc "fileSize" fields);
                  Js.ToPrimitive (Js.assoc "fileChunks" fields);
                  Utils.formatBytes (Js.assoc "chunkSize" fields)]
    | _ => Returned
    end.

(** How [_updateProgresses()] ends. The label gets ["n/a"] while the
    peer is stopped, and the progress of the worker, if there is one,
    while it runs. *)
Definition _updateProgresses (c : t) : completion :=
  if negb (_isSenderReceiverView c) then Returned
  else if negb (_isRunning c) then Returned
  else
    match _fileWorker c with
    | Some w => FileWorker.progress w
    | None => Returned
    end.

(** The rest of a method after calls that only write labels: it runs
    when they have returned. *)
Definition and_then (labels : completion) (c : t) (rest : t * completion)
  : t * completion :=
  match labels with
  | Returned => rest
  | Thrown => (c, Thrown)
  end.

(** [_reset()]. The elapsed time is left out. *)
Definition _reset (now : Z) (c : t) : t * completion :=
  let c := set_fileWorker None (set_isRunning false c) in
  and_then (sequence [_updateMetaInformation c; _updateProgresses c]) c
    (_updateQRImage now None None c).

(** [Utils.setQRCodeViewer(_displayedView.qrViewId, 512, 512)]: the QR
    view of the Sender or Receiver view is emptied and given a new
    [QRCode] object, whose renderer puts its [img] there or does not,
    as the one before; the other views have no [qrViewId], no element
    is found and nothing happens. *)
Definition setQRCodeViewer (c : t) : t :=
  if _isSenderReceiverView c then set_qrCode None c else c.

(** [_setupSender()] and [_setupReceiver()]: the QR view is set up and
    the shared state is reset. The controls and the listener of the
    file picker are left out. *)
Definition _setupSender (now : Z) (c : t) : t * completion :=
  _reset now (setQRCodeViewer c).

Definition _setupReceiver (now : Z) (c : t) : t * completion :=
  _reset now (setQRCodeViewer c).

(** [stopReceiving()] and [stopSending()]: the camera is released and
    the view is set up again. *)
Definition stopReceiving (now : Z) (c : t) : t * completion :=
  _setupReceiver now c.

Definition stopSending (now : Z) (c : t) : t * completion :=
  _setupSender now c.

Section Handler.

Context {P : Platform}.

(** The [sendFile] branch of the [switch] in [_onQRDataReceived]. The
    timer that calls [stopSending] two seconds after [completed] is
    shown is a later, separate call. The calls of [_updateProgresses]
    come after the new code is on show and change no field; the worker
    of the Sender view is the one [createReader] made, with a number in
    [fileChunks], and for it they write the label and return. *)
Definition onSendFile (now : Z) (chunkType : ChunkType.t) (qrData_ : Js.value)
  (c : t) : t * completion :=
  match chunkType with
  | ChunkType.metaInfoReceived =>
      match _fileWorker c with
      | None => (c, Returned)
      | Some w =>
          let w := FileWorker.readNextChunk w in
          _updateQRImage now (Some ChunkType.okNext)
            (FileWorker.lastChunkBase64 w) (set_fileWorker (Some w) c)
      end
  | ChunkType.evalSha256 =>
      match _fileWorker c with
      | None => (c, Returned)
      | Some w =>
          let receiverChunkSha256 := qrData_ in
          let lastChunkSha256 := Js.of_option (FileWorker.lastChunkSha256 w) in
          if JsEq.throws receiverChunkSha256 lastChunkSha256 then (c, Thrown)
          else if JsEq.loose_equal receiverChunkSha256 lastChunkSha256
          then
            if JsEq.throws (Js.Num (FileWorker.curChunk w))
                 (FileWorker.fileChunks w)
            then (c, Thrown)
            else if JsEq.loose_equal (Js.Num (FileWorker.curChunk w))
                      (FileWorker.fileChunks w)
            then _updateQRImage now (Some ChunkType.completed) (Some EmptyString) c
            else
              let w := FileWorker.readNextChunk w in
              _updateQRImage now (Some ChunkType.okNext)
                (FileWorker.lastChunkBase64 w) (set_fileWorker (Some w) c)
          else
            _updateQRImage now (Some ChunkType.invalidSha256)
              (FileWorker.lastChunkBase64 w) c
      end
  | _ => (c, Returned)
  end.

(** The [receiveFile] branch. The labels are written before the answer
    is shown: when [_updateMetaInformation] or [_updateProgresses]
    throws, the worker is set and no answer follows. For [completed],
    [writerDownloadFile] clicks the anchor [_writerCreateDownloadFile]
    made, or throws for want of one before [stopReceiving] is
    reached. *)
Definition onReceiveFile (now : Z) (chunkType : ChunkType.t)
  (qrData_ : Js.value) (c : t) : t * completion :=
  match chunkType with
  | ChunkType.metaInfo =>
      match _fileWorker c with
      | Some _ => (c, Returned)
      | None =>
          match JSON_parse qrData_ with
          | None => (c, Returned)
          | Some senderMetaInfo =>
              match FileWorker.createWriter senderMetaInfo with
              | None => (c, Thrown)
              | Some w =>
                  let c := set_fileWorker (Some w) c in
                  and_then
                    (sequence [_updateMetaInformation c; _updateProgresses c]) c
                    (_updateQRImage now (Some ChunkType.metaInfoReceived)
                       (Some EmptyString) c)
              end
          end
      end
  | ChunkType.okNext =>
      match _fileWorker c with
      | None => (c, Returned)
      | Some w =>
          let w := FileWorker.writerCommitPendingChunk w in
          match FileWorker.writerSetPendingChunk qrData_ w with
          | (w, Thrown) => (set_fileWorker (Some w) c, Thrown)
          | (w, Returned) =>
              let c := set_fileWorker (Some w) c in
              and_then (_updateProgresses c) c
                (_updateQRImage now (Some ChunkType.evalSha256)
                   (FileWorker.lastChunkSha256 w) c)
          end
      end
  | ChunkType.invalidSha256 =>
      match _fileWorker c with
      | None => (c, Returned)
      | Some w =>
          match FileWorker.writerSetPendingChunk qrData_ w with
          | (w, Thrown) => (set_fileWorker (Some w) c, Thrown)
          | (w, Returned) =>
              let c := set_fileWorker (Some w) c in
              and_then (_updateProgresses c) c
                (_updateQRImage now (Some ChunkType.evalSha256)
                   (FileWorker.lastChunkSha256 w) c)
          end
      end
  | ChunkType.completed =>
      match _fileWorker c with
      | None => (c, Returned)
      | Some w =>
          let w := FileWorker.writerCommitPendingChunk w in
          let c := set_fileWorker (Some w) c in
          match FileWorker._writerCreateDownloadFile w with
          | None => (c, Thrown)
          | Some a => stopReceiving now (add_download a c)
          end
      end
  | _ => (c, Returned)
  end.

(** The outer [switch] on the displayed view. *)
Definition dispatch (now : Z) (chunkType : ChunkType.t) (qrData_ : Js.value)
  (c : t) : t * completion :=
  match _displayedView c with
  | Some ViewOption.sendFile => onSendFile now chunkType qrData_ c
  | Some ViewOption.receiveFile => onReceiveFile now chunkType qrData_ c
  | _ => (c, Returned)
  end.

(** [_onQRDataReceived] from the parsed object on. *)
Definition onParsed (now : Z) (jsObj : Js.value) (c : t) : t * completion :=
  match Js.get jsObj "ckTId", Js.get jsObj "bd", Js.get jsObj "dt" with
  | Some ckTId, Some bd, Some dt =>
      if Js.is_undefined ckTId || Js.is_undefined bd || Js.is_undefined dt
      then (c, Returned)
      else
        let chunkType := _chunkTypeFromId ckTId in
        let qrData_ := bd in
        let datetime := dt in
        let previousDatetime := _lastReceivedDatetime c in
        let c := set_lastReceivedDatetime datetime c in
        if Js.strict_equal previousDatetime (_lastReceivedDatetime c)
        then (c, Returned)
        else dispatch now chunkType qrData_ c
  | _, _, _ => (c, Thrown)
  end.

(** [_onQRDataReceived(rawData)], called for every QR code the camera
    decodes, at the clock reading [now]. *)
Definition _onQRDataReceived (now : Z) (rawData : option string) (c : t)
  : t * completion :=
  if negb (_isRunning c) then (c, Returned)
  else
    match rawData with
    | None => (c, Returned)
    | Some rawData =>
        let jsonData := JsString.trim rawData in
        if (String.length jsonData =? 0)%nat then (c, Returned)
        else
          match JSON_parse (Js.Str jsonData) with
          | None => (c, Returned)
          | Some jsObj => onParsed now jsObj c
          end
    end.

(** The text [rawData] carries an object with the three fields of an
    envelope: chunk type id [ckTId], body [bd] and nonce [dt]. *)
Definition decodes (rawData : string) (ckTId bd dt : Js.value) : Prop :=
  JsString.trim rawData <> EmptyString /\
  exists jsObj,
    JSON_parse (Js.Str (JsString.trim rawData)) = Some jsObj /\
    Js.get jsObj "ckTId" = Some ckTId /\
    Js.get jsObj "bd" = Some bd /\
    Js.get jsObj "dt" = Some dt /\
    Js.is_undefined ckTId = false /\
    Js.is_undefined bd = false /\
    Js.is_undefined dt = false.

(** A peer watching a sequence of decoded texts, each at its clock
    reading. *)
Fixpoint watch (obs : list (Z * string)) (c : t) : t :=
  match obs with
  | [] => c
  | (now, rawData) :: r => watch r (fst (_onQRDataReceived now (Some rawData) c))
  end.

(** Sightings of two texts in alternation, the first one first. *)
Inductive alternating (a b : string) : list (Z * string) -> Prop :=
| alternating_nil : alternating a b []
| alternating_cons (now : Z) (r : list (Z * string)) :
    alternating b a r -> alternating a b ((now, a) :: r).

(** [startSending()], in the case that [QRDecoder.setupAndStart]
    reports the camera as started: the meta information is shown. (A
    worker exists: the button is enabled by the file picker only. When
    the camera is refused, or the decoder was left scanning, the
    callback calls [stopSending] instead.) *)
Definition startSending (now : Z) (c : t) : t * completion :=
  if negb (_isSenderReceiverView c) then (c, Returned)
  else if _isRunning c then (c, Returned)
  else
    let c := set_isRunning true c in
    match _fileWorker c with
    | None => (c, Thrown)
    | Some w =>
        _updateQRImage now (Some ChunkType.metaInfo)
          (Some (JSON_stringify (FileWorker.metaInfo w))) c
    end.

(** [startReceiving()], in the case that [QRDecoder.setupAndStart]
    reports the camera as started. (When the camera is refused, or the
    decoder was left scanning, the callback calls [stopReceiving]
    instead.) *)
Definition startReceiving (c : t) : t :=
  if negb (_isSenderReceiverView c) then c
  else if _isRunning c then c
  else set_isRunning true c.

End Handler.

(** *** Switching views

    The page is taken to hold the four boxes and, in the Sender and
    Receiver views, the QR view the code looks up; which box is
    visible, the controls and the listener of the file picker are left
    out, as is the release of the camera. *)

Definition set_displayedView (v : option ViewOption.t) (c : t) : t := {|
  _displayedView := v;
  _fileWorker := _fileWorker c;
  _isRunning := _isRunning c;
  _lastReceivedDatetime := _lastReceivedDatetime c;
  qrCode := qrCode c;
  qrViewHasImg := qrViewHasImg c;
  downloads := downloads c
|}.

(** [a != b] on views or [null]: the views are four frozen objects. *)
Definition same_view (a b : option ViewOption.t) : bool :=
  match a, b with
  | None, None => true
  | Some ViewOption.home, Some ViewOption.home => true
  | Some ViewOption.help, Some ViewOption.help => true
  | Some ViewOption.sendFile, Some ViewOption.sendFile => true
  | Some ViewOption.receiveFile, Some ViewOption.receiveFile => true
  | _, _ => false
  end.

(** [loadView(view)] *)
Definition loadView (now : Z) (view : ViewOption.t) (c : t) : t * completion :=
  let previousView := _displayedView c in
  let c :=
    match view with
    | ViewOption.help => c
    | _ => set_displayedView (Some view) c
    end in
  match _displayedView c with
  | None => (c, Returned)
  | Some _ =>
      if same_view (_displayedView c) previousView then (c, Returned)
      else
        match view with
        | ViewOption.home =>
            match previousView with
            | Some ViewOption.sendFile => stopSending now c
            | Some ViewOption.receiveFile => stopReceiving now c
            | _ => (c, Returned)
            end
        | ViewOption.sendFile => _setupSender now c
        | ViewOption.receiveFile => _setupReceiver now c
        | ViewOption.help => (c, Returned)
        end
  end.

(** [closeHelp()] *)
Definition closeHelp (now : Z) (c : t) : t * completion :=
  match _displayedView c with
  | Some view => loadView now view c
  | None => (c, Returned)
  end.

End Core.

(** ** A reference platform

    One instance of [Platform], used to run the protocol on concrete
    files: SHA-256 after FIPS 180-4 and a JSON reader and writer for
    the values of [Js.value]. *)

Module SHA256.

Local Open Scope N_scope.

Definition word (x : N) : N := x mod 4294967296.

Definition add (x y : N) : N := word (x + y).

Definition rotr (n x : N) : N :=
  N.lor (N.shiftr x n) (word (N.shiftl x (32 - n))).

Definition Ch (x y z : N) : N :=
  N.lxor (N.land x y) (N.land (N.lxor x 4294967295) z).

Definition Maj (x y z : N) : N :=
  N.lxor (N.lxor (N.land x y) (N.land x z)) (N.land y z).

Definition Sum0 (x : N) : N := N.lxor (N.lxor (rotr 2 x) (rotr 13 x)) (rotr 22 x).

Definition Sum1 (x : N) : N := N.lxor (N.lxor (rotr 6 x) (rotr 11 x)) (rotr 25 x).

Definition sig0 (x : N) : N := N.lxor (N.lxor (rotr 7 x) (rotr 18 x)) (N.shiftr x 3).

Definition sig1 (x : N) : N := N.lxor (N.lxor (rotr 17 x) (rotr 19 x)) (N.shiftr x 10).

(** The constants of the standard are fractional parts of roots of the
    first primes; they are computed here rather than listed. *)
Definition is_prime (n : nat) : bool :=
  forallb (fun d => negb (Nat.eqb (n mod d) 0)) (seq 2 (n - 2)).

Definition primes : list N :=
  Eval vm_compute in map N.of_nat (filter is_prime (seq 2 310)).

(** The largest [r] below [2 ^ bits] with [r ^ 3 <= n], given the part
    [r] found so far. *)
Fixpoint cube_root (bits : nat) (n r : N) : N :=
  match bits with
  | O => r
  | S b =>
      let r' := r + 2 ^ N.of_nat b in
      cube_root b n (if r' * r' * r' <=? n then r' else r)
  end.

Definition K : list N :=
  Eval vm_compute in
    map (fun p => word (cube_root 40 (p * 2 ^ 96) 0)) primes.

Definition H0 : list N :=
  Eval vm_compute in
    map (fun p => word (N.sqrt (p * 2 ^ 64))) (firstn 8 primes).

Definition be32 (x : N) : list N :=
  [x / 16777216; (x / 65536) mod 256; (x / 256) mod 256; x mod 256].

(** The message, the bit 1, zeros up to 56 modulo 64, and the length
    in bits on eight bytes. *)
Definition padded (msg : list N) : list N :=
  let len := N.of_nat (length msg) in
  let zeros := N.to_nat ((119 - len mod 64) mod 64) in
  msg ++ [128] ++ repeat 0 zeros
      ++ be32 (word ((len * 8) / 4294967296)) ++ be32 (word (len * 8)).

Fixpoint words (bs : list N) : list N :=
  match bs with
  | a :: b :: c :: d :: r => (a * 16777216 + b * 65536 + c * 256 + d) :: words r
  | _ => []
  end.

Fixpoint schedule (n : nat) (ws : list N) : list N :=
  match n with
  | O => ws
  | S n' =>
      let t := length ws in
      let w i := nth (t - i) ws 0 in
      schedule n' (ws ++ [add (add (sig1 (w 2%nat)) (w 7%nat))
                              (add (sig0 (w 15%nat)) (w 16%nat))])
  end.

Definition round (s : list N) (kw : N * N) : list N :=
  match s with
  | [a; b; c; d; e; f; g; h] =>
      let t1 := add (add (add h (Sum1 e)) (add (Ch e f g) (fst kw))) (snd kw) in
      let t2 := add (Sum0 a) (Maj a b c) in
      [add t1 t2; a; b; c; add d t1; e; f; g]
  | _ => s
  end.

Definition compress (h : list N) (block : list N) : list N :=
  let ws := schedule 48 block in
  map (fun xy => add (fst xy) (snd xy))
      (combine h (fold_left round (combine K ws) h)).

Fixpoint blocks (fuel : nat) (h : list N) (ws : list N) : list N :=
  match fuel with
  | O => h
  | S fuel' =>
      match ws with
      | [] => h
      | _ => blocks fuel' (compress h (firstn 16 ws)) (skipn 16 ws)
      end
  end.

Definition digest (msg : list byte) : list byte :=
  let ws := words (padded (map Byte.to_N msg)) in
  map (fun n => byte_of_ascii (ascii_of_N n))
      (flat_map be32 (blocks (length ws) H0 ws)).

End SHA256.

Module Json.

Local Open Scope list_scope.

Definition quote : ascii := ascii_of_N 34.

Definition backslash : ascii := ascii_of_N 92.

Definition chars (s : string) : list ascii := list_ascii_of_string s.

(** *** Writing *)

Definition decimal (n : Z) : list ascii :=
  chars (DecimalString.NilZero.string_of_int (Z.to_int n)).

Definition escape (c : ascii) : list ascii :=
  let n := N_of_ascii c in
  if Ascii.eqb c quote then [backslash; quote]
  else if Ascii.eqb c backslash then [backslash; backslash]
  else if (n =? 8)%N then backslash :: chars "b"
  else if (n =? 9)%N then backslash :: chars "t"
  else if (n =? 10)%N then backslash :: chars "n"
  else if (n =? 12)%N then backslash :: chars "f"
  else if (n =? 13)%N then backslash :: chars "r"
  else if (n <? 32)%N
       then backslash :: chars "u00" ++ [Utils.hex_digit (n / 16); Utils.hex_digit (n mod 16)]
  else [c].

Definition quoted (s : string) : list ascii :=
  quote :: flat_map escape (chars s) ++ [quote].

Fixpoint join (sep : list ascii) (parts : list (list ascii)) : list ascii :=
  match parts with
  | [] => []
  | [p] => p
  | p :: r => p ++ sep ++ join sep r
  end.

Fixpoint write (v : Js.value) : list ascii :=
  match v with
  | Js.Undefined | Js.Null => chars "null"
  | Js.Bool true => chars "true"
  | Js.Bool false => chars "false"
  | Js.Num n => decimal n
  | Js.Str s => quoted s
  | Js.Arr items => chars "[" ++ join (chars ",") (map write items) ++ chars "]"
  | Js.Obj fields =>
      chars "{"
        ++ join (chars ",")
             (flat_map
                (fun kv =>
                   if Js.is_undefined (snd kv) then []
                   else [quoted (fst kv) ++ chars ":" ++ write (snd kv)])
                fields)
        ++ chars "}"
  end.

Definition stringify (v : Js.value) : string := string_of_list_ascii (write v).

(** *** Reading *)

Definition is_ws (c : ascii) : bool :=
  match N_of_ascii c with
  | 9%N | 10%N | 13%N | 32%N => true
  | _ => false
  end.

Fixpoint skip_ws (l : list ascii) : list ascii :=
  match l with
  | c :: r => if is_ws c then skip_ws r else l
  | [] => []
  end.

Definition hex_value (c : ascii) : option N :=
  let n := N_of_ascii c in
  if ((48 <=? n) && (n <=? 57))%N then Some (n - 48)%N
  else if ((97 <=? n) && (n <=? 102))%N then Some (n - 87)%N
  else if ((65 <=? n) && (n <=? 70))%N then Some (n - 55)%N
  else None.

(** The characters of a string literal after its opening quote. Code
    units above 255 in a [\u] escape are outside the embedding. *)
Fixpoint string_body (l : list ascii) (acc : list ascii)
  : option (string * list ascii) :=
  match l with
  | [] => None
  | c :: r =>
      if Ascii.eqb c quote then Some (string_of_list_ascii (rev acc), r)
      else if Ascii.eqb c backslash then
        match r with
        | e :: r' =>
            match N_of_ascii e with
            | 34%N => string_body r' (quote :: acc)
            | 92%N => string_body r' (backslash :: acc)
            | 47%N => string_body r' ("/"%char :: acc)
            | 98%N => string_body r' (ascii_of_N 8 :: acc)
            | 102%N => string_body r' (ascii_of_N 12 :: acc)
            | 110%N => string_body r' (ascii_of_N 10 :: acc)
            | 114%N => string_body r' (ascii_of_N 13 :: acc)
            | 116%N => string_body r' (ascii_of_N 9 :: acc)
            | 117%N =>
                match r' with
                | h1 :: h2 :: h3 :: h4 :: r'' =>
                    match hex_value h1, hex_value h2, hex_value h3, hex_value h4 with
                    | Some 0%N, Some 0%N, Some a, Some b =>
                        string_body r'' (ascii_of_N (a * 16 + b) :: acc)
                    | _, _, _, _ => None
                    end
                | _ => None
                end
            | _ => None
            end
        | [] => None
        end
      else if (N_of_ascii c <? 32)%N then None
      else string_body r (c :: acc)
  end.

Definition is_digit (c : ascii) : bool :=
  ((48 <=? N_of_ascii c) && (N_of_ascii c <=? 57))%N.

Fixpoint span_digits (l : list ascii) : list ascii * list ascii :=
  match l with
  | c :: r =>
      if is_digit c then let (d, rest) := span_digits r in (c :: d, rest)
      else ([], l)
  | [] => ([], [])
  end.

(** An integer numeral; a fraction or an exponent is outside the
    embedding. *)
Definition number (l : list ascii) : option (Z * list ascii) :=
  let (neg, l') :=
    match l with
    | c :: r => if Ascii.eqb c "-"%char then (true, r) else (false, l)
    | [] => (false, l)
    end in
  let (d, rest) := span_digits l' in
  match d, rest with
  | [], _ => None
  | c :: _ :: _, _ => if Ascii.eqb c "0"%char then None else
      match rest with
      | x :: _ =>
          if Ascii.eqb x "."%char || Ascii.eqb x "e"%char || Ascii.eqb x "E"%char
          then None
          else option_map (fun u => ((if neg then - Z.of_uint u else Z.of_uint u), rest))
                 (DecimalString.NilZero.uint_of_string (string_of_list_ascii d))
      | [] => option_map (fun u => ((if neg then - Z.of_uint u else Z.of_uint u), rest))
                 (DecimalString.NilZero.uint_of_string (string_of_list_ascii d))
      end
  | _, x :: _ =>
      if Ascii.eqb x "."%char || Ascii.eqb x "e"%char || Ascii.eqb x "E"%char
      then None
      else option_map (fun u => ((if neg then - Z.of_uint u else Z.of_uint u), rest))
             (DecimalString.NilZero.uint_of_string (string_of_list_ascii d))
  | _, [] => option_map (fun u => ((if neg then - Z.of_uint u else Z.of_uint u), rest))
             (DecimalString.NilZero.uint_of_string (string_of_list_ascii d))
  end.

Fixpoint strip_prefix (p l : list ascii) : option (list ascii) :=
  match p, l with
  | [], _ => Some l
  | x :: p', y :: l' => if Ascii.eqb x y then strip_prefix p' l' else None
  | _ :: _, [] => None
  end.

(** A later member with the same key replaces the earlier one. *)
Fixpoint put (k : string) (v : Js.value) (fields : list (string * Js.value))
  : list (string * Js.value) :=
  match fields with
  | [] => [(k, v)]
  | (k', v') :: r => if String.eqb k k' then (k, v) :: r else (k', v') :: put k v r
  end.

Fixpoint value (fuel : nat) (l : list ascii) : option (Js.value * list ascii) :=
  match fuel with
  | O => None
  | S fuel' =>
      match skip_ws l with
      | [] => None
      | c :: r =>
          match N_of_ascii c with
          | 123%N =>
              match skip_ws r with
              | x :: r' =>
                  if Ascii.eqb x "}"%char then Some (Js.Obj [], r')
                  else members fuel' [] (skip_ws r)
              | [] => None
              end
          | 91%N =>
              match skip_ws r with
              | x :: r' =>
                  if Ascii.eqb x "]"%char then Some (Js.Arr [], r')
                  else elements fuel' [] (skip_ws r)
              | [] => None
              end
          | 34%N =>
              option_map (fun sr => (Js.Str (fst sr), snd sr)) (string_body r [])
          | 116%N => option_map (pair (Js.Bool true)) (strip_prefix (chars "rue") r)
          | 102%N => option_map (pair (Js.Bool false)) (strip_prefix (chars "alse") r)
          | 110%N => option_map (pair Js.Null) (strip_prefix (chars "ull") r)
          | _ => option_map (fun nr => (Js.Num (fst nr), snd nr)) (number (c :: r))
          end
      end
  end
with elements (fuel : nat) (acc : list Js.value) (l : list ascii)
  : option (Js.value * list ascii) :=
  match fuel with
  | O => None
  | S fuel' =>
      match value fuel' l with
      | Some (v, rest) =>
          match skip_ws rest with
          | x :: r =>
              if Ascii.eqb x ","%char then elements fuel' (acc ++ [v]) r
              else if Ascii.eqb x "]"%char then Some (Js.Arr (acc ++ [v]), r)
              else None
          | [] => None
          end
      | None => None
      end
  end
with members (fuel : nat) (acc : list (string * Js.value)) (l : list ascii)
  : option (Js.value * list ascii) :=
  match fuel with
  | O => None
  | S fuel' =>
      match skip_ws l with
      | q :: r =>
          if Ascii.eqb q quote then
            match string_body r [] with
            | Some (k, rest) =>
                match skip_ws rest with
                | colon :: rest' =>
                    if Ascii.eqb colon ":"%char then
                      match value fuel' rest' with
                      | Some (v, rest'') =>
                          match skip_ws rest'' with
                          | x :: r' =>
                              if Ascii.eqb x ","%char then members fuel' (put k v acc) r'
                              else if Ascii.eqb x "}"%char then Some (Js.Obj (put k v acc), r')
                              else None
                          | [] => None
                          end
                      | None => None
                      end
                    else None
                | [] => None
                end
            | None => None
            end
          else None
      | [] => None
      end
  end.

(** The whole text is one value, white space around it allowed. *)
Definition read (s : string) : option Js.value :=
  let l := chars s in
  match value (S (length l)) l with
  | Some (v, rest) => match skip_ws rest with [] => Some v | _ => None end
  | None => None
  end.

(** [String(v)]; [None] when the conversion throws. *)
Fixpoint to_string (v : Js.value) : option (list ascii) :=
  match v with
  | Js.Undefined => Some (chars "undefined")
  | Js.Null => Some (chars "null")
  | Js.Bool true => Some (chars "true")
  | Js.Bool false => Some (chars "false")
  | Js.Num n => Some (decimal n)
  | Js.Str s => Some (chars s)
  | Js.Arr items =>
      fold_right
        (fun x acc =>
           match acc, (match x with
                       | Js.Undefined | Js.Null => Some []
                       | _ => to_string x
                       end) with
           | Some (_ :: _ as rest), Some sx => Some (sx ++ chars "," ++ rest)
           | Some [], Some sx => Some sx
           | _, _ => None
           end)
        (Some []) items
  | Js.Obj fields =>
      match Js.assoc "toString" fields with
      | Js.Undefined => Some (chars "[object Object]")
      | _ => None
      end
  end.

(** [JSON.parse(v)]: the argument is converted to a string first. *)
Definition parse (v : Js.value) : option Js.value :=
  match to_string v with
  | Some l => read (string_of_list_ascii l)
  | None => None
  end.

(** [a == b] for operands of different types: a boolean counts as 0
    or 1, a string compared with a number is read as a signed decimal
    integer (other numerals are outside the embedding), an object or
    array is converted to a string first. *)
Definition to_integer (s : string) : option Z :=
  match JsString.trim s with
  | EmptyString => Some 0
  | t => option_map Z.of_int (DecimalString.NilZero.int_of_string t)
  end.

Definition primitive_equal (a b : Js.value) : bool :=
  let num v :=
    match v with
    | Js.Num n => Some n
    | Js.Bool true => Some 1
    | Js.Bool false => Some 0
    | Js.Str s => to_integer s
    | _ => None
    end in
  match a, b with
  | Js.Str x, Js.Str y => String.eqb x y
  | _, _ =>
      match num a, num b with
      | Some x, Some y => Z.eqb x y
      | _, _ => false
      end
  end.

Definition coerced (a b : Js.value) : bool :=
  let prim v :=
    match v with
    | Js.Arr _ | Js.Obj _ =>
        option_map (fun l => Js.Str (string_of_list_ascii l)) (to_string v)
    | _ => Some v
    end in
  match prim a, prim b with
  | Some x, Some y => primitive_equal x y
  | _, _ => false
  end.

End Json.

(** The reference platform. *)
#[global] Instance reference : Platform := {|
  JSON_parse := Json.parse;
  JSON_stringify := Json.stringify;
  subtle_digest_SHA256 := SHA256.digest;
  coerced_equal := Json.coerced
|}.

(** ** A session: a Sender and a Receiver facing each other *)

Module Session.

Section WithPlatform.

Context {P : Platform}.

Record t : Type := {
  sender : Core.t;
  receiver : Core.t
}.

(** What the Receiver's camera makes of the code the Sender shows: the
    object shown, or the same with the body of a chunk misread in a way
    the digest reveals. Kind and nonce are read as shown. *)
Inductive read_by_receiver (shown : Js.value) : Js.value -> Prop :=
| receiver_reads_shown : read_by_receiver shown shown
| receiver_misreads (k : ChunkType.t) (bd bd' : string) (dt : Z) :
    shown = Core.qrData k bd dt ->
    k = ChunkType.okNext \/ k = ChunkType.invalidSha256 ->
    Utils.sha256 bd' <> Utils.sha256 bd ->
    read_by_receiver shown (Core.qrData k bd' dt).

(** The digest the Sender expects. *)
Definition expected (c : Core.t) : option string :=
  match Core._fileWorker c with
  | Some w => FileWorker.lastChunkSha256 w
  | None => None
  end.

(** What the Sender's camera makes of the code the Receiver shows: the
    object shown, or a digest misread as something other than the digest
    the Sender expects. *)
Inductive read_by_sender (c : Core.t) (shown : Js.value) : Js.value -> Prop :=
| sender_reads_shown : read_by_sender c shown shown
| sender_misreads (bd bd' : string) (dt : Z) :
    shown = Core.qrData ChunkType.evalSha256 bd dt ->
    Some bd' <> expected c ->
    read_by_sender c shown (Core.qrData ChunkType.evalSha256 bd' dt).

(** One step: a camera decodes the text [rawData] from the code the
    peer shows, and [_onQRDataReceived] runs on it. *)
Inductive step (s : t) : t -> Prop :=
| receiver_observes (now : Z) (rawData : string) (shown seen : Js.value) :
    Core.qrCode (sender s) = Some shown ->
    read_by_receiver shown seen ->
    JsString.trim rawData <> EmptyString ->
    JSON_parse (Js.Str (JsString.trim rawData)) = Some seen ->
    step s {| sender := sender s;
              receiver :=
                fst (Core._onQRDataReceived now (Some rawData) (receiver s)) |}
| sender_observes (now : Z) (rawData : string) (shown seen : Js.value) :
    Core.qrCode (receiver s) = Some shown ->
    read_by_sender (sender s) shown seen ->
    JsString.trim rawData <> EmptyString ->
    JSON_parse (Js.Str (JsString.trim rawData)) = Some seen ->
    step s {| sender :=
                fst (Core._onQRDataReceived now (Some rawData) (sender s));
              receiver := receiver s |}.

Inductive reachable (s0 : t) : t -> Prop :=
| reachable_start : reachable s0 s0
| reachable_step (s s' : t) : reachable s0 s -> step s s' -> reachable s0 s'.

(** The Sender after a file was picked, a chunk size chosen and
    [startSending] called at the clock reading [now]; the Receiver
    after [startReceiving]. The nonces remembered from earlier sessions
    and the make of the QR views are arbitrary. *)
Definition start (file : FileWorker.File) (chunkSize now : Z)
  (senderLast receiverLast : Js.value) (senderImg receiverImg : bool) : t := {|
  sender :=
    fst (Core.startSending now {|
      Core._displayedView := Some ViewOption.sendFile;
      Core._fileWorker :=
        Some (FileWorker.updateChunkSize chunkSize (FileWorker.createReader file));
      Core._isRunning := false;
      Core._lastReceivedDatetime := senderLast;
      Core.qrCode := None;
      Core.qrViewHasImg := senderImg;
      Core.downloads := []
    |});
  receiver :=
    Core.startReceiving {|
      Core._displayedView := Some ViewOption.receiveFile;
      Core._fileWorker := None;
      Core._isRunning := false;
      Core._lastReceivedDatetime := receiverLast;
      Core.qrCode := None;
      Core.qrViewHasImg := receiverImg;
      Core.downloads := []
    |}
|}.

(** Runs a list of observations, alternately by the Receiver ([true])
    and the Sender ([false]), each reading the text of the code shown
    by the peer at the given clock reading. *)
Definition observe (who : bool) (now : Z) (s : t) : t :=
  if who then
    {| sender := sender s;
       receiver :=
         fst (Core._onQRDataReceived now
                (option_map JSON_stringify (Core.qrCode (sender s)))
                (receiver s)) |}
  else
    {| sender :=
         fst (Core._onQRDataReceived now
                (option_map JSON_stringify (Core.qrCode (receiver s)))
                (sender s));
       receiver := receiver s |}.

Fixpoint run (obs : list (bool * Z)) (s : t) : t :=
  match obs with
  | [] => s
  | (who, now) :: r => run r (observe who now s)
  end.

(** A run in which every text decoded is the text of the code shown:
    the peer shows a code, and its text parses back to the object
    shown. *)
Fixpoint faithful (obs : list (bool * Z)) (s : t) : Prop :=
  match obs with
  | [] => True
  | (who, now) :: r =>
      (exists shown,
         Core.qrCode (if who then sender s else receiver s) = Some shown /\
         JsString.trim (JSON_stringify shown) <> EmptyString /\
         JSON_parse (Js.Str (JsString.trim (JSON_stringify shown))) = Some shown)
      /\ faithful r (observe who now s)
  end.

(** A run given by the texts decoded, which may be misreadings:
    [true] for a text the Receiver's camera decodes, [false] for one
    the Sender's camera decodes. *)
Definition observe_text (who : bool) (now : Z) (rawData : string) (s : t) : t :=
  if who then
    {| sender := sender s;
       receiver := fst (Core._onQRDataReceived now (Some rawData) (receiver s)) |}
  else
    {| sender := fst (Core._onQRDataReceived now (Some rawData) (sender s));
       receiver := receiver s |}.

Fixpoint play (obs : list (bool * Z * string)) (s : t) : t :=
  match obs with
  | [] => s
  | (who, now, rawData) :: r => play r (observe_text who now rawData s)
  end.

(** Every text of the run is what the camera may make of the code the
    peer shows at that point. *)
Fixpoint admissible (obs : list (bool * Z * string)) (s : t) : Prop :=
  match obs with
  | [] => True
  | (who, now, rawData) :: r =>
      (exists shown seen,
         Core.qrCode (if who then sender s else receiver s) = Some shown /\
         (if who then read_by_receiver shown seen
          else read_by_sender (sender s) shown seen) /\
         JsString.trim rawData <> EmptyString /\
         JSON_parse (Js.Str (JsString.trim rawData)) = Some seen)
      /\ admissible r (observe_text who now rawData s)
  end.

(** *** The transfer of one file

    The chunks of [file] in pieces of [chunkSize] bytes, and what the
    two peers hold at each stage of the transfer. *)

Section Transfer.

Local Open Scope list_scope.

Variable file : FileWorker.File.

Variable chunkSize : Z.

(** Chunk number [k], counted from zero, its wire form and digest. *)
Definition chunk (k : nat) : list byte :=
  Blob.slice (FileWorker.content file) (Z.of_nat k * chunkSize)
    (Z.of_nat k * chunkSize + chunkSize).

Definition wire (k : nat) : string := Utils.blobAsBase64 (chunk k).

Definition digest (k : nat) : string := Utils.sha256 (wire k).

Definition chunks : Z := ceil_div (FileWorker.size file) chunkSize.

(** The first [j] chunks. *)
Definition prefix (j : nat) : list (list byte) := map chunk (seq 0 j).

(** The Sender's worker after [n] chunks were read. *)
Definition reader (n : nat) : FileWorker.t :=
  let w := FileWorker.updateChunkSize chunkSize (FileWorker.createReader file) in
  match n with
  | O => w
  | S k =>
      FileWorker.set_curChunk (Z.of_nat n)
        (FileWorker.set_lastChunk (Some (chunk k)) (Some (wire k))
           (Some (digest k)) w)
  end.

Definition sender_at (n : nat) (c : Core.t) : Prop :=
  Core._displayedView c = Some ViewOption.sendFile /\
  Core._isRunning c = true /\
  Core._fileWorker c = Some (reader n) /\
  Z.of_nat n <= chunks.

(** The Receiver collects with the worker [w]; nothing was handed
    over yet. *)
Definition collecting (c : Core.t) (w : FileWorker.t) : Prop :=
  Core._displayedView c = Some ViewOption.receiveFile /\
  Core._isRunning c = true /\
  Core._fileWorker c = Some w /\
  FileWorker.readMode w = false /\
  Core.downloads c = [].

(** The pending chunk, as the blobs a commit would append. *)
Definition pending_blobs (w : FileWorker.t) : list (list byte) :=
  match FileWorker.lastChunkBlob w with
  | Some b => [b]
  | None => []
  end.

(** The observer has stored the nonce of the code the other peer
    shows, if it shows one: a sighting changes nothing. *)
Definition seen (observer shower : Core.t) : Prop :=
  match Core.qrCode shower with
  | None => True
  | Some q =>
      exists k bd dt,
        q = Core.qrData k bd dt /\
        Core._lastReceivedDatetime observer = Js.Num dt
  end.

Definition sender_idle (s : t) : Prop := seen (sender s) (receiver s).

Definition receiver_idle (s : t) : Prop :=
  Core._isRunning (receiver s) = false \/ seen (receiver s) (sender s).

(** It is the Receiver's turn: what the Sender shows, after reading
    [n] chunks, fits what the Receiver holds. *)
Definition receiver_due (n : nat) (s : t) : Prop :=
  exists k bd dt,
    Core.qrCode (sender s) = Some (Core.qrData k bd dt) /\
    match k with
    | ChunkType.metaInfo =>
        n = O /\
        Core._displayedView (receiver s) = Some ViewOption.receiveFile /\
        Core._isRunning (receiver s) = true /\
        Core._fileWorker (receiver s) = None /\
        Core.downloads (receiver s) = []
    | ChunkType.okNext =>
        exists j w,
          n = S j /\ bd = wire j /\ collecting (receiver s) w /\
          FileWorker._writerBuffer w ++ pending_blobs w = prefix j
    | ChunkType.invalidSha256 =>
        exists j w,
          n = S j /\ bd = wire j /\ collecting (receiver s) w /\
          FileWorker._writerBuffer w = prefix j
    | ChunkType.completed =>
        exists w,
          Z.of_nat n = chunks /\ collecting (receiver s) w /\
          FileWorker._writerBuffer w ++ pending_blobs w = prefix n
    | _ => False
    end.

(** It is the Sender's turn: what the Receiver shows fits what the
    Sender holds. A digest on show belongs to the pending chunk, which
    is chunk [n] of the file unless the digest is wrong. *)
Definition sender_due (n : nat) (s : t) : Prop :=
  exists k bd dt w,
    Core.qrCode (receiver s) = Some (Core.qrData k bd dt) /\
    collecting (receiver s) w /\
    match k with
    | ChunkType.metaInfoReceived =>
        n = O /\ FileWorker._writerBuffer w = [] /\
        FileWorker.lastChunkBlob w = None
    | ChunkType.evalSha256 =>
        exists j b,
          n = S j /\ FileWorker._writerBuffer w = prefix j /\
          FileWorker.lastChunkBlob w = Some b /\
          (b = chunk j \/ bd <> digest j)
    | _ => False
    end.

(** Whatever was handed over for download is the file. *)
Definition safe (s : t) : Prop :=
  forall d, In d (Core.downloads (receiver s)) ->
            FileWorker.blobContent d = FileWorker.content file.

Definition invariant (s : t) : Prop :=
  safe s /\
  exists n,
    sender_at n (sender s) /\
    ((sender_idle s /\ (receiver_idle s \/ receiver_due n s)) \/
     (receiver_idle s /\ (sender_idle s \/ sender_due n s))).

(** *** What the Sender may show, whatever it observes *)

(** The Sender's worker after a call of [readNextChunk] that found all
    [n] chunks read: the cache is cleared. *)
Definition cleared (n : nat) : FileWorker.t :=
  FileWorker.set_lastChunk None None None (reader n).

(** The text of the meta information the Sender starts with. *)
Definition meta_text : string :=
  JsString.trim (JSON_stringify (FileWorker.metaInfo (reader 0))).

(** What a Sender that has read [n] chunks may have on show: nothing,
    the meta information, a chunk it has read, or [completed] once all
    chunks are read. *)
Definition sender_shows (n : nat) (q : option Js.value) : Prop :=
  match q with
  | None => True
  | Some q =>
      exists dt,
        q = Core.qrData ChunkType.metaInfo meta_text dt \/
        (exists j, (j < n)%nat /\
           (q = Core.qrData ChunkType.okNext (wire j) dt \/
            q = Core.qrData ChunkType.invalidSha256 (wire j) dt)) \/
        (Z.of_nat n = chunks /\
         q = Core.qrData ChunkType.completed EmptyString dt)
  end.

(** The state of a Sender that has read [n] chunks: it runs in the send
    view, holds the reader after [n] reads (or the same with its cache
    cleared, past the end), and shows what the reads allow. *)
Definition sending (n : nat) (c : Core.t) : Prop :=
  Z.of_nat n <= chunks /\
  Core._displayedView c = Some ViewOption.sendFile /\
  Core._isRunning c = true /\
  (Core._fileWorker c = Some (reader n) \/
   (Z.of_nat n = chunks /\ Core._fileWorker c = Some (cleared n))) /\
  sender_shows n (Core.qrCode c).

(** *** A run without misreadings, the peers taking turns *)

(** A stored nonce that no code shown at [bound] or later repeats: no
    number, or a number below [bound]. *)
Definition older (bound : Z) (v : Js.value) : Prop :=
  match v with
  | Js.Num n => n < bound
  | _ => True
  end.

(** The peers observe in turn at the clock readings [ts], the Receiver
    first when [who] holds. *)
Fixpoint turns (who : bool) (ts : list Z) : list (bool * Z) :=
  match ts with
  | [] => []
  | now :: r => (who, now) :: turns (negb who) r
  end.

(** Clock readings after [bound], each after the one before. *)
Fixpoint increasing (bound : Z) (ts : list Z) : Prop :=
  match ts with
  | [] => True
  | now :: r => bound < now /\ increasing now r
  end.

(** [JSON.parse] undoes [JSON.stringify] on the object [shown]: the
    text is not blank and parses back to the object. *)
Definition reads_back (shown : Js.value) : Prop :=
  JsString.trim (JSON_stringify shown) <> EmptyString /\
  JSON_parse (Js.Str (JsString.trim (JSON_stringify shown))) = Some shown.

(** The kinds and bodies of the envelopes of the transfer: the meta
    information and its acknowledgement, every chunk and its digest,
    and [completed]. *)
Definition envelopes : list (ChunkType.t * string) :=
  (ChunkType.metaInfo, meta_text)
    :: (ChunkType.metaInfoReceived, EmptyString)
    :: (ChunkType.completed, EmptyString)
    :: flat_map (fun j => [(ChunkType.okNext, wire j);
                           (ChunkType.evalSha256, digest j)])
         (seq 0 (Z.to_nat chunks)).

(** The code on show can be read. *)
Definition legible (c : Core.t) : Prop :=
  exists shown, Core.qrCode c = Some shown /\ reads_back shown.

(** The code [shower] shows is the envelope of kind [k] with body [bd],
    shown no later than [bound] and new to [observer]; what [shower]
    has stored is no later than [bound] either. *)
Definition shows_new (k : ChunkType.t) (bd : string) (bound : Z)
  (shower observer : Core.t) : Prop :=
  exists dt,
    Core.qrCode shower = Some (Core.qrData k bd dt) /\ dt <= bound /\
    older dt (Core._lastReceivedDatetime observer) /\
    older (bound + 1) (Core._lastReceivedDatetime shower).

(** The Receiver waits for the meta information. *)
Definition awaiting (c : Core.t) : Prop :=
  Core._displayedView c = Some ViewOption.receiveFile /\
  Core._isRunning c = true /\
  Core._fileWorker c = None /\
  Core.downloads c = [].

(** The Receiver's worker carries the name, the type and the chunk
    count the Sender's worker has. *)
Definition named (w : FileWorker.t) : Prop :=
  FileWorker.inputFileName w = FileWorker.inputFileName (reader 0) /\
  FileWorker.inputFileType w = FileWorker.inputFileType (reader 0) /\
  FileWorker.fileChunks w = FileWorker.fileChunks (reader 0).

(** The Receiver holds the first [j] chunks, the last of them pending
    perhaps. *)
Definition received (j : nat) (c : Core.t) : Prop :=
  exists w,
    collecting c w /\ named w /\
    FileWorker._writerBuffer w ++ pending_blobs w = prefix j.

(** The Receiver holds the first [j] chunks committed and chunk [j]
    pending. *)
Definition pending (j : nat) (c : Core.t) : Prop :=
  exists w,
    collecting c w /\ named w /\
    FileWorker._writerBuffer w = prefix j /\
    FileWorker.lastChunkBlob w = Some (chunk j).

(** What the Receiver hands over when all went well: the content of
    the file under the name and the type the Sender announced. *)
Definition delivery : FileWorker.Download := {|
  FileWorker.download := FileWorker.inputFileName (reader 0);
  FileWorker.blobType := FileWorker.inputFileType (reader 0);
  FileWorker.blobContent := FileWorker.content file
|}.

End Transfer.

End WithPlatform.

End Session.

(** ** Concrete files and peers, on the reference platform *)

Module Example.

(** The eight bytes 0 to 7. *)
Definition file8 : FileWorker.File := {|
  FileWorker.name := "eight.bin";
  FileWorker.type := EmptyString;
  FileWorker.content :=
    ["000"; "001"; "002"; "003"; "004"; "005"; "006"; "007"]%byte
|}.

Definition empty : FileWorker.File := {|
  FileWorker.name := "empty.txt";
  FileWorker.type := "text/plain";
  FileWorker.content := []
|}.

(** A Receiver that has started and waits for the meta information; it
    saw the nonce 10 last. *)
Definition awaiting : Core.t := {|
  Core._displayedView := Some ViewOption.receiveFile;
  Core._fileWorker := None;
  Core._isRunning := true;
  Core._lastReceivedDatetime := Js.Num 10;
  Core.qrCode := None;
  Core.qrViewHasImg := true;
  Core.downloads := []
|}.

(** The text of an envelope, as the peer's QR code carries it. *)
Definition text (k : ChunkType.t) (bd : string) (dt : Z) : string :=
  JSON_stringify (Core.qrData k bd dt).

(** The meta information of [file8] in chunks of four bytes. *)
Definition meta8 : string :=
  Eval vm_compute in
  JSON_stringify
    (FileWorker.metaInfo
       (FileWorker.updateChunkSize 4 (FileWorker.createReader file8))).

(** A Receiver collecting [file8]: the meta information was processed
    at the clock reading 12, nothing is pending. *)
Definition collecting : Core.t :=
  Eval vm_compute in
  fst (Core._onQRDataReceived 12 (Some (text ChunkType.metaInfo meta8 11))
         awaiting).

(** The same Receiver with the first chunk pending. *)
Definition pending : Core.t :=
  Eval vm_compute in
  fst (Core._onQRDataReceived 14 (Some (text ChunkType.okNext "AAECAw==" 13))
         collecting).

(** The worker of a peer that has one. *)
Definition worker (c : Core.t) : FileWorker.t :=
  match Core._fileWorker c with
  | Some w => w
  | None => FileWorker.new
  end.

(** The same Receiver once more, the first chunk committed and nothing
    pending. *)
Definition committed : Core.t :=
  Eval vm_compute in
  Core.set_fileWorker
    (Some (FileWorker.writerCommitPendingChunk (worker pending))) pending.

(** A Sender of [file] in chunks of [chunkSize] bytes that has shown
    its meta information at the clock reading 10. *)
Definition advertising (file : FileWorker.File) (chunkSize : Z) : Core.t :=
  Session.sender (Session.start file chunkSize 10 Js.Null Js.Null true true).

(** The Sender of [file8] in chunks of four bytes, and the Sender of
    the empty file. *)
Definition advertising8 : Core.t := Eval vm_compute in advertising file8 4.

Definition advertising0 : Core.t := Eval vm_compute in advertising empty 128.

(** The Sender of [file8] with its first chunk on show. *)
Definition transmitting : Core.t :=
  Eval vm_compute in
  fst (Core._onQRDataReceived 13
         (Some (text ChunkType.metaInfoReceived EmptyString 12)) advertising8).

(** The session on [file8] in chunks of four bytes, and a run of it
    to the end: each peer in turn reads the code the other one shows;
    the Receiver sees the first chunk twice. *)
Definition session8 : Session.t :=
  Session.start file8 4 10 Js.Null Js.Null true true.

Definition run8 : list (bool * Z) :=
  [(true, 11); (false, 12); (true, 13); (true, 14); (false, 15); (true, 16);
   (false, 17); (true, 18)].

(** A run of the same session with two misreadings: the Receiver
    reads the first chunk with a wrong byte, and the Sender reads the
    digest of the second chunk wrong. Both chunks go out a second
    time. *)
Definition retry8 : list (bool * Z * string) :=
  [(true, 11, text ChunkType.metaInfo meta8 10);
   (false, 12, text ChunkType.metaInfoReceived EmptyString 11);
   (true, 13, text ChunkType.okNext "AAECAg==" 12);
   (false, 14, text ChunkType.evalSha256 (Utils.sha256 "AAECAg==") 13);
   (true, 15, text ChunkType.invalidSha256 "AAECAw==" 14);
   (false, 16, text ChunkType.evalSha256 (Utils.sha256 "AAECAw==") 15);
   (true, 17, text ChunkType.okNext "BAUGBw==" 16);
   (false, 18, text ChunkType.evalSha256 "00" 17);
   (true, 19, text ChunkType.invalidSha256 "BAUGBw==" 18);
   (false, 20, text ChunkType.evalSha256 (Utils.sha256 "BAUGBw==") 19);
   (true, 21, text ChunkType.completed EmptyString 20)].

(** What the Receiver should hand over at the end of these runs. *)
Definition download8 : FileWorker.Download := {|
  FileWorker.download := Js.Str "eight.bin";
  FileWorker.blobType := Js.Str "application/octet-stream";
  FileWorker.blobContent := FileWorker.content file8
|}.

(** Metadata that is invalid on every count: no name, a chunk size of
    zero, a chunk count that fits neither. *)
Definition bad_meta : Js.value :=
  Js.Obj [("fileName", Js.Str EmptyString); ("fileType", Js.Str "text/plain");
          ("fileSize", Js.Num 10); ("fileChunks", Js.Num 7);
          ("chunkSize", Js.Num 0)].

(** Metadata with a chunk count, and metadata with a type, that have
    no primitive conversion: objects with a property of their own
    named [toString]. *)
Definition odd_count_meta : Js.value :=
  Js.Obj [("fileName", Js.Str "eight.bin");
          ("fileType", Js.Str "application/octet-stream");
          ("fileSize", Js.Num 8);
          ("fileChunks", Js.Obj [("toString", Js.Num 1)]);
          ("chunkSize", Js.Num 4)].

Definition odd_type_meta : Js.value :=
  Js.Obj [("fileName", Js.Str "eight.bin");
          ("fileType", Js.Obj [("toString", Js.Num 1)]);
          ("fileSize", Js.Num 8);
          ("fileChunks", Js.Num 2);
          ("chunkSize", Js.Num 4)].

(** The Receiver after it read each of them at the clock reading 12,
    and the second one with the first chunk pending. *)
Definition odd_count : Core.t :=
  Eval vm_compute in
  fst (Core._onQRDataReceived 12
         (Some (text ChunkType.metaInfo (JSON_stringify odd_count_meta) 11))
         awaiting).

Definition odd_type : Core.t :=
  Eval vm_compute in
  fst (Core._onQRDataReceived 12
         (Some (text ChunkType.metaInfo (JSON_stringify odd_type_meta) 11))
         awaiting).

Definition odd_type_pending : Core.t :=
  Eval vm_compute in
  fst (Core._onQRDataReceived 14 (Some (text ChunkType.okNext "AAECAw==" 13))
         odd_type).

End Example.

(* ================================================================== *)
(** * Part II. Properties                                             *)
(* ================================================================== *)

Local Open Scope list_scope.

(** ** Strings *)

Lemma trimEnd_idempotent (s : string) :
  JsString.trimEnd (JsString.trimEnd s) = JsString.trimEnd s.
Proof.
  induction s as [|c r IH]; [reflexivity|].
  cbn [JsString.trimEnd].
  destruct (JsString.trimEnd r) as [|c' r'] eqn:E.
  - destruct (JsString.is_space c) eqn:Ec; cbn [JsString.trimEnd]; [reflexivity|].
    now rewrite Ec.
  - cbn [JsString.trimEnd] in *. now rewrite IH.
Qed.

Lemma trimStart_shape (s : string) :
  JsString.trimStart s = EmptyString \/
  exists c r, JsString.trimStart s = String c r /\ JsString.is_space c = false.
Proof.
  induction s as [|c r IH]; [now left|].
  cbn [JsString.trimStart]. destruct (JsString.is_space c) eqn:Ec; [exact IH|].
  right. now exists c, r.
Qed.

Lemma trimEnd_keeps_head (c : ascii) (r : string) :
  JsString.is_space c = false ->
  exists r', JsString.trimEnd (String c r) = String c r'.
Proof.
  intros Hc. cbn [JsString.trimEnd]. rewrite Hc.
  destruct (JsString.trimEnd r); eauto.
Qed.

Lemma trim_idempotent (s : string) :
  JsString.trim (JsString.trim s) = JsString.trim s.
Proof.
  unfold JsString.trim.
  destruct (trimStart_shape s) as [E | (c & r & E & Hc)]; rewrite E.
  - reflexivity.
  - destruct (trimEnd_keeps_head c r Hc) as [r' E'].
    rewrite E' at 1. cbn [JsString.trimStart]. rewrite Hc, <- E'.
    apply trimEnd_idempotent.
Qed.

Lemma trim_no_space (s : string) :
  JsString.no_space s = true -> JsString.trim s = s.
Proof.
  intros H. unfold JsString.trim.
  assert (Hs : JsString.trimStart s = s).
  { destruct s as [|c r]; [reflexivity|]. cbn in H |- *.
    apply andb_prop in H. destruct H as [H _].
    apply negb_true_iff in H. now rewrite H. }
  rewrite Hs. clear Hs.
  induction s as [|c r IH]; [reflexivity|].
  cbn [JsString.no_space] in H. apply andb_prop in H. destruct H as [Hc Hr].
  apply negb_true_iff in Hc. cbn [JsString.trimEnd].
  rewrite (IH Hr), Hc. now destruct r.
Qed.

Lemma no_space_chars (l : list ascii) :
  Forall (fun c => JsString.is_space c = false) l ->
  JsString.no_space (string_of_list_ascii l) = true.
Proof.
  induction 1 as [|c r Hc _ IH]; [reflexivity|].
  cbn. now rewrite Hc, IH.
Qed.

Lemma trim_empty : JsString.trim EmptyString = EmptyString.
Proof. reflexivity. Qed.

(** ** Base64 *)

Lemma list_ind3 {A : Type} (Q : list A -> Prop) :
  Q [] -> (forall a, Q [a]) -> (forall a b, Q [a; b]) ->
  (forall a b c r, Q r -> Q (a :: b :: c :: r)) ->
  forall l, Q l.
Proof.
  intros H0 H1 H2 H3.
  fix IH 1.
  intros [|a [|b [|c r]]];
    [exact H0 | apply H1 | apply H2 | apply H3; apply IH].
Qed.

Ltac N_arith :=
  try apply N2Z.inj; try apply N2Z.inj_lt;
  repeat (rewrite N2Z.inj_add || rewrite N2Z.inj_mul || rewrite N2Z.inj_div
          || rewrite N2Z.inj_mod);
  cbn [Z.of_N];
  repeat match goal with
  | H : (_ < _)%N |- _ => apply N2Z.inj_lt in H; cbn [Z.of_N] in H
  end;
  repeat match goal with
  | |- context [Z.of_N ?a] =>
      let z := fresh "z" in
      pose proof (N2Z.is_nonneg a); generalize dependent (Z.of_N a);
      intro z; intros
  end;
  Z.div_mod_to_equations; lia.

Lemma byte_bound (b : byte) : (Byte.to_N b < 256)%N.
Proof. pose proof (Byte.to_N_bounded b). lia. Qed.

Lemma below_64 (p : N -> bool) :
  forallb p (map N.of_nat (seq 0 64)) = true ->
  forall k, (k < 64)%N -> p k = true.
Proof.
  intros H k Hk. rewrite forallb_forall in H. apply H.
  apply in_map_iff. exists (N.to_nat k). split; [apply N2Nat.id|].
  apply in_seq. lia.
Qed.

Lemma digit_value (k : N) :
  (k < 64)%N -> Base64.value (Base64.digit k) = Some k.
Proof.
  intros Hk.
  pose proof (below_64
    (fun k => match Base64.value (Base64.digit k) with
              | Some v => N.eqb v k
              | None => false
              end) eq_refl k Hk) as H.
  cbv beta in H. destruct (Base64.value (Base64.digit k)); [|discriminate].
  apply N.eqb_eq in H. now subst.
Qed.

Lemma digit_plain (k : N) :
  (k < 64)%N ->
  Base64.is_ascii_whitespace (Base64.digit k) = false /\
  Ascii.eqb (Base64.digit k) Base64.pad = false /\
  JsString.is_space (Base64.digit k) = false.
Proof.
  intros Hk.
  pose proof (below_64
    (fun k => negb (Base64.is_ascii_whitespace (Base64.digit k))
              && negb (Ascii.eqb (Base64.digit k) Base64.pad)
              && negb (JsString.is_space (Base64.digit k))) eq_refl k Hk) as H.
  cbv beta in H.
  apply andb_prop in H. destruct H as [H H3].
  apply andb_prop in H. destruct H as [H1 H2].
  now rewrite negb_true_iff in H1, H2, H3.
Qed.

Lemma sextets_bound (bs : list byte) :
  Forall (fun k => (k < 64)%N) (Base64.sextets bs).
Proof.
  induction bs as [|a|a b|a b c r IH] using list_ind3.
  - constructor.
  - pose proof (byte_bound a). unfold Base64.sextets, Base64.group.
    change (Byte.to_N "000") with 0%N.
    repeat constructor; N_arith.
  - pose proof (byte_bound a). pose proof (byte_bound b).
    unfold Base64.sextets, Base64.group. change (Byte.to_N "000") with 0%N.
    repeat constructor; N_arith.
  - pose proof (byte_bound a). pose proof (byte_bound b).
    pose proof (byte_bound c).
    change (Base64.sextets (a :: b :: c :: r)) with
      ((Base64.group a b c / 262144 :: (Base64.group a b c / 4096) mod 64
          :: (Base64.group a b c / 64) mod 64 :: Base64.group a b c mod 64
          :: Base64.sextets r)%N).
    unfold Base64.group.
    repeat (constructor; [N_arith|]). exact IH.
Qed.

Lemma values_digits (vs : list N) :
  Forall (fun k => (k < 64)%N) vs ->
  Base64.values (map Base64.digit vs) = Some vs.
Proof.
  induction 1 as [|k r Hk _ IH]; [reflexivity|].
  cbn [map Base64.values]. now rewrite (digit_value k Hk), IH.
Qed.

Lemma units_sextets (bs : list byte) :
  Base64.units (Base64.sextets bs)
  = map (fun b => ascii_of_N (Byte.to_N b)) bs.
Proof.
  induction bs as [|a|a b|a b c r IH] using list_ind3.
  - reflexivity.
  - pose proof (byte_bound a).
    unfold Base64.sextets, Base64.units, Base64.group, map.
    change (Byte.to_N "000") with 0%N.
    do 2 f_equal. N_arith.
  - pose proof (byte_bound a). pose proof (byte_bound b).
    unfold Base64.sextets, Base64.units, Base64.group, map.
    change (Byte.to_N "000") with 0%N.
    f_equal; [f_equal; N_arith|]. f_equal. f_equal. N_arith.
  - pose proof (byte_bound a). pose proof (byte_bound b).
    pose proof (byte_bound c).
    change (Base64.sextets (a :: b :: c :: r)) with
      ((Base64.group a b c / 262144 :: (Base64.group a b c / 4096) mod 64
          :: (Base64.group a b c / 64) mod 64 :: Base64.group a b c mod 64
          :: Base64.sextets r)%N).
    cbn [map].
    match goal with
    | |- Base64.units (?s1 :: ?s2 :: ?s3 :: ?s4 :: ?r) = _ =>
        change (Base64.units (s1 :: s2 :: s3 :: s4 :: r)) with
          (ascii_of_N ((s1 * 262144 + s2 * 4096 + s3 * 64 + s4) / 65536)
           :: ascii_of_N (((s1 * 262144 + s2 * 4096 + s3 * 64 + s4) / 256) mod 256)
           :: ascii_of_N ((s1 * 262144 + s2 * 4096 + s3 * 64 + s4) mod 256)
           :: Base64.units r)%N
    end.
    rewrite IH. unfold Base64.group.
    f_equal; [f_equal; N_arith|]. f_equal; [f_equal; N_arith|].
    f_equal. f_equal. N_arith.
Qed.

Lemma filter_all {A : Type} (f : A -> bool) (l : list A) :
  Forall (fun x => f x = true) l -> filter f l = l.
Proof.
  induction 1 as [|x r Hx _ IH]; [reflexivity|].
  cbn. now rewrite Hx, IH.
Qed.

Lemma digits_plain (bs : list byte) :
  Forall (fun c => Base64.is_ascii_whitespace c = false /\
                   Ascii.eqb c Base64.pad = false /\
                   JsString.is_space c = false) (Base64.digits bs).
Proof.
  unfold Base64.digits. apply Forall_map.
  eapply Forall_impl; [|apply sextets_bound].
  intros k Hk. now apply digit_plain.
Qed.

Lemma padding_step (n : nat) :
  Base64.padding (S (S (S n))) = Base64.padding n.
Proof.
  unfold Base64.padding.
  replace (S (S (S n))) with (n + 1 * 3)%nat by lia.
  now rewrite Nat.Div0.mod_add.
Qed.

(** The number of digits and the padding go together. *)
Lemma digits_padding (bs : list byte) :
  ((length (Base64.digits bs) mod 4 = 0)%nat /\ Base64.padding (length bs) = [])
  \/ ((length (Base64.digits bs) mod 4 = 2)%nat
      /\ Base64.padding (length bs) = [Base64.pad; Base64.pad])
  \/ ((length (Base64.digits bs) mod 4 = 3)%nat
      /\ Base64.padding (length bs) = [Base64.pad]).
Proof.
  unfold Base64.digits.
  induction bs as [|a|a b|a b c r IH] using list_ind3.
  - left. now split.
  - right. left. now split.
  - right. right. now split.
  - change (length (a :: b :: c :: r)) with (S (S (S (length r)))).
    rewrite padding_step.
    change (Base64.sextets (a :: b :: c :: r)) with
      ((Base64.group a b c / 262144 :: (Base64.group a b c / 4096) mod 64
          :: (Base64.group a b c / 64) mod 64 :: Base64.group a b c mod 64
          :: Base64.sextets r)%N).
    cbn [map length].
    replace (S (S (S (S (length (map Base64.digit (Base64.sextets r)))))))
      with (length (map Base64.digit (Base64.sextets r)) + 1 * 4)%nat by lia.
    rewrite Nat.Div0.mod_add. exact IH.
Qed.

Lemma drop_pad_snoc (l : list ascii) :
  Base64.drop_pad (l ++ [Base64.pad]) = l.
Proof.
  unfold Base64.drop_pad. rewrite rev_app_distr. cbn.
  apply rev_involutive.
Qed.

Lemma drop_pad_plain (l : list ascii) :
  Forall (fun c => Ascii.eqb c Base64.pad = false) l -> Base64.drop_pad l = l.
Proof.
  intros H. unfold Base64.drop_pad.
  destruct (rev l) as [|c r] eqn:E; [reflexivity|].
  assert (Hc : In c l) by (apply in_rev; rewrite E; now left).
  rewrite Forall_forall in H. now rewrite (H c Hc).
Qed.

Lemma atob_encode (bs : list byte) :
  Base64.atob (Base64.encode bs)
  = Some (string_of_list_ascii (map (fun b => ascii_of_N (Byte.to_N b)) bs)).
Proof.
  unfold Base64.atob, Base64.encode.
  rewrite list_ascii_of_string_of_list_ascii.
  pose proof (digits_plain bs) as Hplain.
  assert (Hpad : Forall (fun c => Ascii.eqb c Base64.pad = false) (Base64.digits bs)).
  { eapply Forall_impl; [|exact Hplain]. now intros c (_ & H & _). }
  assert (Hws : Forall (fun c => negb (Base64.is_ascii_whitespace c) = true)
                       (Base64.digits bs ++ Base64.padding (length bs))).
  { apply Forall_app. split.
    - eapply Forall_impl; [|exact Hplain]. intros c (H & _). now rewrite H.
    - unfold Base64.padding. destruct (length bs mod 3)%nat as [|[|]];
        repeat constructor. }
  rewrite (filter_all _ _ Hws). clear Hws.
  assert (Hdrop : (if (length (Base64.digits bs ++ Base64.padding (length bs)) mod 4 =? 0)%nat
                   then Base64.drop_pad (Base64.drop_pad
                          (Base64.digits bs ++ Base64.padding (length bs)))
                   else Base64.digits bs ++ Base64.padding (length bs))
                  = Base64.digits bs
                  /\ (length (Base64.digits bs) mod 4 =? 1)%nat = false).
  { rewrite length_app.
    destruct (digits_padding bs) as [[Hl Hp] | [[Hl Hp] | [Hl Hp]]];
      rewrite Hp; cbn [length].
    - rewrite Nat.add_0_r, Hl, app_nil_r. cbn.
      rewrite !(drop_pad_plain _ Hpad). now split.
    - rewrite Nat.Div0.add_mod, Hl. cbn.
      change (Base64.digits bs ++ [Base64.pad; Base64.pad])
        with (Base64.digits bs ++ [Base64.pad] ++ [Base64.pad]).
      rewrite app_assoc, !drop_pad_snoc. now split.
    - rewrite Nat.Div0.add_mod, Hl. cbn.
      rewrite drop_pad_snoc, (drop_pad_plain _ Hpad). now split. }
  destruct Hdrop as [Hdrop Hlen]. rewrite Hdrop, Hlen.
  unfold Base64.digits. rewrite (values_digits _ (sextets_bound bs)).
  cbn [option_map]. now rewrite units_sextets.
Qed.

Lemma byte_of_ascii_of_N (b : byte) :
  byte_of_ascii (ascii_of_N (Byte.to_N b)) = b.
Proof. destruct b; reflexivity. Qed.

Lemma bufferArrayFromBase64_encode (bs : list byte) :
  Utils.bufferArrayFromBase64 (Base64.encode bs) = Some bs.
Proof.
  unfold Utils.bufferArrayFromBase64. rewrite atob_encode.
  rewrite list_ascii_of_string_of_list_ascii, map_map. f_equal.
  rewrite <- (map_id bs) at 2. apply map_ext. exact byte_of_ascii_of_N.
Qed.

Lemma encode_no_space (bs : list byte) :
  JsString.no_space (Base64.encode bs) = true.
Proof.
  unfold Base64.encode. apply no_space_chars. apply Forall_app. split.
  - eapply Forall_impl; [|apply digits_plain]. now intros c (_ & _ & H).
  - unfold Base64.padding. destruct (length bs mod 3)%nat as [|[|]];
      repeat constructor.
Qed.

Lemma blobAsBase64_encode (bs : list byte) :
  Utils.blobAsBase64 bs = Base64.encode bs.
Proof. apply trim_no_space, encode_no_space. Qed.

Lemma blobAsBase64_trimmed (bs : list byte) :
  JsString.trim (Utils.blobAsBase64 bs) = Utils.blobAsBase64 bs.
Proof. apply trim_idempotent. Qed.

(** Round trip: what the Sender encodes, the Receiver decodes. *)
Lemma bufferArrayFromBase64_blobAsBase64 (bs : list byte) :
  Utils.bufferArrayFromBase64 (JsString.trim (Utils.blobAsBase64 bs)) = Some bs.
Proof.
  rewrite blobAsBase64_trimmed, blobAsBase64_encode.
  apply bufferArrayFromBase64_encode.
Qed.

(** ** Digests *)

Lemma hex_digit_plain (n : N) : JsString.is_space (Utils.hex_digit n) = false.
Proof.
  unfold Utils.hex_digit.
  destruct (N.to_nat n) as [|[|[|[|[|[|[|[|[|[|[|[|[|[|[|[|[|k]]]]]]]]]]]]]]]]];
    reflexivity.
Qed.

Lemma hex_no_space (bs : list byte) : JsString.no_space (Utils.hex bs) = true.
Proof.
  unfold Utils.hex. apply no_space_chars.
  induction bs as [|b r IH]; [constructor|].
  cbn [flat_map Utils.hex_byte app].
  repeat (constructor; [apply hex_digit_plain|]). exact IH.
Qed.

Lemma sha256_hex {P : Platform} (message : string) :
  Utils.sha256 message
  = Utils.hex (subtle_digest_SHA256 (JsString.TextEncoder_encode message)).
Proof. unfold Utils.sha256. apply trim_no_space, hex_no_space. Qed.

Lemma sha256_trimmed {P : Platform} (message : string) :
  JsString.trim (Utils.sha256 message) = Utils.sha256 message.
Proof. unfold Utils.sha256. apply trim_idempotent. Qed.

(** ** The handler, guard by guard *)

Section HandlerFacts.

Context {P : Platform}.

Lemma strict_equal_eq (a b : Js.value) :
  Js.strict_equal a b = true -> a = b.
Proof.
  destruct a, b; cbn; try discriminate; intros H; try reflexivity.
  - now apply Bool.eqb_prop in H; subst.
  - now apply Z.eqb_eq in H; subst.
  - now apply String.eqb_eq in H; subst.
Qed.

Lemma strict_equal_Num (a b : Z) :
  Js.strict_equal (Js.Num a) (Js.Num b) = (a =? b).
Proof. reflexivity. Qed.

Lemma set_lastReceivedDatetime_same (c : Core.t) :
  Core.set_lastReceivedDatetime (Core._lastReceivedDatetime c) c = c.
Proof. now destruct c. Qed.

Lemma chunkTypeFromId_id (k : ChunkType.t) :
  Core._chunkTypeFromId (Js.Num (ChunkType.id k)) = k.
Proof. now destruct k. Qed.

Lemma length_zero_iff (s : string) :
  (String.length s =? 0)%nat = false <-> s <> EmptyString.
Proof. destruct s; cbn; split; congruence. Qed.

(** Past the guards on the text, the handler works on the parsed
    object. *)
Lemma observed_parsed (now : Z) (rawData : string) (jsObj : Js.value)
  (c : Core.t) :
  Core._isRunning c = true ->
  JsString.trim rawData <> EmptyString ->
  JSON_parse (Js.Str (JsString.trim rawData)) = Some jsObj ->
  Core._onQRDataReceived now (Some rawData) c = Core.onParsed now jsObj c.
Proof.
  intros Hrun Hne Hparse. unfold Core._onQRDataReceived.
  rewrite Hrun. cbn [negb].
  apply length_zero_iff in Hne. now rewrite Hne, Hparse.
Qed.

(** A decoded envelope: the nonce is stored, and unless it is the one
    stored before, the [switch] runs. *)
Lemma observed_envelope (now : Z) (rawData : string) (ckTId bd dt : Js.value)
  (c : Core.t) :
  Core._isRunning c = true ->
  Core.decodes rawData ckTId bd dt ->
  Core._onQRDataReceived now (Some rawData) c
  = if Js.strict_equal (Core._lastReceivedDatetime c) dt
    then (Core.set_lastReceivedDatetime dt c, Returned)
    else Core.dispatch now (Core._chunkTypeFromId ckTId) bd
           (Core.set_lastReceivedDatetime dt c).
Proof.
  intros Hrun (Hne & jsObj & Hparse & Hck & Hbd & Hdt & Uck & Ubd & Udt).
  rewrite (observed_parsed now rawData jsObj c Hrun Hne Hparse).
  unfold Core.onParsed. rewrite Hck, Hbd, Hdt, Uck, Ubd, Udt.
  reflexivity.
Qed.

Lemma onParsed_qrData (now : Z) (k : ChunkType.t) (bd : string) (dt : Z)
  (c : Core.t) :
  Core.onParsed now (Core.qrData k bd dt) c
  = if Js.strict_equal (Core._lastReceivedDatetime c) (Js.Num dt)
    then (Core.set_lastReceivedDatetime (Js.Num dt) c, Returned)
    else Core.dispatch now k (Js.Str bd)
           (Core.set_lastReceivedDatetime (Js.Num dt) c).
Proof.
  unfold Core.onParsed, Core.qrData.
  change (Js.get (Js.Obj [("ckTId", Js.Num (ChunkType.id k));
                          ("bd", Js.Str bd); ("dt", Js.Num dt)]) "ckTId")
    with (Some (Js.Num (ChunkType.id k))).
  change (Js.get (Js.Obj [("ckTId", Js.Num (ChunkType.id k));
                          ("bd", Js.Str bd); ("dt", Js.Num dt)]) "bd")
    with (Some (Js.Str bd)).
  change (Js.get (Js.Obj [("ckTId", Js.Num (ChunkType.id k));
                          ("bd", Js.Str bd); ("dt", Js.Num dt)]) "dt")
    with (Some (Js.Num dt)).
  cbn [Js.is_undefined orb]. now rewrite chunkTypeFromId_id.
Qed.

(** Nothing in the [switch] touches the stored nonce. *)
Lemma updateQRImage_last (now : Z) (k : option ChunkType.t)
  (input : option string) (c : Core.t) :
  Core._lastReceivedDatetime (fst (Core._updateQRImage now k input c))
  = Core._lastReceivedDatetime c.
Proof.
  unfold Core._updateQRImage.
  destruct (negb (Core._isSenderReceiverView c)); [reflexivity|].
  destruct input, k; try reflexivity; now destruct (Core.qrViewHasImg c).
Qed.

(** The labels written by [_reset] make no difference: no worker is
    left and the peer is stopped. *)
Lemma reset_eq (now : Z) (c : Core.t) :
  Core._reset now c
  = Core._updateQRImage now None None
      (Core.set_fileWorker None (Core.set_isRunning false c)).
Proof.
  unfold Core._reset, Core._updateMetaInformation, Core._updateProgresses.
  cbn [Core._fileWorker Core.set_fileWorker Core._isRunning
       Core.set_isRunning negb].
  now destruct (negb (Core._isSenderReceiverView _)).
Qed.

(** Setting a view up leaves the peer stopped, without worker and, in
    the Sender and Receiver views, without a code on show; it ends
    with an exception when the QR view holds no [img]. *)
Lemma setup_cases (now : Z) (c : Core.t) :
  Core._isSenderReceiverView c = true ->
  Core._setupReceiver now c
  = (Core.set_qrCode None
       (Core.set_fileWorker None (Core.set_isRunning false c)),
     if Core.qrViewHasImg c then Returned else Thrown).
Proof.
  intros Hview. unfold Core._setupReceiver, Core.setQRCodeViewer.
  rewrite Hview, reset_eq. unfold Core._updateQRImage.
  unfold Core._isSenderReceiverView in *.
  cbn [Core._displayedView Core.set_fileWorker Core.set_isRunning
       Core.set_qrCode Core.qrViewHasImg].
  rewrite Hview. cbn [negb].
  now destruct (Core.qrViewHasImg c).
Qed.

Lemma setup_elsewhere (now : Z) (c : Core.t) :
  Core._isSenderReceiverView c = false ->
  Core._setupReceiver now c
  = (Core.set_fileWorker None (Core.set_isRunning false c), Returned).
Proof.
  intros Hview. unfold Core._setupReceiver, Core.setQRCodeViewer.
  rewrite Hview, reset_eq. unfold Core._updateQRImage.
  unfold Core._isSenderReceiverView in *.
  cbn [Core._displayedView Core.set_fileWorker Core.set_isRunning].
  now rewrite Hview.
Qed.

Lemma setup_keeps (now : Z) (c : Core.t) :
  let c' := fst (Core._setupReceiver now c) in
  Core._displayedView c' = Core._displayedView c /\
  Core._isRunning c' = false /\
  Core._fileWorker c' = None /\
  Core._lastReceivedDatetime c' = Core._lastReceivedDatetime c /\
  Core.downloads c' = Core.downloads c /\
  Core.qrViewHasImg c' = Core.qrViewHasImg c.
Proof.
  cbv zeta. destruct (Core._isSenderReceiverView c) eqn:Hview.
  - rewrite (setup_cases now c Hview). now repeat split.
  - rewrite (setup_elsewhere now c Hview). now repeat split.
Qed.

Lemma and_then_cases (labels : completion) (c : Core.t)
  (rest : Core.t * completion) :
  (labels = Returned /\ Core.and_then labels c rest = rest) \/
  (labels = Thrown /\ Core.and_then labels c rest = (c, Thrown)).
Proof. destruct labels; auto. Qed.

Lemma dispatch_last (now : Z) (k : ChunkType.t) (bd : Js.value) (c : Core.t) :
  Core._lastReceivedDatetime (fst (Core.dispatch now k bd c))
  = Core._lastReceivedDatetime c.
Proof.
  unfold Core.dispatch.
  destruct (Core._displayedView c) as [[| | |]|]; try reflexivity.
  - unfold Core.onSendFile.
    destruct k; try reflexivity; destruct (Core._fileWorker c) as [w|];
      try reflexivity.
    + now rewrite updateQRImage_last.
    + cbv zeta. destruct (JsEq.throws bd _); [reflexivity|].
      destruct (JsEq.loose_equal bd _);
        [destruct (JsEq.throws _ _); [reflexivity|];
         destruct (JsEq.loose_equal _ _)|];
        now rewrite updateQRImage_last.
  - unfold Core.onReceiveFile.
    destruct k; try reflexivity; destruct (Core._fileWorker c) as [w|];
      try reflexivity.
    + destruct (JSON_parse bd) as [m|]; [|reflexivity].
      destruct (FileWorker.createWriter m) as [w|]; [|reflexivity].
      cbv zeta.
      destruct (and_then_cases
                  (sequence [Core._updateMetaInformation
                               (Core.set_fileWorker (Some w) c);
                             Core._updateProgresses
                               (Core.set_fileWorker (Some w) c)])
                  (Core.set_fileWorker (Some w) c)
                  (Core._updateQRImage now (Some ChunkType.metaInfoReceived)
                     (Some EmptyString) (Core.set_fileWorker (Some w) c)))
        as [[_ ->] | [_ ->]];
        [now rewrite updateQRImage_last | reflexivity].
    + destruct (FileWorker.writerSetPendingChunk bd _) as [w' []];
        [|reflexivity].
      cbv zeta.
      destruct (and_then_cases
                  (Core._updateProgresses (Core.set_fileWorker (Some w') c))
                  (Core.set_fileWorker (Some w') c)
                  (Core._updateQRImage now (Some ChunkType.evalSha256)
                     (FileWorker.lastChunkSha256 w')
                     (Core.set_fileWorker (Some w') c)))
        as [[_ ->] | [_ ->]];
        [now rewrite updateQRImage_last | reflexivity].
    + destruct (FileWorker.writerSetPendingChunk bd _) as [w' []];
        [|reflexivity].
      cbv zeta.
      destruct (and_then_cases
                  (Core._updateProgresses (Core.set_fileWorker (Some w') c))
                  (Core.set_fileWorker (Some w') c)
                  (Core._updateQRImage now (Some ChunkType.evalSha256)
                     (FileWorker.lastChunkSha256 w')
                     (Core.set_fileWorker (Some w') c)))
        as [[_ ->] | [_ ->]];
        [now rewrite updateQRImage_last | reflexivity].
    + destruct (FileWorker._writerCreateDownloadFile _); [|reflexivity].
      unfold Core.stopReceiving.
      now rewrite (proj1 (proj2 (proj2 (proj2 (setup_keeps now _))))).
Qed.

End HandlerFacts.

(** Splits on how the labels written before an answer end. *)
Ltac labels_cases :=
  cbv zeta;
  match goal with
  | |- context [Core.and_then ?r ?c ?rest] =>
      destruct (and_then_cases r c rest) as [[_ ->] | [_ ->]]
  end.

(** ** The nonce guard *)

Ltac evaluate := vm_compute; reflexivity.

Ltac decode :=
  split;
  [ vm_compute; discriminate
  | eexists;
    repeat (split; [vm_compute; reflexivity|]); vm_compute; reflexivity ].

Section Nonce.

Context {P : Platform}.

(** C3, as amended: an observation whose nonce is the nonce last
    observed on the same side is dropped without any change of state.
    (The guard of [_onQRDataReceived] compares with [===]; a smaller
    nonce is handled like any new one.) *)
Theorem C3_repeated_nonce_dropped (now : Z) (rawData : string)
  (ckTId bd dt : Js.value) (c : Core.t) :
  Core.decodes rawData ckTId bd dt ->
  Js.strict_equal (Core._lastReceivedDatetime c) dt = true ->
  Core._onQRDataReceived now (Some rawData) c = (c, Returned).
Proof.
  intros Hdec Heq.
  destruct (Core._isRunning c) eqn:Hrun.
  - rewrite (observed_envelope now rawData ckTId bd dt c Hrun Hdec), Heq.
    apply strict_equal_eq in Heq. subst dt.
    now rewrite set_lastReceivedDatetime_same.
  - unfold Core._onQRDataReceived. now rewrite Hrun.
Qed.

Lemma observed_last (now : Z) (rawData : string) (ckTId bd dt : Js.value)
  (c : Core.t) :
  Core._isRunning c = true ->
  Core.decodes rawData ckTId bd dt ->
  Core._lastReceivedDatetime (fst (Core._onQRDataReceived now (Some rawData) c))
  = dt.
Proof.
  intros Hrun Hdec.
  rewrite (observed_envelope now rawData ckTId bd dt c Hrun Hdec).
  destruct (Js.strict_equal _ dt); [reflexivity|].
  now rewrite dispatch_last.
Qed.

Lemma not_running_ignores (now : Z) (rawData : option string) (c : Core.t) :
  Core._isRunning c = false ->
  Core._onQRDataReceived now rawData c = (c, Returned).
Proof. intros H. unfold Core._onQRDataReceived. now rewrite H. Qed.

(** After a run of sightings in alternation, the nonce stored is the
    nonce of the text seen last, and the next text is the other one. *)
Lemma alternating_last (a b : string) (ckA bdA dtA ckB bdB dtB : Js.value) :
  Core.decodes a ckA bdA dtA ->
  Core.decodes b ckB bdB dtB ->
  forall (front : list (Z * string)) (now : Z) (x : string)
         (back : list (Z * string)) (c : Core.t),
    front <> [] ->
    Core.alternating a b (front ++ (now, x) :: back) ->
    Core._isRunning (Core.watch front c) = true ->
    (x = a /\ Core._lastReceivedDatetime (Core.watch front c) = dtB) \/
    (x = b /\ Core._lastReceivedDatetime (Core.watch front c) = dtA).
Proof.
  intros HA HB front. revert a b ckA bdA dtA ckB bdB dtB HA HB.
  induction front as [|[n0 y] f IH]; intros a b ckA bdA dtA ckB bdB dtB HA HB
    now x back c Hne Halt Hrun; [congruence|].
  cbn [app] in Halt. inversion Halt as [|n1 r Hr]; subst.
  cbn [Core.watch] in *.
  destruct f as [|p f'].
  - cbn [app] in Hr. inversion Hr; subst. cbn [Core.watch] in *.
    right. split; [reflexivity|].
    destruct (Core._isRunning c) eqn:Hc.
    + now apply observed_last with (ckTId := ckA) (bd := bdA).
    + rewrite (not_running_ignores _ _ _ Hc) in Hrun. cbn in Hrun. congruence.
  - destruct (IH _ _ ckB bdB dtB ckA bdA dtA HB HA now x back _
                ltac:(discriminate) Hr Hrun)
      as [[-> Hl] | [-> Hl]]; auto.
Qed.

(** C9: a well-formed observation (the camera decodes only while
    [_isRunning] holds) stores its nonce before the [switch], whatever
    the [switch] then does with it: unknown kind, no worker, no case
    for the kind. So of two texts with different nonces seen in
    alternation, every sighting after the first gets to the [switch]. *)
Theorem C9_nonce_stored_before_dispatch (a b : string)
  (ckA bdA dtA ckB bdB dtB : Js.value) :
  Core.decodes a ckA bdA dtA ->
  Core.decodes b ckB bdB dtB ->
  Js.strict_equal dtA dtB = false ->
  Js.strict_equal dtB dtA = false ->
  (forall now c,
     Core._isRunning c = true ->
     Core._lastReceivedDatetime (fst (Core._onQRDataReceived now (Some a) c))
     = dtA /\
     Core._onQRDataReceived now (Some a) c
     = if Js.strict_equal (Core._lastReceivedDatetime c) dtA
       then (Core.set_lastReceivedDatetime dtA c, Returned)
       else Core.dispatch now (Core._chunkTypeFromId ckA) bdA
              (Core.set_lastReceivedDatetime dtA c)) /\
  (forall front now x back c,
     front <> [] ->
     Core.alternating a b (front ++ (now, x) :: back) ->
     Core._isRunning (Core.watch front c) = true ->
     exists ck bd dt,
       Core.decodes x ck bd dt /\
       Core._onQRDataReceived now (Some x) (Core.watch front c)
       = Core.dispatch now (Core._chunkTypeFromId ck) bd
           (Core.set_lastReceivedDatetime dt (Core.watch front c))).
Proof.
  intros HA HB Hab Hba. split.
  - intros now c Hrun. split.
    + now apply observed_last with (ckTId := ckA) (bd := bdA).
    + now apply observed_envelope.
  - intros front now x back c Hne Halt Hrun.
    destruct (alternating_last a b ckA bdA dtA ckB bdB dtB HA HB
                front now x back c Hne Halt Hrun) as [[-> Hl] | [-> Hl]].
    + exists ckA, bdA, dtA. split; [exact HA|].
      rewrite (observed_envelope now a ckA bdA dtA _ Hrun HA), Hl.
      now rewrite Hba.
    + exists ckB, bdB, dtB. split; [exact HB|].
      rewrite (observed_envelope now b ckB bdB dtB _ Hrun HB), Hl.
      now rewrite Hab.
Qed.

End Nonce.

(** The guard at work: the Receiver that saw nonce 10 last drops a
    text with nonce 10. *)
Lemma C3_repeated_nonce_dropped_witness :
  Core._onQRDataReceived 20
    (Some (Example.text ChunkType.metaInfo Example.meta8 10)) Example.awaiting
  = (Example.awaiting, Returned).
Proof.
  exact (C3_repeated_nonce_dropped 20
           (Example.text ChunkType.metaInfo Example.meta8 10)
           (Js.Num 0) (Js.Str Example.meta8) (Js.Num 10) Example.awaiting
           ltac:(decode) ltac:(evaluate)).
Defined.

(** C3, as stated, fails: with nonce 10 stored, the meta information
    that comes with the smaller nonce 5 is not dropped; it opens the
    session. *)
Lemma C3_smaller_nonce_processed :
  let rawData := Example.text ChunkType.metaInfo Example.meta8 5 in
  Core._lastReceivedDatetime Example.awaiting = Js.Num 10 /\
  Core.decodes rawData (Js.Num 0) (Js.Str Example.meta8) (Js.Num 5) /\
  5 <= 10 /\
  fst (Core._onQRDataReceived 20 (Some rawData) Example.awaiting)
  <> Example.awaiting.
Proof.
  cbv zeta. split; [evaluate|]. split; [decode|]. split; [lia|].
  vm_compute. discriminate.
Qed.

(** Chunk 1 and chunk 2 on show in turn, three sightings: the second
    and the third get to the [switch]. *)
Lemma C9_nonce_stored_before_dispatch_witness :
  let a := Example.text ChunkType.okNext "AAECAw==" 13 in
  let b := Example.text ChunkType.okNext "BAUGBw==" 15 in
  Core._lastReceivedDatetime
    (fst (Core._onQRDataReceived 14 (Some a) Example.collecting)) = Js.Num 13
  /\ exists ck bd dt,
       Core.decodes a ck bd dt /\
       Core._onQRDataReceived 18 (Some a)
         (Core.watch [(14, a); (16, b)] Example.collecting)
       = Core.dispatch 18 (Core._chunkTypeFromId ck) bd
           (Core.set_lastReceivedDatetime dt
              (Core.watch [(14, a); (16, b)] Example.collecting)).
Proof.
  cbv zeta.
  pose proof (C9_nonce_stored_before_dispatch
    (Example.text ChunkType.okNext "AAECAw==" 13)
    (Example.text ChunkType.okNext "BAUGBw==" 15)
    (Js.Num 2) (Js.Str "AAECAw==") (Js.Num 13)
    (Js.Num 2) (Js.Str "BAUGBw==") (Js.Num 15)
    ltac:(decode) ltac:(decode) ltac:(evaluate) ltac:(evaluate))
    as [Hstore Halt].
  split.
  - exact (proj1 (Hstore 14 Example.collecting ltac:(evaluate))).
  - exact (Halt [(14, Example.text ChunkType.okNext "AAECAw==" 13);
                 (16, Example.text ChunkType.okNext "BAUGBw==" 15)]
             18 _ [] Example.collecting ltac:(discriminate)
             ltac:(repeat constructor) ltac:(evaluate)).
Defined.

(** ** The Receiver: commit, pending chunk, answer *)

Section Receiver.

Context {P : Platform}.

Lemma updateQRImage_shown (now : Z) (k : ChunkType.t) (input : string)
  (c : Core.t) :
  Core._isSenderReceiverView c = true ->
  Core._updateQRImage now (Some k) (Some input) c
  = (Core.set_qrCode (Some (Core.qrData k (JsString.trim input) now)) c,
     Returned).
Proof. intros H. unfold Core._updateQRImage. now rewrite H. Qed.

Lemma updateQRImage_downloads (now : Z) (k : option ChunkType.t)
  (input : option string) (c : Core.t) :
  Core.downloads (fst (Core._updateQRImage now k input c)) = Core.downloads c.
Proof.
  unfold Core._updateQRImage.
  destruct (negb (Core._isSenderReceiverView c)); [reflexivity|].
  destruct input, k; try reflexivity; now destruct (Core.qrViewHasImg c).
Qed.

Lemma receiver_view (c : Core.t) :
  Core._displayedView c = Some ViewOption.receiveFile ->
  Core._isSenderReceiverView c = true.
Proof. intros H. unfold Core._isSenderReceiverView. now rewrite H. Qed.

(** The Receiver's handler on a new envelope. *)
Lemma receiver_observes (now : Z) (rawData : string) (ckTId bd dt : Js.value)
  (c : Core.t) :
  Core._displayedView c = Some ViewOption.receiveFile ->
  Core._isRunning c = true ->
  Core.decodes rawData ckTId bd dt ->
  Js.strict_equal (Core._lastReceivedDatetime c) dt = false ->
  Core._onQRDataReceived now (Some rawData) c
  = Core.onReceiveFile now (Core._chunkTypeFromId ckTId) bd
      (Core.set_lastReceivedDatetime dt c).
Proof.
  intros Hview Hrun Hdec Hnew.
  rewrite (observed_envelope now rawData ckTId bd dt c Hrun Hdec), Hnew.
  unfold Core.dispatch. cbn [Core._displayedView Core.set_lastReceivedDatetime].
  now rewrite Hview.
Qed.

Lemma commit_nothing (w : FileWorker.t) :
  FileWorker.lastChunkBlob w = None \/ FileWorker.readMode w = true ->
  FileWorker.writerCommitPendingChunk w = w.
Proof.
  unfold FileWorker.writerCommitPendingChunk.
  intros [H | H]; rewrite H; [now destruct (FileWorker.readMode w)|reflexivity].
Qed.

(** What the labels need of a running peer's worker. *)
Lemma updateProgresses_worker (c : Core.t) (w : FileWorker.t) :
  Core._isSenderReceiverView c = true ->
  Core._isRunning c = true ->
  Core._fileWorker c = Some w ->
  Core._updateProgresses c = Js.ToPrimitive (FileWorker.fileChunks w).
Proof.
  intros Hview Hrun Hw. unfold Core._updateProgresses.
  now rewrite Hview, Hrun, Hw.
Qed.

Lemma labels_of_writer (c : Core.t) (w : FileWorker.t) :
  Core._isSenderReceiverView c = true ->
  Core._isRunning c = true ->
  Core._fileWorker c = Some w ->
  FileWorker.readMode w = false ->
  sequence [Core._updateMetaInformation c; Core._updateProgresses c]
  = if forallb Js.convertible
         [FileWorker.inputFileName w; FileWorker.fileSize w;
          FileWorker.fileChunks w; FileWorker._chunkSize w]
    then Returned else Thrown.
Proof.
  intros Hview Hrun Hw Hmode.
  rewrite (updateProgresses_worker c w Hview Hrun Hw).
  unfold Core._updateMetaInformation, FileWorker.metaInfo.
  rewrite Hview, Hw, Hmode. cbn [negb Js.assoc String.eqb Ascii.eqb Bool.eqb].
  unfold Utils.formatBytes, Js.ToPrimitive. cbn [forallb].
  destruct (Js.convertible (FileWorker.inputFileName w)),
    (Js.convertible (FileWorker.fileSize w)),
    (Js.convertible (FileWorker.fileChunks w)),
    (Js.convertible (FileWorker._chunkSize w)); reflexivity.
Qed.

Lemma commit_keeps (w : FileWorker.t) :
  FileWorker.inputFileName (FileWorker.writerCommitPendingChunk w)
  = FileWorker.inputFileName w /\
  FileWorker.inputFileType (FileWorker.writerCommitPendingChunk w)
  = FileWorker.inputFileType w /\
  FileWorker.fileChunks (FileWorker.writerCommitPendingChunk w)
  = FileWorker.fileChunks w.
Proof.
  unfold FileWorker.writerCommitPendingChunk.
  destruct (FileWorker.readMode w); [now repeat split|].
  destruct (FileWorker.lastChunkBlob w); now repeat split.
Qed.

(** The file a writer hands over, when its name and type can be made
    strings of. *)
Lemma download_of_writer (w : FileWorker.t) :
  FileWorker.readMode w = false ->
  FileWorker._writerCreateDownloadFile w
  = if Js.convertible (FileWorker.inputFileType w)
       && Js.convertible (FileWorker.inputFileName w)
    then Some {| FileWorker.download := FileWorker.inputFileName w;
                 FileWorker.blobType := FileWorker.inputFileType w;
                 FileWorker.blobContent := concat (FileWorker._writerBuffer w) |}
    else None.
Proof.
  intros Hmode. unfold FileWorker._writerCreateDownloadFile, Js.ToPrimitive.
  rewrite Hmode.
  now destruct (Js.convertible (FileWorker.inputFileType w)),
    (Js.convertible (FileWorker.inputFileName w)).
Qed.

(** C10: with nothing pending, or on a worker in read mode, the commit
    changes nothing; so [completed] observed with nothing pending
    hands over exactly the chunks committed so far, under the name and
    the type of the session (strings by the specification; any value
    with a primitive conversion will do). With a name or a type that
    has none, the handler throws: nothing is handed over and the
    Receiver keeps running with its worker as it was. *)
Theorem C10_commit_without_pending (w : FileWorker.t) :
  FileWorker.lastChunkBlob w = None \/ FileWorker.readMode w = true ->
  FileWorker.writerCommitPendingChunk w = w /\
  (forall now rawData bd dt c,
     FileWorker.readMode w = false ->
     Core._displayedView c = Some ViewOption.receiveFile ->
     Core._isRunning c = true ->
     Core._fileWorker c = Some w ->
     Core.decodes rawData (Js.Num 50) bd dt ->
     Js.strict_equal (Core._lastReceivedDatetime c) dt = false ->
     (Js.convertible (FileWorker.inputFileType w) = true ->
      Js.convertible (FileWorker.inputFileName w) = true ->
      Core.downloads (fst (Core._onQRDataReceived now (Some rawData) c))
      = Core.downloads c
          ++ [{| FileWorker.download := FileWorker.inputFileName w;
                 FileWorker.blobType := FileWorker.inputFileType w;
                 FileWorker.blobContent :=
                   concat (FileWorker._writerBuffer w) |}]) /\
     (Js.convertible (FileWorker.inputFileType w) = false \/
      Js.convertible (FileWorker.inputFileName w) = false ->
      Core._onQRDataReceived now (Some rawData) c
      = (Core.set_fileWorker (Some w) (Core.set_lastReceivedDatetime dt c),
         Thrown))).
Proof.
  intros Hw. split; [now apply commit_nothing|].
  intros now rawData bd dt c Hmode Hview Hrun Hworker Hdec Hnew.
  rewrite (receiver_observes now rawData _ bd dt c Hview Hrun Hdec Hnew).
  cbn [Core._chunkTypeFromId]. unfold Core.onReceiveFile.
  cbn [Core._fileWorker Core.set_lastReceivedDatetime]. rewrite Hworker.
  rewrite (commit_nothing w Hw), (download_of_writer w Hmode).
  split.
  - intros -> ->. cbn [andb]. unfold Core.stopReceiving.
    now rewrite (proj1 (proj2 (proj2 (proj2 (proj2 (setup_keeps now _)))))).
  - intros [-> | ->]; [reflexivity|].
    now destruct (Js.convertible (FileWorker.inputFileType w)).
Qed.

Lemma setPending_decoded (s : string) (arr : list byte) (w : FileWorker.t) :
  FileWorker.readMode w = false ->
  Utils.bufferArrayFromBase64 (JsString.trim s) = Some arr ->
  FileWorker.writerSetPendingChunk (Js.Str s) w
  = (FileWorker.set_lastChunk (Some arr) (Some s) (Some (Utils.sha256 s)) w,
     Returned).
Proof.
  intros Hmode Harr. unfold FileWorker.writerSetPendingChunk.
  now rewrite Hmode, Harr.
Qed.

(** The pending chunk, as the list of blobs a commit appends. *)
Lemma commit_buffer (w : FileWorker.t) :
  FileWorker.readMode w = false ->
  FileWorker.readMode (FileWorker.writerCommitPendingChunk w) = false /\
  FileWorker._writerBuffer (FileWorker.writerCommitPendingChunk w)
  = FileWorker._writerBuffer w
      ++ match FileWorker.lastChunkBlob w with Some b => [b] | None => [] end /\
  FileWorker.curChunk (FileWorker.writerCommitPendingChunk w)
  = FileWorker.curChunk w
      + match FileWorker.lastChunkBlob w with Some _ => 1 | None => 0 end /\
  FileWorker.lastChunkBlob (FileWorker.writerCommitPendingChunk w) = None.
Proof.
  intros Hmode. unfold FileWorker.writerCommitPendingChunk. rewrite Hmode.
  destruct (FileWorker.lastChunkBlob w) eqn:E; cbn.
  - now rewrite Hmode.
  - now rewrite Hmode, E, app_nil_r, Z.add_0_r.
Qed.

(** C5: in the Collecting state, [ok_next(w)] commits the pending chunk,
    if there is one, then makes [w] the pending chunk and answers
    [eval_sha256] with the digest of [w]; [invalid_sha256(w)] commits
    nothing, replaces the pending chunk by [w] and answers likewise.
    ([w] is Base64 text: [window.atob] reads it. The chunk count of the
    session is one [_updateProgresses] can divide by: an integer by the
    specification; any value with a primitive conversion will do.)
    With a chunk count that has none, the commit and the pending chunk
    are as said, but the handler throws before the answer: the code on
    show stays as it was. *)
Theorem C5_okNext_commits_invalid_discards (now : Z) (rawData wire : string)
  (dt : Js.value) (arr : list byte) (c : Core.t) (w : FileWorker.t) :
  Core._displayedView c = Some ViewOption.receiveFile ->
  Core._isRunning c = true ->
  Core._fileWorker c = Some w ->
  FileWorker.readMode w = false ->
  Js.strict_equal (Core._lastReceivedDatetime c) dt = false ->
  Utils.bufferArrayFromBase64 (JsString.trim wire) = Some arr ->
  let pending := fun w' =>
    FileWorker.lastChunkBlob w' = Some arr /\
    FileWorker.lastChunkBase64 w' = Some wire /\
    FileWorker.lastChunkSha256 w' = Some (Utils.sha256 wire) in
  let answer := Some (Core.qrData ChunkType.evalSha256 (Utils.sha256 wire) now) in
  (Js.convertible (FileWorker.fileChunks w) = true ->
   (Core.decodes rawData (Js.Num 2) (Js.Str wire) dt ->
    exists c' w',
      Core._onQRDataReceived now (Some rawData) c = (c', Returned) /\
      Core._fileWorker c' = Some w' /\
      FileWorker._writerBuffer w'
      = FileWorker._writerBuffer w
          ++ match FileWorker.lastChunkBlob w with Some b => [b] | None => [] end /\
      FileWorker.curChunk w'
      = FileWorker.curChunk w
          + match FileWorker.lastChunkBlob w with Some _ => 1 | None => 0 end /\
      pending w' /\ Core.qrCode c' = answer) /\
   (Core.decodes rawData (Js.Num 4) (Js.Str wire) dt ->
    exists c' w',
      Core._onQRDataReceived now (Some rawData) c = (c', Returned) /\
      Core._fileWorker c' = Some w' /\
      FileWorker._writerBuffer w' = FileWorker._writerBuffer w /\
      FileWorker.curChunk w' = FileWorker.curChunk w /\
      pending w' /\ Core.qrCode c' = answer)) /\
  (Js.convertible (FileWorker.fileChunks w) = false ->
   forall k, k = 2 \/ k = 4 ->
     Core.decodes rawData (Js.Num k) (Js.Str wire) dt ->
     exists c' w',
       Core._onQRDataReceived now (Some rawData) c = (c', Thrown) /\
       Core._fileWorker c' = Some w' /\
       FileWorker._writerBuffer w'
       = FileWorker._writerBuffer w
           ++ (if k =? 2
               then match FileWorker.lastChunkBlob w with
                    | Some b => [b]
                    | None => []
                    end
               else []) /\
       pending w' /\ Core.qrCode c' = Core.qrCode c).
Proof.
  intros Hview Hrun Hworker Hmode Hnew Harr pending answer.
  subst pending answer. cbv beta.
  assert (Hsr : forall w', Core._isSenderReceiverView
            (Core.set_fileWorker w' (Core.set_lastReceivedDatetime dt c)) = true).
  { intros w'. unfold Core._isSenderReceiverView. cbn. now rewrite Hview. }
  assert (Hok : Core.decodes rawData (Js.Num 2) (Js.Str wire) dt ->
    exists c' w',
      Core._onQRDataReceived now (Some rawData) c
      = (c', if Js.convertible (FileWorker.fileChunks w)
             then Returned else Thrown) /\
      Core._fileWorker c' = Some w' /\
      FileWorker._writerBuffer w'
      = FileWorker._writerBuffer w
          ++ match FileWorker.lastChunkBlob w with Some b => [b] | None => [] end /\
      FileWorker.curChunk w'
      = FileWorker.curChunk w
          + match FileWorker.lastChunkBlob w with Some _ => 1 | None => 0 end /\
      (FileWorker.lastChunkBlob w' = Some arr /\
       FileWorker.lastChunkBase64 w' = Some wire /\
       FileWorker.lastChunkSha256 w' = Some (Utils.sha256 wire)) /\
      Core.qrCode c'
      = if Js.convertible (FileWorker.fileChunks w)
        then Some (Core.qrData ChunkType.evalSha256 (Utils.sha256 wire) now)
        else Core.qrCode c).
  { intros Hdec.
    rewrite (receiver_observes now rawData _ _ dt c Hview Hrun Hdec Hnew).
    cbn [Core._chunkTypeFromId]. unfold Core.onReceiveFile.
    cbn [Core._fileWorker Core.set_lastReceivedDatetime]. rewrite Hworker.
    destruct (commit_buffer w Hmode) as (Hm & Hb & Hc & _).
    destruct (commit_keeps w) as (_ & _ & Hch).
    rewrite (setPending_decoded wire arr _ Hm Harr). cbv zeta.
    rewrite (updateProgresses_worker _ _ (Hsr _) Hrun eq_refl).
    cbn [FileWorker.fileChunks FileWorker.set_lastChunk
         FileWorker.lastChunkSha256]. rewrite Hch.
    unfold Js.ToPrimitive.
    destruct (Js.convertible (FileWorker.fileChunks w)); cbn [Core.and_then].
    - rewrite (updateQRImage_shown _ _ _ _ (Hsr _)), sha256_trimmed.
      eexists _, _. split; [reflexivity|]. cbn. split; [reflexivity|].
      cbn. rewrite Hb, Hc. repeat split; reflexivity.
    - eexists _, _. split; [reflexivity|]. cbn. split; [reflexivity|].
      cbn. rewrite Hb, Hc. repeat split; reflexivity. }
  assert (Hbad : Core.decodes rawData (Js.Num 4) (Js.Str wire) dt ->
    exists c' w',
      Core._onQRDataReceived now (Some rawData) c
      = (c', if Js.convertible (FileWorker.fileChunks w)
             then Returned else Thrown) /\
      Core._fileWorker c' = Some w' /\
      FileWorker._writerBuffer w' = FileWorker._writerBuffer w /\
      FileWorker.curChunk w' = FileWorker.curChunk w /\
      (FileWorker.lastChunkBlob w' = Some arr /\
       FileWorker.lastChunkBase64 w' = Some wire /\
       FileWorker.lastChunkSha256 w' = Some (Utils.sha256 wire)) /\
      Core.qrCode c'
      = if Js.convertible (FileWorker.fileChunks w)
        then Some (Core.qrData ChunkType.evalSha256 (Utils.sha256 wire) now)
        else Core.qrCode c).
  { intros Hdec.
    rewrite (receiver_observes now rawData _ _ dt c Hview Hrun Hdec Hnew).
    cbn [Core._chunkTypeFromId]. unfold Core.onReceiveFile.
    cbn [Core._fileWorker Core.set_lastReceivedDatetime]. rewrite Hworker.
    rewrite (setPending_decoded wire arr _ Hmode Harr). cbv zeta.
    rewrite (updateProgresses_worker _ _ (Hsr _) Hrun eq_refl).
    cbn [FileWorker.fileChunks FileWorker.set_lastChunk
         FileWorker.lastChunkSha256].
    unfold Js.ToPrimitive.
    destruct (Js.convertible (FileWorker.fileChunks w)); cbn [Core.and_then].
    - rewrite (updateQRImage_shown _ _ _ _ (Hsr _)), sha256_trimmed.
      eexists _, _. split; [reflexivity|]. cbn. split; [reflexivity|].
      cbn. repeat split; reflexivity.
    - eexists _, _. split; [reflexivity|]. cbn. split; [reflexivity|].
      cbn. repeat split; reflexivity. }
  split.
  - intros Hconv. rewrite Hconv in Hok, Hbad. split; assumption.
  - intros Hconv k [-> | ->] Hdec; rewrite Hconv in Hok, Hbad.
    + destruct (Hok Hdec) as (c' & w' & H1 & H2 & H3 & _ & H5 & H6).
      exists c', w'. auto.
    + destruct (Hbad Hdec) as (c' & w' & H1 & H2 & H3 & _ & H5 & H6).
      exists c', w'. cbn [Z.eqb Pos.eqb]. rewrite app_nil_r. auto.
Qed.

End Receiver.

(** [completed] on the Receiver that committed the first chunk of
    [file8] and has nothing pending: the download is that chunk. On
    the Receiver of a session whose type is an object with a
    [toString] of its own, the handler throws and nothing is handed
    over. *)
Lemma C10_commit_without_pending_witness :
  FileWorker.writerCommitPendingChunk (Example.worker Example.committed)
  = Example.worker Example.committed /\
  Core.downloads
    (fst (Core._onQRDataReceived 20
            (Some (Example.text ChunkType.completed EmptyString 19)) Example.committed))
  = [{| FileWorker.download := Js.Str "eight.bin";
        FileWorker.blobType := Js.Str "application/octet-stream";
        FileWorker.blobContent := ["000"; "001"; "002"; "003"]%byte |}] /\
  Core._onQRDataReceived 20
    (Some (Example.text ChunkType.completed EmptyString 19)) Example.odd_type
  = (Core.set_lastReceivedDatetime (Js.Num 19) Example.odd_type, Thrown).
Proof.
  assert (Hodd : Core._onQRDataReceived 20
                   (Some (Example.text ChunkType.completed EmptyString 19))
                   Example.odd_type
                 = (Core.set_lastReceivedDatetime (Js.Num 19) Example.odd_type,
                    Thrown)).
  { assert (Hblob : FileWorker.lastChunkBlob (Example.worker Example.odd_type)
                    = None) by evaluate.
    assert (Htype : Js.convertible
                      (FileWorker.inputFileType
                         (Example.worker Example.odd_type)) = false)
      by evaluate.
    exact (proj2 (proj2 (C10_commit_without_pending
                           (Example.worker Example.odd_type)
                           (or_introl Hblob))
                    20 (Example.text ChunkType.completed EmptyString 19)
                    (Js.Str EmptyString) (Js.Num 19) Example.odd_type
                    ltac:(evaluate) ltac:(evaluate) ltac:(evaluate)
                    ltac:(evaluate) ltac:(decode) ltac:(evaluate))
             (or_introl Htype)). }
  assert (Hnone : FileWorker.lastChunkBlob (Example.worker Example.committed)
                  = None) by evaluate.
  pose proof (C10_commit_without_pending (Example.worker Example.committed)
                (or_introl Hnone)) as [Hcommit Hdone].
  split; [exact Hcommit|]. split; [|exact Hodd].
  pose proof (proj1 (Hdone 20 (Example.text ChunkType.completed EmptyString 19)
                       (Js.Str EmptyString) (Js.Num 19) Example.committed
                       ltac:(evaluate) ltac:(evaluate) ltac:(evaluate)
                       ltac:(evaluate) ltac:(decode) ltac:(evaluate))
                ltac:(evaluate) ltac:(evaluate))
    as H.
  vm_compute in H |- *. exact H.
Defined.

(** On the Receiver that has the first chunk of [file8] pending:
    [ok_next] with the second chunk commits the first; [invalid_sha256]
    with the first chunk again commits nothing. On the Receiver of a
    session whose chunk count is an object with a [toString] of its
    own, [ok_next] makes the chunk pending and throws: no answer is
    shown. *)
Lemma C5_okNext_commits_invalid_discards_witness :
  (exists c' w',
     Core._onQRDataReceived 16
       (Some (Example.text ChunkType.okNext "BAUGBw==" 15)) Example.pending
     = (c', Returned) /\
     Core._fileWorker c' = Some w' /\
     FileWorker._writerBuffer w' = [["000"; "001"; "002"; "003"]%byte] /\
     FileWorker.curChunk w' = 1 /\
     (FileWorker.lastChunkBlob w' = Some ["004"; "005"; "006"; "007"]%byte /\
      FileWorker.lastChunkBase64 w' = Some "BAUGBw==" /\
      FileWorker.lastChunkSha256 w' = Some (Utils.sha256 "BAUGBw==")) /\
     Core.qrCode c'
     = Some (Core.qrData ChunkType.evalSha256 (Utils.sha256 "BAUGBw==") 16)) /\
  (exists c' w',
     Core._onQRDataReceived 16
       (Some (Example.text ChunkType.invalidSha256 "AAECAw==" 15))
       Example.pending
     = (c', Returned) /\
     Core._fileWorker c' = Some w' /\
     FileWorker._writerBuffer w' = [] /\
     FileWorker.curChunk w' = 0 /\
     (FileWorker.lastChunkBlob w' = Some ["000"; "001"; "002"; "003"]%byte /\
      FileWorker.lastChunkBase64 w' = Some "AAECAw==" /\
      FileWorker.lastChunkSha256 w' = Some (Utils.sha256 "AAECAw==")) /\
     Core.qrCode c'
     = Some (Core.qrData ChunkType.evalSha256 (Utils.sha256 "AAECAw==") 16)) /\
  (exists c' w',
     Core._onQRDataReceived 14
       (Some (Example.text ChunkType.okNext "AAECAw==" 13)) Example.odd_count
     = (c', Thrown) /\
     Core._fileWorker c' = Some w' /\
     FileWorker.lastChunkBase64 w' = Some "AAECAw==" /\
     Core.qrCode c' = None).
Proof.
  split; [|split].
  - pose proof (proj1 (proj1 (C5_okNext_commits_invalid_discards 16
                  (Example.text ChunkType.okNext "BAUGBw==" 15) "BAUGBw=="
                  (Js.Num 15) ["004"; "005"; "006"; "007"]%byte Example.pending
                  (Example.worker Example.pending)
                  ltac:(evaluate) ltac:(evaluate) ltac:(evaluate)
                  ltac:(evaluate) ltac:(evaluate) ltac:(evaluate))
                  ltac:(evaluate))
                  ltac:(decode))
      as (c' & w' & H).
    exists c', w'. vm_compute in H |- *. exact H.
  - pose proof (proj2 (proj1 (C5_okNext_commits_invalid_discards 16
                  (Example.text ChunkType.invalidSha256 "AAECAw==" 15)
                  "AAECAw==" (Js.Num 15) ["000"; "001"; "002"; "003"]%byte
                  Example.pending (Example.worker Example.pending)
                  ltac:(evaluate) ltac:(evaluate) ltac:(evaluate)
                  ltac:(evaluate) ltac:(evaluate) ltac:(evaluate))
                  ltac:(evaluate))
                  ltac:(decode))
      as (c' & w' & H).
    exists c', w'. vm_compute in H |- *. exact H.
  - pose proof (proj2 (C5_okNext_commits_invalid_discards 14
                  (Example.text ChunkType.okNext "AAECAw==" 13) "AAECAw=="
                  (Js.Num 13) ["000"; "001"; "002"; "003"]%byte
                  Example.odd_count (Example.worker Example.odd_count)
                  ltac:(evaluate) ltac:(evaluate) ltac:(evaluate)
                  ltac:(evaluate) ltac:(evaluate) ltac:(evaluate))
                  ltac:(evaluate) 2 (or_introl eq_refl) ltac:(decode))
      as (c' & w' & H1 & H2 & _ & (_ & H3 & _) & H4).
    exists c', w'. repeat (split; [assumption|]). rewrite H4. evaluate.
Defined.

(** ** Metadata and the trimming of bodies *)

Section Codec.

Context {P : Platform}.

Lemma createWriter_copies (m : Js.value) :
  m <> Js.Null -> m <> Js.Undefined ->
  exists w ty nm sz cs ch,
    FileWorker.createWriter m = Some w /\
    Js.get m "fileType" = Some ty /\ FileWorker.inputFileType w = ty /\
    Js.get m "fileName" = Some nm /\ FileWorker.inputFileName w = nm /\
    Js.get m "fileSize" = Some sz /\ FileWorker.fileSize w = sz /\
    Js.get m "chunkSize" = Some cs /\ FileWorker._chunkSize w = cs /\
    Js.get m "fileChunks" = Some ch /\ FileWorker.fileChunks w = ch /\
    FileWorker.readMode w = false /\
    FileWorker._writerBuffer w = [] /\ FileWorker.lastChunkBlob w = None.
Proof.
  intros Hn Hu. unfold FileWorker.createWriter.
  destruct m; try congruence; cbn [Js.get];
    eexists _, _, _, _, _, _; repeat (split; [reflexivity|]); reflexivity.
Qed.

(** C7, as amended: the Receiver does not validate the metadata. With
    no session yet, a [meta_info] body that parses as JSON to a value
    other than [null] opens a session with the five fields copied as
    they come. [meta_info_received] is then shown, unless the name, the
    size, the chunk count or the chunk size is an object or array
    without primitive conversion, on which the labels throw: the
    session stays open and nothing is shown. Only a body that does not
    parse, or parses to [null], leaves the Receiver without a
    session. *)
Theorem C7_metadata_not_validated (now : Z) (rawData : string)
  (body dt : Js.value) (c : Core.t) :
  Core._displayedView c = Some ViewOption.receiveFile ->
  Core._isRunning c = true ->
  Core._fileWorker c = None ->
  Core.decodes rawData (Js.Num 0) body dt ->
  Js.strict_equal (Core._lastReceivedDatetime c) dt = false ->
  (forall m, JSON_parse body = Some m -> m <> Js.Null -> m <> Js.Undefined ->
     exists w,
       FileWorker.createWriter m = Some w /\
       Js.get m "fileName" = Some (FileWorker.inputFileName w) /\
       Js.get m "fileType" = Some (FileWorker.inputFileType w) /\
       Js.get m "fileSize" = Some (FileWorker.fileSize w) /\
       Js.get m "chunkSize" = Some (FileWorker._chunkSize w) /\
       Js.get m "fileChunks" = Some (FileWorker.fileChunks w) /\
       let c' :=
         Core.set_fileWorker (Some w) (Core.set_lastReceivedDatetime dt c) in
       Core._onQRDataReceived now (Some rawData) c
       = if forallb Js.convertible
              [FileWorker.inputFileName w; FileWorker.fileSize w;
               FileWorker.fileChunks w; FileWorker._chunkSize w]
         then (Core.set_qrCode
                 (Some (Core.qrData ChunkType.metaInfoReceived EmptyString now))
                 c', Returned)
         else (c', Thrown)) /\
  (JSON_parse body = None ->
   Core._onQRDataReceived now (Some rawData) c
   = (Core.set_lastReceivedDatetime dt c, Returned)) /\
  (JSON_parse body = Some Js.Null ->
   Core._onQRDataReceived now (Some rawData) c
   = (Core.set_lastReceivedDatetime dt c, Thrown)).
Proof.
  intros Hview Hrun Hworker Hdec Hnew.
  rewrite (receiver_observes now rawData _ body dt c Hview Hrun Hdec Hnew).
  cbn [Core._chunkTypeFromId]. unfold Core.onReceiveFile.
  cbn [Core._fileWorker Core.set_lastReceivedDatetime]. rewrite Hworker.
  split; [|split].
  - intros m Hm Hn Hu. rewrite Hm.
    destruct (createWriter_copies m Hn Hu)
      as (w & ty & nm & sz & cs & ch & Hw & Hty & <- & Hnm & <- & Hsz & <-
          & Hcs & <- & Hch & <- & Hmode & _).
    exists w. rewrite Hw. split; [reflexivity|].
    repeat (split; [assumption|]). cbv zeta.
    assert (Hsr : Core._isSenderReceiverView
                    (Core.set_fileWorker (Some w)
                       (Core.set_lastReceivedDatetime dt c)) = true)
      by (unfold Core._isSenderReceiverView; cbn; now rewrite Hview).
    rewrite (labels_of_writer _ w Hsr Hrun eq_refl Hmode).
    destruct (forallb Js.convertible _); cbn [Core.and_then];
      [|reflexivity].
    now rewrite (updateQRImage_shown _ _ _ _ Hsr).
  - intros Hm. now rewrite Hm.
  - intros Hm. now rewrite Hm.
Qed.

(** C8, as amended: the body is trimmed on emission only. Every
    envelope shown carries a trimmed body. On observation the text is
    trimmed before it is parsed, and the body then goes to the [switch]
    as parsed; the Receiver trims only the copy it decodes, and stores
    and digests the body as received. *)
Theorem C8_body_trimmed_on_emission_only :
  (forall now k input c,
     Core._isSenderReceiverView c = true ->
     Core.qrCode (fst (Core._updateQRImage now (Some k) (Some input) c))
     = Some (Core.qrData k (JsString.trim input) now) /\
     JsString.trim (JsString.trim input) = JsString.trim input) /\
  (forall now rawData ckTId bd dt c,
     Core._isRunning c = true ->
     Core.decodes rawData ckTId bd dt ->
     Js.strict_equal (Core._lastReceivedDatetime c) dt = false ->
     Core._onQRDataReceived now (Some rawData) c
     = Core.dispatch now (Core._chunkTypeFromId ckTId) bd
         (Core.set_lastReceivedDatetime dt c)) /\
  (forall s arr w,
     FileWorker.readMode w = false ->
     Utils.bufferArrayFromBase64 (JsString.trim s) = Some arr ->
     FileWorker.writerSetPendingChunk (Js.Str s) w
     = (FileWorker.set_lastChunk (Some arr) (Some s) (Some (Utils.sha256 s)) w,
        Returned)).
Proof.
  split; [|split].
  - intros now k input c Hview. rewrite (updateQRImage_shown _ _ _ _ Hview).
    split; [reflexivity | apply trim_idempotent].
  - intros now rawData ckTId bd dt c Hrun Hdec Hnew.
    now rewrite (observed_envelope now rawData ckTId bd dt c Hrun Hdec), Hnew.
  - intros s arr w. apply setPending_decoded.
Qed.

End Codec.

(** The meta information of [file8] opens the session. So does
    metadata whose chunk count is an object with a [toString] of its
    own, on which the handler then throws with nothing shown. *)
Lemma C7_metadata_not_validated_witness :
  (exists w,
     Core._onQRDataReceived 12
       (Some (Example.text ChunkType.metaInfo Example.meta8 11)) Example.awaiting
     = (Core.set_qrCode (Some (Core.qrData ChunkType.metaInfoReceived EmptyString 12))
          (Core.set_fileWorker (Some w)
             (Core.set_lastReceivedDatetime (Js.Num 11) Example.awaiting)),
        Returned)
     /\ Js.Num 4 = FileWorker._chunkSize w) /\
  Core._onQRDataReceived 12
    (Some (Example.text ChunkType.metaInfo
             (JSON_stringify Example.odd_count_meta) 11)) Example.awaiting
  = (Example.odd_count, Thrown) /\
  Core.qrCode Example.odd_count = None /\
  FileWorker.fileChunks (Example.worker Example.odd_count)
  = Js.Obj [("toString", Js.Num 1)].
Proof.
  split.
  2:{ split; [|split; evaluate].
      pose proof (proj1 (C7_metadata_not_validated 12
                    (Example.text ChunkType.metaInfo
                       (JSON_stringify Example.odd_count_meta) 11)
                    (Js.Str (JSON_stringify Example.odd_count_meta)) (Js.Num 11)
                    Example.awaiting
                    ltac:(evaluate) ltac:(evaluate) ltac:(evaluate) ltac:(decode)
                    ltac:(evaluate))
                    Example.odd_count_meta
                    ltac:(evaluate) ltac:(discriminate) ltac:(discriminate))
        as (w & Hw & _ & _ & _ & _ & _ & Hrun).
      vm_compute in Hw. injection Hw as <-. exact Hrun. }
  pose proof (proj1 (C7_metadata_not_validated 12
                (Example.text ChunkType.metaInfo Example.meta8 11)
                (Js.Str Example.meta8) (Js.Num 11) Example.awaiting
                ltac:(evaluate) ltac:(evaluate) ltac:(evaluate) ltac:(decode)
                ltac:(evaluate))
                (FileWorker.metaInfo
                   (FileWorker.updateChunkSize 4
                      (FileWorker.createReader Example.file8)))
                ltac:(evaluate) ltac:(discriminate) ltac:(discriminate))
    as (w & Hw & _ & _ & _ & Hcs & _ & Hrun).
  exists w. split.
  - vm_compute in Hw. injection Hw as <-. exact Hrun.
  - vm_compute in Hcs. now injection Hcs.
Defined.

(** C7, as stated, fails: metadata without a name, with a chunk size of
    zero and a chunk count that fits nothing opens a session all the
    same, and [meta_info_received] is shown. *)
Lemma C7_invalid_metadata_accepted :
  let body := JSON_stringify Example.bad_meta in
  let rawData := Example.text ChunkType.metaInfo body 11 in
  let c' := fst (Core._onQRDataReceived 12 (Some rawData) Example.awaiting) in
  Core.decodes rawData (Js.Num 0) (Js.Str body) (Js.Num 11) /\
  JSON_parse (Js.Str body) = Some Example.bad_meta /\
  Core._fileWorker Example.awaiting = None /\
  (exists w,
     Core._fileWorker c' = Some w /\
     FileWorker.inputFileName w = Js.Str EmptyString /\
     FileWorker._chunkSize w = Js.Num 0 /\
     FileWorker.fileSize w = Js.Num 10 /\
     FileWorker.fileChunks w = Js.Num 7) /\
  Core.qrCode c' = Some (Core.qrData ChunkType.metaInfoReceived EmptyString 12).
Proof.
  cbv zeta. split; [decode|]. split; [evaluate|].
  split; [evaluate|]. split; [|evaluate].
  eexists. split; [evaluate|]. repeat (split; [evaluate|]). evaluate.
Qed.

(** Emission trims; the Receiver keeps a body with blanks as it came. *)
Lemma C8_body_trimmed_on_emission_only_witness :
  Core.qrCode
    (fst (Core._updateQRImage 14 (Some ChunkType.okNext) (Some " AAECAw== ")
            Example.transmitting))
  = Some (Core.qrData ChunkType.okNext "AAECAw==" 14) /\
  FileWorker.lastChunkBase64
    (fst (FileWorker.writerSetPendingChunk (Js.Str " AAECAw== ")
            (Example.worker Example.collecting)))
  = Some " AAECAw== ".
Proof.
  pose proof (@C8_body_trimmed_on_emission_only reference)
    as (Hshow & _ & Hpend).
  split.
  - pose proof (proj1 (Hshow 14 ChunkType.okNext " AAECAw== "
                         Example.transmitting ltac:(evaluate))) as H.
    vm_compute in H |- *. exact H.
  - pose proof (Hpend " AAECAw== " ["000"; "001"; "002"; "003"]%byte
                  (Example.worker Example.collecting) ltac:(evaluate)
                  ltac:(evaluate)) as H.
    rewrite H. reflexivity.
Defined.

(** C8, as stated, fails on the parse side: the body of an observed
    [ok_next] reaches the Receiver's worker with its blanks, and the
    digest is the digest of the body with its blanks. *)
Lemma C8_body_not_trimmed_on_parse :
  let body := " AAECAw== " in
  let rawData := Example.text ChunkType.okNext body 13 in
  let w' :=
    Example.worker
      (fst (Core._onQRDataReceived 14 (Some rawData) Example.collecting)) in
  Core.decodes rawData (Js.Num 2) (Js.Str body) (Js.Num 13) /\
  JsString.trim body <> body /\
  FileWorker.lastChunkBase64 w' = Some body /\
  FileWorker.lastChunkSha256 w' = Some (Utils.sha256 body) /\
  Utils.sha256 body <> Utils.sha256 (JsString.trim body).
Proof.
  cbv zeta. split; [decode|]. split; [vm_compute; discriminate|].
  split; [vm_compute; reflexivity|]. split; [vm_compute; reflexivity|].
  vm_compute. discriminate.
Qed.

(** ** The Sender and the digest *)

Section Sender.

Context {P : Platform}.

Lemma sender_view (c : Core.t) :
  Core._displayedView c = Some ViewOption.sendFile ->
  Core._isSenderReceiverView c = true.
Proof. intros H. unfold Core._isSenderReceiverView. now rewrite H. Qed.

(** The Sender's handler on a new envelope. *)
Lemma sender_observes (now : Z) (rawData : string) (ckTId bd dt : Js.value)
  (c : Core.t) :
  Core._displayedView c = Some ViewOption.sendFile ->
  Core._isRunning c = true ->
  Core.decodes rawData ckTId bd dt ->
  Js.strict_equal (Core._lastReceivedDatetime c) dt = false ->
  Core._onQRDataReceived now (Some rawData) c
  = Core.onSendFile now (Core._chunkTypeFromId ckTId) bd
      (Core.set_lastReceivedDatetime dt c).
Proof.
  intros Hview Hrun Hdec Hnew.
  rewrite (observed_envelope now rawData ckTId bd dt c Hrun Hdec), Hnew.
  unfold Core.dispatch. cbn [Core._displayedView Core.set_lastReceivedDatetime].
  now rewrite Hview.
Qed.

(** C6: on [eval_sha256(d)] with [d] other than the digest of the
    current chunk, the Sender shows the cached wire form again, in an
    [invalid_sha256] envelope; the worker (cursor and cache) is as it
    was, nothing is read from the file, and the body is the body an
    [ok_next] of the same cache carries: the cached text itself, when
    [blobAsBase64] made it. *)
Theorem C6_mismatch_redisplays_cached (now : Z) (rawData d wire sha : string)
  (dt : Js.value) (c : Core.t) (w : FileWorker.t) :
  Core._displayedView c = Some ViewOption.sendFile ->
  Core._isRunning c = true ->
  Core._fileWorker c = Some w ->
  FileWorker.lastChunkBase64 w = Some wire ->
  FileWorker.lastChunkSha256 w = Some sha ->
  d <> sha ->
  Core.decodes rawData (Js.Num 3) (Js.Str d) dt ->
  Js.strict_equal (Core._lastReceivedDatetime c) dt = false ->
  Core._onQRDataReceived now (Some rawData) c
  = (Core.set_qrCode
       (Some (Core.qrData ChunkType.invalidSha256 (JsString.trim wire) now))
       (Core.set_lastReceivedDatetime dt c), Returned) /\
  Core._fileWorker (fst (Core._onQRDataReceived now (Some rawData) c)) = Some w /\
  (forall t,
     Core.qrCode (fst (Core._updateQRImage t (Some ChunkType.okNext)
                         (FileWorker.lastChunkBase64 w) c))
     = Some (Core.qrData ChunkType.okNext (JsString.trim wire) t)) /\
  (forall blob, wire = Utils.blobAsBase64 blob -> JsString.trim wire = wire).
Proof.
  intros Hview Hrun Hworker Hwire Hsha Hd Hdec Hnew.
  assert (E : Core._onQRDataReceived now (Some rawData) c
              = (Core.set_qrCode
                   (Some (Core.qrData ChunkType.invalidSha256
                            (JsString.trim wire) now))
                   (Core.set_lastReceivedDatetime dt c), Returned)).
  { rewrite (sender_observes now rawData _ _ dt c Hview Hrun Hdec Hnew).
    cbn [Core._chunkTypeFromId]. unfold Core.onSendFile.
    cbn [Core._fileWorker Core.set_lastReceivedDatetime]. rewrite Hworker.
    cbv zeta. rewrite Hsha. cbn [Js.of_option JsEq.throws].
    change (JsEq.loose_equal (Js.Str d) (Js.Str sha)) with (String.eqb d sha).
    apply String.eqb_neq in Hd. rewrite Hd, Hwire.
    apply updateQRImage_shown. unfold Core._isSenderReceiverView. cbn.
    now rewrite Hview. }
  rewrite E. split; [reflexivity|]. split; [exact Hworker|]. split.
  - intros t. rewrite Hwire.
    now rewrite (updateQRImage_shown _ _ _ _ (sender_view c Hview)).
  - intros blob ->. apply blobAsBase64_trimmed.
Qed.

Lemma hex_digit_lower (n : N) : Utils.is_lower_hex (Utils.hex_digit n) = true.
Proof.
  unfold Utils.hex_digit.
  destruct (N.to_nat n) as [|[|[|[|[|[|[|[|[|[|[|[|[|[|[|[|[|k]]]]]]]]]]]]]]]]];
    reflexivity.
Qed.

Lemma hex_lower (bs : list byte) :
  forallb Utils.is_lower_hex (list_ascii_of_string (Utils.hex bs)) = true /\
  String.length (Utils.hex bs) = (2 * length bs)%nat.
Proof.
  unfold Utils.hex.
  induction bs as [|b r [IH1 IH2]]; [now split|].
  cbn [flat_map Utils.hex_byte app string_of_list_ascii list_ascii_of_string
       forallb String.length length].
  rewrite !hex_digit_lower, IH1, IH2. split; [reflexivity | lia].
Qed.

Lemma readNextChunk_reads (w : FileWorker.t) (file : FileWorker.File)
  (chunks size_ : Z) :
  FileWorker.readMode w = true ->
  FileWorker._inputFile w = Some file ->
  FileWorker.fileChunks w = Js.Num chunks ->
  FileWorker._chunkSize w = Js.Num size_ ->
  FileWorker.curChunk w < chunks ->
  FileWorker.readNextChunk w
  = let blob := Blob.slice (FileWorker.content file)
                  (FileWorker.curChunk w * size_)
                  (FileWorker.curChunk w * size_ + size_) in
    FileWorker.set_curChunk (FileWorker.curChunk w + 1)
      (FileWorker.set_lastChunk (Some blob) (Some (Utils.blobAsBase64 blob))
         (Some (Utils.sha256 (Utils.blobAsBase64 blob))) w).
Proof.
  intros Hmode Hfile Hchunks Hsize Hlt. unfold FileWorker.readNextChunk.
  rewrite Hmode, Hfile, Hchunks, Hsize. cbn [negb FileWorker.number].
  destruct (FileWorker.curChunk w >=? chunks) eqn:E; [lia | reflexivity].
Qed.

Lemma read_hex (bs : list byte) : LowerHex.read (Utils.hex bs) = Some bs.
Proof.
  unfold Utils.hex. induction bs as [|b r IH]; [reflexivity|].
  cbn [flat_map Utils.hex_byte app string_of_list_ascii LowerHex.read].
  rewrite IH.
  assert (E : match LowerHex.value (Utils.hex_digit (Byte.to_N b / 16)),
                    LowerHex.value (Utils.hex_digit (Byte.to_N b mod 16)) with
              | Some h, Some l =>
                  Some (byte_of_ascii (ascii_of_N (16 * h + l)))
              | _, _ => None
              end = Some b) by (destruct b; reflexivity).
  destruct (LowerHex.value (Utils.hex_digit (Byte.to_N b / 16)));
    [|discriminate].
  destruct (LowerHex.value (Utils.hex_digit (Byte.to_N b mod 16)));
    [|discriminate].
  injection E as E. do 2 f_equal. exact E.
Qed.

(** C4: the digest is the lowercase hexadecimal text of the SHA-256 of
    the UTF-8 bytes of its argument: two digits of [0-9a-f] a byte,
    which read back as the bytes of the platform's SHA-256, so that
    two digests are the same text exactly when the hashes are the same
    bytes; on the reference platform the texts are the known SHA-256
    digests of [abc], of a Base64 chunk and of a letter that takes two
    bytes in UTF-8. The Sender computes the digest on the Base64 text
    of the chunk it read, the Receiver on the Base64 text it received,
    neither on the raw bytes; and the Sender accepts a reported digest
    exactly when it is the same string as its own. *)
Theorem C4_digest_of_wire_form :
  (forall message,
     Utils.sha256 message
     = Utils.hex (subtle_digest_SHA256 (JsString.TextEncoder_encode message)) /\
     forallb Utils.is_lower_hex (list_ascii_of_string (Utils.sha256 message))
     = true /\
     String.length (Utils.sha256 message)
     = (2 * length (subtle_digest_SHA256
                      (JsString.TextEncoder_encode message)))%nat /\
     LowerHex.read (Utils.sha256 message)
     = Some (subtle_digest_SHA256 (JsString.TextEncoder_encode message))) /\
  (forall a b,
     Utils.sha256 a = Utils.sha256 b <->
     subtle_digest_SHA256 (JsString.TextEncoder_encode a)
     = subtle_digest_SHA256 (JsString.TextEncoder_encode b)) /\
  (@Utils.sha256 reference "abc"
   = "ba7816bf8f01cfea414140de5dae2223b00361a396177a9cb410ff61f20015ad" /\
   @Utils.sha256 reference "AAECAw=="
   = "25464e8d1c31533cfab75eae73087189c62ca36a4d974af2eb828d5c0c8356d7" /\
   @Utils.sha256 reference (String "233"%char EmptyString)
   = "4a99557e4033c3539de2eb65472017cad5f9557f7a0625a09f1c3f6e2ba69c4c") /\
  (forall w file chunks size_,
     FileWorker.readMode w = true ->
     FileWorker._inputFile w = Some file ->
     FileWorker.fileChunks w = Js.Num chunks ->
     FileWorker._chunkSize w = Js.Num size_ ->
     FileWorker.curChunk w < chunks ->
     exists blob,
       blob = Blob.slice (FileWorker.content file) (FileWorker.curChunk w * size_)
                (FileWorker.curChunk w * size_ + size_) /\
       FileWorker.lastChunkBase64 (FileWorker.readNextChunk w)
       = Some (Utils.blobAsBase64 blob) /\
       FileWorker.lastChunkSha256 (FileWorker.readNextChunk w)
       = Some (Utils.sha256 (Utils.blobAsBase64 blob))) /\
  (forall w s arr,
     FileWorker.readMode w = false ->
     Utils.bufferArrayFromBase64 (JsString.trim s) = Some arr ->
     FileWorker.lastChunkBase64
       (fst (FileWorker.writerSetPendingChunk (Js.Str s) w)) = Some s /\
     FileWorker.lastChunkSha256
       (fst (FileWorker.writerSetPendingChunk (Js.Str s) w))
     = Some (Utils.sha256 s)) /\
  (forall now rawData d sha dt c w,
     Core._displayedView c = Some ViewOption.sendFile ->
     Core._isRunning c = true ->
     Core._fileWorker c = Some w ->
     FileWorker.lastChunkSha256 w = Some sha ->
     Core.decodes rawData (Js.Num 3) (Js.Str d) dt ->
     Js.strict_equal (Core._lastReceivedDatetime c) dt = false ->
     Core._onQRDataReceived now (Some rawData) c
     = let c' := Core.set_lastReceivedDatetime dt c in
       if String.eqb d sha
       then
         if JsEq.throws (Js.Num (FileWorker.curChunk w))
              (FileWorker.fileChunks w)
         then (c', Thrown)
         else if JsEq.loose_equal (Js.Num (FileWorker.curChunk w))
                   (FileWorker.fileChunks w)
         then Core._updateQRImage now (Some ChunkType.completed) (Some EmptyString) c'
         else
           Core._updateQRImage now (Some ChunkType.okNext)
             (FileWorker.lastChunkBase64 (FileWorker.readNextChunk w))
             (Core.set_fileWorker (Some (FileWorker.readNextChunk w)) c')
       else
         Core._updateQRImage now (Some ChunkType.invalidSha256)
           (FileWorker.lastChunkBase64 w) c').
Proof.
  split; [|split; [|split; [|split; [|split]]]].
  - intros message. rewrite sha256_hex.
    destruct (hex_lower (subtle_digest_SHA256
                           (JsString.TextEncoder_encode message))) as [H1 H2].
    rewrite H1, H2, read_hex. now repeat split.
  - intros a b. rewrite !sha256_hex. split; [|now intros ->].
    intros H. apply (f_equal LowerHex.read) in H.
    rewrite !read_hex in H. now injection H.
  - repeat split; vm_compute; reflexivity.
  - intros w file chunks size_ Hmode Hfile Hchunks Hsize Hlt.
    rewrite (readNextChunk_reads w file chunks size_ Hmode Hfile Hchunks Hsize Hlt).
    eexists. split; [reflexivity|]. now split.
  - intros w s arr Hmode Harr. now rewrite (setPending_decoded s arr w Hmode Harr).
  - intros now rawData d sha dt c w Hview Hrun Hworker Hsha Hdec Hnew.
    rewrite (sender_observes now rawData _ _ dt c Hview Hrun Hdec Hnew).
    cbn [Core._chunkTypeFromId]. unfold Core.onSendFile.
    cbn [Core._fileWorker Core.set_lastReceivedDatetime]. rewrite Hworker.
    cbv zeta. rewrite Hsha. cbn [Js.of_option JsEq.throws].
    change (JsEq.loose_equal (Js.Str d) (Js.Str sha)) with (String.eqb d sha).
    reflexivity.
Qed.

End Sender.

(** A wrong digest reported to the Sender that has the first chunk of
    [file8] on show: the same Base64 text goes out again. *)
Lemma C6_mismatch_redisplays_cached_witness :
  Core._onQRDataReceived 16
    (Some (Example.text ChunkType.evalSha256 "00" 15)) Example.transmitting
  = (Core.set_qrCode
       (Some (Core.qrData ChunkType.invalidSha256 "AAECAw==" 16))
       (Core.set_lastReceivedDatetime (Js.Num 15) Example.transmitting),
     Returned) /\
  Core.qrCode Example.transmitting
  = Some (Core.qrData ChunkType.okNext "AAECAw==" 13).
Proof.
  pose proof (C6_mismatch_redisplays_cached 16
                (Example.text ChunkType.evalSha256 "00" 15) "00" "AAECAw=="
                (Utils.sha256 "AAECAw==") (Js.Num 15) Example.transmitting
                (Example.worker Example.transmitting)
                ltac:(evaluate) ltac:(evaluate) ltac:(evaluate) ltac:(evaluate)
                ltac:(evaluate) ltac:(vm_compute; discriminate) ltac:(decode)
                ltac:(evaluate))
    as (Hshow & _ & _ & _).
  split; [|evaluate].
  vm_compute in Hshow |- *. exact Hshow.
Defined.

(** The digests of the first chunk of [file8] on both sides, and the
    Sender's test on the right digest. *)
Lemma C4_digest_of_wire_form_witness :
  Utils.sha256 "AAECAw=="
  = "25464e8d1c31533cfab75eae73087189c62ca36a4d974af2eb828d5c0c8356d7" /\
  FileWorker.lastChunkSha256
    (FileWorker.readNextChunk (Example.worker Example.advertising8))
  = Some (Utils.sha256 "AAECAw==") /\
  FileWorker.lastChunkSha256
    (fst (FileWorker.writerSetPendingChunk (Js.Str "AAECAw==")
            (Example.worker Example.collecting)))
  = Some (Utils.sha256 "AAECAw==") /\
  Core.qrCode
    (fst (Core._onQRDataReceived 16
            (Some (Example.text ChunkType.evalSha256
                     (Utils.sha256 "AAECAw==") 15)) Example.transmitting))
  = Some (Core.qrData ChunkType.okNext "BAUGBw==" 16).
Proof.
  assert (Hdec : Core.decodes
            (Example.text ChunkType.evalSha256 (Utils.sha256 "AAECAw==") 15)
            (Js.Num 3) (Js.Str (Utils.sha256 "AAECAw==")) (Js.Num 15)) by decode.
  pose proof (@C4_digest_of_wire_form reference)
    as (_ & _ & (_ & Hknown & _) & Hread & Hpend & Htest).
  split; [exact Hknown|]. split; [|split].
  - pose proof (Hread (Example.worker Example.advertising8)
                  Example.file8 2 4 ltac:(evaluate) ltac:(evaluate)
                  ltac:(evaluate) ltac:(evaluate) ltac:(evaluate))
      as (blob & -> & _ & Hsha).
    vm_compute in Hsha |- *. exact Hsha.
  - pose proof (proj2 (Hpend (Example.worker Example.collecting) "AAECAw=="
                         ["000"; "001"; "002"; "003"]%byte ltac:(evaluate)
                         ltac:(evaluate))) as H.
    vm_compute in H |- *. exact H.
  - pose proof (Htest 16 _ (Utils.sha256 "AAECAw==") (Utils.sha256 "AAECAw==")
                  (Js.Num 15) Example.transmitting
                  (Example.worker Example.transmitting)
                  ltac:(evaluate) ltac:(evaluate) ltac:(evaluate)
                  ltac:(evaluate) Hdec ltac:(evaluate)) as H.
    rewrite H. evaluate.
Defined.

Section EmptyFile.

Context {P : Platform}.

(** With an empty file the Sender has no chunk to read when
    [meta_info_received] arrives: the cache stays empty and
    [_updateQRImage] gets a [null] input, which clears the image or
    throws. No envelope is shown. *)
Lemma empty_file_stalls (name type : string) (chunkSize t0 now : Z)
  (last last' dt bd : Js.value) (img img' : bool) (rawData : string) :
  0 < chunkSize ->
  let file := {| FileWorker.name := name; FileWorker.type := type;
                 FileWorker.content := [] |} in
  let s := Session.sender (Session.start file chunkSize t0 last last' img img') in
  Core.decodes rawData (Js.Num 1) bd dt ->
  Js.strict_equal last dt = false ->
  Core._onQRDataReceived now (Some rawData) s
  = if img
    then (Core.set_qrCode None (Core.set_lastReceivedDatetime dt s), Returned)
    else (Core.set_lastReceivedDatetime dt s, Thrown).
Proof.
  intros Hcs file s Hdec Hnew.
  rewrite (sender_observes now rawData _ bd dt s eq_refl eq_refl Hdec Hnew).
  subst s file. unfold Session.start, Session.sender, Core.startSending.
  cbn [Core._isSenderReceiverView Core._displayedView negb Core._isRunning
       Core.set_isRunning Core._fileWorker].
  unfold FileWorker.createReader, FileWorker.updateChunkSize.
  cbn [FileWorker.readMode negb FileWorker._inputFile FileWorker.size
       FileWorker.content length Z.of_nat].
  unfold ceil_div. cbn [Z.opp]. rewrite Z.div_0_l by lia. cbn [Z.opp].
  unfold Core._updateQRImage at 2.
  cbn [Core._isSenderReceiverView Core._displayedView negb fst
       Core.set_qrCode Core.set_isRunning Core._chunkTypeFromId].
  unfold Core.onSendFile.
  cbn [Core._fileWorker Core.set_lastReceivedDatetime Core.set_qrCode].
  unfold FileWorker.readNextChunk.
  cbn [FileWorker.readMode negb FileWorker._inputFile FileWorker.fileChunks
       FileWorker._chunkSize FileWorker.number FileWorker.curChunk].
  cbn [Z.geb Z.compare FileWorker.set_lastChunk FileWorker.lastChunkBase64].
  unfold Core._updateQRImage.
  cbn [Core._isSenderReceiverView Core._displayedView negb Core.set_fileWorker
       Core.qrViewHasImg].
  destruct img; reflexivity.
Qed.

End EmptyFile.

(** C2, on the code: the Sender of an empty file, once it observes
    [meta_info_received], clears its QR image. It shows no [completed]
    envelope, so the Receiver gets nothing to finalize. *)
Theorem C2_empty_file_shows_no_completed :
  let s := Example.advertising0 in
  let rawData := Example.text ChunkType.metaInfoReceived EmptyString 12 in
  let s' := fst (Core._onQRDataReceived 13 (Some rawData) s) in
  FileWorker.fileSize (Example.worker s) = Js.Num 0 /\
  FileWorker.fileChunks (Example.worker s) = Js.Num 0 /\
  Core.decodes rawData (Js.Num 1) (Js.Str EmptyString) (Js.Num 12) /\
  Core.qrCode s' = None /\
  Core.qrCode s' <> Some (Core.qrData ChunkType.completed EmptyString 13) /\
  Core._fileWorker s' = Core._fileWorker s.
Proof.
  cbv zeta. split; [evaluate|]. split; [evaluate|]. split; [decode|].
  change Example.advertising0 with (Example.advertising Example.empty 128).
  unfold Example.advertising, Example.empty.
  rewrite (empty_file_stalls "empty.txt" "text/plain" 128 10 13 Js.Null Js.Null
             (Js.Num 12) (Js.Str EmptyString) true true
             (Example.text ChunkType.metaInfoReceived EmptyString 12)
             ltac:(lia) ltac:(decode) ltac:(evaluate)).
  split; [evaluate|]. split; [vm_compute; discriminate | evaluate].
Qed.

(** ** The chunks of a file *)

Lemma ceil_div_covers (a b : Z) : 0 < b -> a <= ceil_div a b * b.
Proof.
  intros Hb. unfold ceil_div.
  pose proof (Z.mul_div_le (- a) b Hb). lia.
Qed.

Lemma ceil_div_nonneg (a b : Z) : 0 <= a -> 0 < b -> 0 <= ceil_div a b.
Proof.
  intros Ha Hb. unfold ceil_div.
  assert ((- a) / b <= 0); [|lia].
  apply Z.div_le_upper_bound; lia.
Qed.

Lemma firstn_plus {A : Type} (a b : nat) (l : list A) :
  firstn a l ++ firstn b (skipn a l) = firstn (a + b) l.
Proof.
  revert l. induction a as [|a IH]; intros l; [reflexivity|].
  destruct l as [|x r]; cbn; [now rewrite firstn_nil | now rewrite IH].
Qed.

(** A slice continues the bytes before it. *)
Lemma slice_continues (l : list byte) (a cs : Z) :
  0 <= a -> 0 <= cs ->
  firstn (Z.to_nat a) l ++ Blob.slice l a (a + cs) = firstn (Z.to_nat (a + cs)) l.
Proof.
  intros Ha Hcs. unfold Blob.slice.
  destruct (a <? 0) eqn:E1; [lia|]. destruct (a + cs <? 0) eqn:E2; [lia|].
  destruct (Z_le_gt_dec (Z.of_nat (length l)) a) as [Hbig | Hsmall].
  - rewrite (@firstn_all2 _ (Z.to_nat a) l),
      (@firstn_all2 _ (Z.to_nat (a + cs)) l) by lia.
    rewrite (Z.min_r a), (Z.min_r (a + cs)) by lia.
    rewrite Z.sub_diag. change (Z.to_nat (Z.max 0 0)) with O.
    cbn [firstn]. apply app_nil_r.
  - rewrite (Z.min_l a) by lia.
    replace (firstn (Z.to_nat (Z.max (Z.min (a + cs) (Z.of_nat (length l)) - a) 0))
               (skipn (Z.to_nat a) l))
      with (firstn (Z.to_nat cs) (skipn (Z.to_nat a) l)).
    + rewrite firstn_plus. f_equal. lia.
    + destruct (Z_le_gt_dec (a + cs) (Z.of_nat (length l))) as [Hin | Hout].
      * f_equal. lia.
      * rewrite !firstn_all2; [reflexivity | |]; rewrite length_skipn; lia.
Qed.

Section Chunks.

Variable file : FileWorker.File.

Variable chunkSize : Z.

Hypothesis chunkSize_positive : 0 < chunkSize.

Lemma prefix_succ (j : nat) :
  Session.prefix file chunkSize (S j)
  = Session.prefix file chunkSize j ++ [Session.chunk file chunkSize j].
Proof. unfold Session.prefix. now rewrite seq_S, map_app. Qed.

Lemma concat_prefix (n : nat) :
  concat (Session.prefix file chunkSize n)
  = firstn (Z.to_nat (Z.of_nat n * chunkSize)) (FileWorker.content file).
Proof.
  induction n as [|n IH]; [reflexivity|].
  rewrite prefix_succ, concat_app, IH. cbn [concat]. rewrite app_nil_r.
  unfold Session.chunk. rewrite slice_continues by lia. f_equal. lia.
Qed.

(** All the chunks, one after the other, are the file. *)
Lemma concat_prefix_all (n : nat) :
  Z.of_nat n = Session.chunks file chunkSize ->
  concat (Session.prefix file chunkSize n) = FileWorker.content file.
Proof.
  intros Hn. rewrite concat_prefix. apply firstn_all2.
  pose proof (ceil_div_covers (FileWorker.size file) chunkSize
                chunkSize_positive) as H.
  unfold Session.chunks in Hn. rewrite <- Hn in H.
  unfold FileWorker.size in H. lia.
Qed.

Lemma chunks_nonneg : 0 <= Session.chunks file chunkSize.
Proof.
  apply ceil_div_nonneg; [unfold FileWorker.size; lia | assumption].
Qed.

(** Every chunk the Sender reads has bytes in it. *)
Lemma chunk_not_empty (k : nat) :
  Z.of_nat k < Session.chunks file chunkSize ->
  Session.chunk file chunkSize k <> [].
Proof.
  intros Hk Hnil.
  assert (Hlt : Z.of_nat k * chunkSize < FileWorker.size file).
  { destruct (Z_lt_le_dec (Z.of_nat k * chunkSize) (FileWorker.size file))
      as [H | H]; [exact H | exfalso].
    unfold Session.chunks, ceil_div in Hk.
    assert (- Z.of_nat k <= (- FileWorker.size file) / chunkSize)
      by (apply Z.div_le_lower_bound; lia).
    lia. }
  apply (f_equal (@length byte)) in Hnil.
  unfold Session.chunk, Blob.slice in Hnil.
  rewrite length_firstn, length_skipn in Hnil. unfold FileWorker.size in Hlt.
  destruct (Z.of_nat k * chunkSize <? 0) eqn:E1; [lia|].
  destruct (Z.of_nat k * chunkSize + chunkSize <? 0) eqn:E2; [lia|].
  cbn [length] in Hnil. lia.
Qed.

End Chunks.

(** ** The transfer of a file, end to end *)

Section TransferFacts.

Context {P : Platform}.

Variable file : FileWorker.File.

Variable chunkSize : Z.

Hypothesis chunkSize_positive : 0 < chunkSize.

Local Abbreviation chunk := (Session.chunk file chunkSize).
Local Abbreviation wire := (Session.wire file chunkSize).
Local Abbreviation digest := (Session.digest file chunkSize).
Local Abbreviation chunks := (Session.chunks file chunkSize).
Local Abbreviation prefix := (Session.prefix file chunkSize).
Local Abbreviation reader := (Session.reader file chunkSize).

(** *** The Sender's worker *)

Lemma reader_fields (n : nat) :
  FileWorker.readMode (reader n) = true /\
  FileWorker._inputFile (reader n) = Some file /\
  FileWorker.fileChunks (reader n) = Js.Num chunks /\
  FileWorker._chunkSize (reader n) = Js.Num chunkSize /\
  FileWorker.curChunk (reader n) = Z.of_nat n.
Proof. destruct n; repeat split; reflexivity. Qed.

Lemma reader_cache (j : nat) :
  FileWorker.lastChunkBase64 (reader (S j)) = Some (wire j) /\
  FileWorker.lastChunkSha256 (reader (S j)) = Some (digest j).
Proof. split; reflexivity. Qed.

Lemma reader_read (n : nat) :
  Z.of_nat n < chunks ->
  FileWorker.readNextChunk (reader n) = reader (S n).
Proof.
  intros Hlt.
  destruct (reader_fields n) as (Hmode & Hfile & Hchunks & Hsize & Hcur).
  rewrite (readNextChunk_reads (reader n) file chunks chunkSize
             Hmode Hfile Hchunks Hsize); [|lia].
  cbv zeta. rewrite Hcur.
  replace (Z.of_nat n + 1) with (Z.of_nat (S n)) by lia.
  destruct n; reflexivity.
Qed.

Lemma reader_stay :
  chunks <= 0 -> FileWorker.readNextChunk (reader 0) = reader 0.
Proof.
  intros Hle. unfold FileWorker.readNextChunk.
  destruct (reader_fields 0) as (Hmode & Hfile & Hchunks & Hsize & Hcur).
  rewrite Hmode, Hfile, Hchunks, Hsize, Hcur. cbn [negb FileWorker.number].
  destruct (Z.of_nat 0 >=? chunks) eqn:E; [reflexivity|].
  rewrite Z.geb_leb in E. apply Z.leb_gt in E. lia.
Qed.

(** *** Sightings that change nothing *)

Lemma observes_qrData (now : Z) (rawData : string) (k : ChunkType.t)
  (bd : string) (dt : Z) (c : Core.t) :
  Core._isRunning c = true ->
  JsString.trim rawData <> EmptyString ->
  JSON_parse (Js.Str (JsString.trim rawData)) = Some (Core.qrData k bd dt) ->
  Core._onQRDataReceived now (Some rawData) c
  = if Js.strict_equal (Core._lastReceivedDatetime c) (Js.Num dt)
    then (Core.set_lastReceivedDatetime (Js.Num dt) c, Returned)
    else Core.dispatch now k (Js.Str bd)
           (Core.set_lastReceivedDatetime (Js.Num dt) c).
Proof.
  intros Hrun Hne Hparse.
  rewrite (observed_parsed now rawData _ c Hrun Hne Hparse).
  apply onParsed_qrData.
Qed.

Lemma observes_seen (now : Z) (rawData : string) (k : ChunkType.t)
  (bd : string) (dt : Z) (c : Core.t) :
  JsString.trim rawData <> EmptyString ->
  JSON_parse (Js.Str (JsString.trim rawData)) = Some (Core.qrData k bd dt) ->
  Core._lastReceivedDatetime c = Js.Num dt ->
  fst (Core._onQRDataReceived now (Some rawData) c) = c.
Proof.
  intros Hne Hparse Hlast.
  destruct (Core._isRunning c) eqn:Hrun.
  - rewrite (observes_qrData now rawData k bd dt c Hrun Hne Hparse), Hlast.
    rewrite strict_equal_Num, Z.eqb_refl. cbn [fst].
    rewrite <- Hlast. apply set_lastReceivedDatetime_same.
  - now rewrite not_running_ignores.
Qed.

(** Whatever the camera makes of a code, it is an envelope with the
    nonce shown. *)
Lemma receiver_reads_nonce (shown seen : Js.value) (k : ChunkType.t)
  (bd : string) (dt : Z) :
  Session.read_by_receiver shown seen ->
  shown = Core.qrData k bd dt ->
  exists bd', seen = Core.qrData k bd' dt /\
              (bd' = bd \/
               (k = ChunkType.okNext \/ k = ChunkType.invalidSha256) /\
               Utils.sha256 bd' <> Utils.sha256 bd).
Proof.
  intros [|k0 bd0 bd' dt0 Hshown Hk Hsha] E.
  - exists bd. auto.
  - rewrite Hshown in E. unfold Core.qrData in E.
    injection E as Ek Ebd Edt.
    assert (k0 = k) by (destruct k0, k; cbn in Ek; congruence).
    subst. exists bd'. auto.
Qed.

Lemma sender_reads_nonce (c : Core.t) (shown seen : Js.value)
  (k : ChunkType.t) (bd : string) (dt : Z) :
  Session.read_by_sender c shown seen ->
  shown = Core.qrData k bd dt ->
  exists bd', seen = Core.qrData k bd' dt /\
              (bd' = bd \/
               k = ChunkType.evalSha256 /\ Some bd' <> Session.expected c).
Proof.
  intros [|bd0 bd' dt0 Hshown Hexp] E.
  - exists bd. auto.
  - rewrite Hshown in E. unfold Core.qrData in E.
    injection E as Ek Ebd Edt.
    assert (k = ChunkType.evalSha256) by (destruct k; cbn in Ek; congruence).
    subst. exists bd'. auto.
Qed.

(** *** Ways to establish the invariant *)

Lemma session_eta (s : Session.t) :
  {| Session.sender := Session.sender s; Session.receiver := Session.receiver s |}
  = s.
Proof. now destruct s. Qed.

Lemma seen_nonce (observer shower : Core.t) (k : ChunkType.t) (bd : string)
  (dt : Z) :
  Core.qrCode shower = Some (Core.qrData k bd dt) ->
  Core._lastReceivedDatetime observer = Js.Num dt ->
  Session.seen observer shower.
Proof. intros Hq Hl. unfold Session.seen. rewrite Hq. eauto. Qed.

Lemma seen_nothing (observer shower : Core.t) :
  Core.qrCode shower = None -> Session.seen observer shower.
Proof. intros Hq. unfold Session.seen. now rewrite Hq. Qed.

Lemma seen_same (observer observer' shower shower' : Core.t) :
  Core.qrCode shower' = Core.qrCode shower ->
  Core._lastReceivedDatetime observer' = Core._lastReceivedDatetime observer ->
  Session.seen observer shower -> Session.seen observer' shower'.
Proof. unfold Session.seen. now intros -> ->. Qed.

Lemma invariant_idle (s : Session.t) (n : nat) :
  Session.safe file s ->
  Session.sender_at file chunkSize n (Session.sender s) ->
  Session.sender_idle s -> Session.receiver_idle s ->
  Session.invariant file chunkSize s.
Proof. intros. split; [assumption|]. exists n. auto. Qed.

Lemma invariant_receiver_turn (s : Session.t) (n : nat) :
  Session.safe file s ->
  Session.sender_at file chunkSize n (Session.sender s) ->
  Session.sender_idle s -> Session.receiver_due file chunkSize n s ->
  Session.invariant file chunkSize s.
Proof. intros. split; [assumption|]. exists n. auto. Qed.

Lemma invariant_sender_turn (s : Session.t) (n : nat) :
  Session.safe file s ->
  Session.sender_at file chunkSize n (Session.sender s) ->
  Session.receiver_idle s -> Session.sender_due file chunkSize n s ->
  Session.invariant file chunkSize s.
Proof. intros. split; [assumption|]. exists n. auto. Qed.

Lemma createWriter_fresh (m : Js.value) (w : FileWorker.t) :
  FileWorker.createWriter m = Some w ->
  FileWorker.readMode w = false /\
  FileWorker._writerBuffer w = [] /\
  FileWorker.lastChunkBlob w = None.
Proof.
  unfold FileWorker.createWriter.
  destruct (Js.get m "fileType"), (Js.get m "fileName"),
    (Js.get m "fileSize"), (Js.get m "chunkSize"), (Js.get m "fileChunks");
    try discriminate.
  intros [= <-]. now repeat split.
Qed.

Lemma setPending_cases (bd : string) (w : FileWorker.t) :
  FileWorker.readMode w = false ->
  (exists arr,
     Utils.bufferArrayFromBase64 (JsString.trim bd) = Some arr /\
     FileWorker.writerSetPendingChunk (Js.Str bd) w
     = (FileWorker.set_lastChunk (Some arr) (Some bd) (Some (Utils.sha256 bd)) w,
        Returned)) \/
  FileWorker.writerSetPendingChunk (Js.Str bd) w = (w, Thrown).
Proof.
  intros Hmode. unfold FileWorker.writerSetPendingChunk. rewrite Hmode.
  destruct (Utils.bufferArrayFromBase64 (JsString.trim bd)) as [arr|];
    [left; eauto | now right].
Qed.

(** *** The Receiver observes *)

Lemma receiver_step (s : Session.t) (n : nat) (now : Z) (rawData : string)
  (shown seen : Js.value) :
  Session.safe file s ->
  Session.sender_at file chunkSize n (Session.sender s) ->
  Session.sender_idle s ->
  Session.receiver_due file chunkSize n s ->
  Core.qrCode (Session.sender s) = Some shown ->
  Session.read_by_receiver shown seen ->
  JsString.trim rawData <> EmptyString ->
  JSON_parse (Js.Str (JsString.trim rawData)) = Some seen ->
  Session.invariant file chunkSize
    {| Session.sender := Session.sender s;
       Session.receiver :=
         fst (Core._onQRDataReceived now (Some rawData) (Session.receiver s)) |}.
Proof.
  intros Hsafe Hat Hidle Hdue0 Hshown Hread Hne Hparse.
  pose proof Hdue0 as (k & bd & dt & Hq & Hdue).
  rewrite Hq in Hshown. injection Hshown as <-.
  destruct (receiver_reads_nonce _ _ k bd dt Hread eq_refl)
    as (bd' & -> & Hbody).
  (* a sighting of a nonce already stored changes nothing *)
  destruct (Js.strict_equal (Core._lastReceivedDatetime (Session.receiver s))
              (Js.Num dt)) eqn:Hnew.
  { apply strict_equal_eq in Hnew.
    rewrite (observes_seen now rawData k bd' dt _ Hne Hparse Hnew), session_eta.
    now apply invariant_receiver_turn with (n := n). }
  assert (Hrun : Core._isRunning (Session.receiver s) = true).
  { destruct k; try contradiction;
      [ now destruct Hdue as (_ & _ & H & _)
      | destruct Hdue as (j & w & _ & _ & (_ & H & _) & _)
      | destruct Hdue as (j & w & _ & _ & (_ & H & _) & _)
      | destruct Hdue as (w & _ & (_ & H & _) & _) ]; exact H. }
  assert (Hview : Core._displayedView (Session.receiver s)
                  = Some ViewOption.receiveFile).
  { destruct k; try contradiction;
      [ now destruct Hdue as (_ & H & _)
      | destruct Hdue as (j & w & _ & _ & (H & _) & _)
      | destruct Hdue as (j & w & _ & _ & (H & _) & _)
      | destruct Hdue as (w & _ & (H & _) & _) ]; exact H. }
  rewrite (observes_qrData now rawData k bd' dt _ Hrun Hne Hparse), Hnew.
  unfold Core.dispatch.
  cbn [Core._displayedView Core.set_lastReceivedDatetime]. rewrite Hview.
  (* from here on the nonce is stored: the Receiver is idle towards
     what the Sender shows *)
  assert (Hstored : forall r,
            Core._lastReceivedDatetime r = Js.Num dt ->
            Session.seen r (Session.sender s)).
  { intros r Hr. now apply seen_nonce with (k := k) (bd := bd) (dt := dt). }
  unfold Core.onReceiveFile.
  cbn [Core._fileWorker Core.set_lastReceivedDatetime].
  destruct k; try contradiction.
  - (* meta_info *)
    destruct Hdue as (-> & _ & _ & Hworker & Hdown). rewrite Hworker.
    destruct Hbody as [-> | [[Hk | Hk] _]]; try discriminate.
    destruct (JSON_parse (Js.Str bd)) as [m|];
      [destruct (FileWorker.createWriter m) as [w|] eqn:Hw|].
    + labels_cases.
      * rewrite updateQRImage_shown
          by (unfold Core._isSenderReceiverView; cbn; now rewrite Hview).
        destruct (createWriter_fresh m w Hw) as (Hmode & Hbuf & Hblob).
        apply invariant_sender_turn with (n := O);
          cbn [Session.sender Session.receiver fst].
        -- intros d. cbn. rewrite Hdown. contradiction.
        -- exact Hat.
        -- right. now apply Hstored.
        -- exists ChunkType.metaInfoReceived, (JsString.trim EmptyString), now, w.
           cbn. repeat split; auto.
      * apply invariant_idle with (n := O);
          cbn [Session.sender Session.receiver fst].
        -- intros d. cbn. rewrite Hdown. contradiction.
        -- exact Hat.
        -- exact Hidle.
        -- right. now apply Hstored.
    + apply invariant_idle with (n := O); cbn [Session.sender Session.receiver fst].
      * intros d. cbn. rewrite Hdown. contradiction.
      * exact Hat.
      * exact Hidle.
      * right. now apply Hstored.
    + apply invariant_idle with (n := O); cbn [Session.sender Session.receiver fst].
      * intros d. cbn. rewrite Hdown. contradiction.
      * exact Hat.
      * exact Hidle.
      * right. now apply Hstored.
  - (* ok_next *)
    destruct Hdue as (j & w & -> & -> & (_ & _ & Hworker & Hmode & Hdown) & Hbuf).
    rewrite Hworker.
    destruct (commit_buffer w Hmode) as (Hmode1 & Hbuf1 & _ & Hblob1).
    fold (Session.pending_blobs w) in Hbuf1. rewrite Hbuf in Hbuf1.
    destruct (setPending_cases bd' _ Hmode1) as [(arr & Harr & ->) | ->].
    + labels_cases;
        [|apply invariant_idle with (n := S j);
          cbn [Session.sender Session.receiver fst];
          [ intros d; cbn; rewrite Hdown; contradiction | exact Hat
          | exact Hidle | right; now apply Hstored ]].
      cbn [FileWorker.lastChunkSha256 FileWorker.set_lastChunk].
      rewrite updateQRImage_shown
        by (unfold Core._isSenderReceiverView; cbn; now rewrite Hview).
      rewrite sha256_trimmed.
      apply invariant_sender_turn with (n := S j);
        cbn [Session.sender Session.receiver fst].
      * intros d. cbn. rewrite Hdown. contradiction.
      * exact Hat.
      * right. now apply Hstored.
      * eexists ChunkType.evalSha256, (Utils.sha256 bd'), now, _.
        split; [reflexivity|]. split.
        { unfold Session.collecting. cbn. auto. }
        exists j, arr. split; [reflexivity|]. split; [exact Hbuf1|].
        split; [reflexivity|].
        destruct Hbody as [-> | [_ Hsha]].
        -- left. unfold Session.wire in Harr.
           rewrite bufferArrayFromBase64_blobAsBase64 in Harr. congruence.
        -- right. exact Hsha.
    + apply invariant_idle with (n := S j);
        cbn [Session.sender Session.receiver fst].
      * intros d. cbn. rewrite Hdown. contradiction.
      * exact Hat.
      * exact Hidle.
      * right. now apply Hstored.
  - (* invalid_sha256 *)
    destruct Hdue as (j & w & -> & -> & (_ & _ & Hworker & Hmode & Hdown) & Hbuf).
    rewrite Hworker.
    destruct (setPending_cases bd' _ Hmode) as [(arr & Harr & ->) | ->].
    + labels_cases;
        [|apply invariant_idle with (n := S j);
          cbn [Session.sender Session.receiver fst];
          [ intros d; cbn; rewrite Hdown; contradiction | exact Hat
          | exact Hidle | right; now apply Hstored ]].
      cbn [FileWorker.lastChunkSha256 FileWorker.set_lastChunk].
      rewrite updateQRImage_shown
        by (unfold Core._isSenderReceiverView; cbn; now rewrite Hview).
      rewrite sha256_trimmed.
      apply invariant_sender_turn with (n := S j);
        cbn [Session.sender Session.receiver fst].
      * intros d. cbn. rewrite Hdown. contradiction.
      * exact Hat.
      * right. now apply Hstored.
      * eexists ChunkType.evalSha256, (Utils.sha256 bd'), now, _.
        split; [reflexivity|]. split.
        { unfold Session.collecting. cbn. auto. }
        exists j, arr. split; [reflexivity|]. split; [exact Hbuf|].
        split; [reflexivity|].
        destruct Hbody as [-> | [_ Hsha]].
        -- left. unfold Session.wire in Harr.
           rewrite bufferArrayFromBase64_blobAsBase64 in Harr. congruence.
        -- right. exact Hsha.
    + apply invariant_idle with (n := S j);
        cbn [Session.sender Session.receiver fst].
      * intros d. cbn. rewrite Hdown. contradiction.
      * exact Hat.
      * exact Hidle.
      * right. now apply Hstored.
  - (* completed *)
    destruct Hdue as (w & Hn & (_ & _ & Hworker & Hmode & Hdown) & Hbuf).
    rewrite Hworker.
    destruct (commit_buffer w Hmode) as (Hmode1 & Hbuf1 & _ & _).
    fold (Session.pending_blobs w) in Hbuf1. rewrite Hbuf in Hbuf1.
    rewrite (download_of_writer _ Hmode1), Hbuf1.
    destruct (Js.convertible _ && Js.convertible _).
    2:{ apply invariant_idle with (n := n);
          cbn [Session.sender Session.receiver fst];
          [ intros d; cbn; rewrite Hdown; contradiction | exact Hat
          | exact Hidle | right; now apply Hstored ]. }
    rewrite (concat_prefix_all file chunkSize chunkSize_positive n Hn).
    unfold Core.stopReceiving.
    rewrite setup_cases
      by (unfold Core._isSenderReceiverView; cbn; now rewrite Hview).
    apply invariant_idle with (n := n);
      cbn [Session.sender Session.receiver fst];
      try exact Hat; try (now left).
    + intros d. cbn. rewrite Hdown. cbn. intros [<- | []]. reflexivity.
    + now apply seen_nothing.
Qed.

(** *** The Sender observes *)

Lemma updateQRImage_null (now : Z) (k : option ChunkType.t) (c : Core.t) :
  Core._isSenderReceiverView c = true ->
  Core._updateQRImage now k None c
  = if Core.qrViewHasImg c then (Core.set_qrCode None c, Returned)
    else (c, Thrown).
Proof. intros H. unfold Core._updateQRImage. now rewrite H. Qed.

Lemma sender_step (s : Session.t) (n : nat) (now : Z) (rawData : string)
  (shown seen : Js.value) :
  Session.safe file s ->
  Session.sender_at file chunkSize n (Session.sender s) ->
  Session.receiver_idle s ->
  Session.sender_due file chunkSize n s ->
  Core.qrCode (Session.receiver s) = Some shown ->
  Session.read_by_sender (Session.sender s) shown seen ->
  JsString.trim rawData <> EmptyString ->
  JSON_parse (Js.Str (JsString.trim rawData)) = Some seen ->
  Session.invariant file chunkSize
    {| Session.sender :=
         fst (Core._onQRDataReceived now (Some rawData) (Session.sender s));
       Session.receiver := Session.receiver s |}.
Proof.
  intros Hsafe Hat Hidle Hdue0 Hshown Hread Hne Hparse.
  pose proof Hdue0 as (k & bd & dt & w & Hq & Hcoll & Hdue).
  pose proof Hat as (Hview & Hrun & Hworker & Hle).
  rewrite Hq in Hshown. injection Hshown as <-.
  destruct (sender_reads_nonce _ _ _ k bd dt Hread eq_refl)
    as (bd' & -> & Hbody).
  destruct (Js.strict_equal (Core._lastReceivedDatetime (Session.sender s))
              (Js.Num dt)) eqn:Hnew.
  { apply strict_equal_eq in Hnew.
    rewrite (observes_seen now rawData k bd' dt _ Hne Hparse Hnew), session_eta.
    now apply invariant_sender_turn with (n := n). }
  rewrite (observes_qrData now rawData k bd' dt _ Hrun Hne Hparse), Hnew.
  unfold Core.dispatch.
  cbn [Core._displayedView Core.set_lastReceivedDatetime]. rewrite Hview.
  assert (Hsr : forall q,
            Core._isSenderReceiverView
              (Core.set_fileWorker q
                 (Core.set_lastReceivedDatetime (Js.Num dt) (Session.sender s)))
            = true).
  { intros q. unfold Core._isSenderReceiverView. cbn. now rewrite Hview. }
  assert (Hsr' : Core._isSenderReceiverView
                   (Core.set_lastReceivedDatetime (Js.Num dt) (Session.sender s))
                 = true).
  { unfold Core._isSenderReceiverView. cbn. now rewrite Hview. }
  assert (Hstored : forall c,
            Core._lastReceivedDatetime c = Js.Num dt ->
            Session.seen c (Session.receiver s)).
  { intros c Hc. now apply seen_nonce with (k := k) (bd := bd) (dt := dt). }
  unfold Core.onSendFile.
  cbn [Core._fileWorker Core.set_lastReceivedDatetime]. rewrite Hworker.
  destruct k; try contradiction.
  - (* meta_info_received *)
    destruct Hdue as (-> & Hbuf & Hblob).
    destruct (Z_lt_le_dec 0 chunks) as [Hsome | Hnone].
    + rewrite (reader_read 0) by exact Hsome.
      destruct (reader_cache 0) as [-> _].
      rewrite (updateQRImage_shown _ _ _ _ (Hsr _)).
      unfold Session.wire at 1. rewrite blobAsBase64_trimmed.
      fold (Session.wire file chunkSize 0).
      apply invariant_receiver_turn with (n := 1%nat);
        cbn [Session.sender Session.receiver fst].
      * exact Hsafe.
      * unfold Session.sender_at. cbn. repeat split; auto. lia.
      * now apply Hstored.
      * exists ChunkType.okNext, (wire 0%nat), now. split; [reflexivity|].
        exists 0%nat, w. split; [reflexivity|]. split; [reflexivity|].
        split; [exact Hcoll|].
        unfold Session.pending_blobs. now rewrite Hbuf, Hblob.
    + rewrite (reader_stay Hnone).
      change (FileWorker.lastChunkBase64 (reader 0)) with (@None string).
      rewrite (updateQRImage_null _ _ _ (Hsr _)).
      cbn [Core.qrViewHasImg Core.set_fileWorker Core.set_lastReceivedDatetime].
      destruct (Core.qrViewHasImg (Session.sender s));
        apply invariant_idle with (n := 0%nat);
        cbn [Session.sender Session.receiver fst]; try exact Hsafe.
      * unfold Session.sender_at. cbn. now repeat split.
      * now apply Hstored.
      * right. now apply seen_nothing.
      * unfold Session.sender_at. cbn. now repeat split.
      * now apply Hstored.
      * destruct Hidle as [Hoff | Hseen]; [now left | right].
        eapply seen_same; [| |exact Hseen]; reflexivity.
  - (* eval_sha256 *)
    destruct Hdue as (j & b & -> & Hbuf & Hblob & Hgood).
    destruct (reader_cache j) as [Hwire Hsha].
    destruct (reader_fields (S j)) as (_ & _ & Hchunks & _ & Hcur).
    cbv zeta. rewrite Hsha. cbn [Js.of_option JsEq.throws].
    change (JsEq.loose_equal (Js.Str bd') (Js.Str (digest j)))
      with (String.eqb bd' (digest j)).
    destruct (String.eqb bd' (digest j)) eqn:Hsame.
    + apply String.eqb_eq in Hsame. subst bd'.
      assert (Hb : b = chunk j).
      { destruct Hbody as [<- | [_ Hexp]].
        - destruct Hgood as [Hb | Hbad]; [exact Hb | now elim Hbad].
        - unfold Session.expected in Hexp. rewrite Hworker, Hsha in Hexp.
          now elim Hexp. }
      assert (Hall : FileWorker._writerBuffer w ++ Session.pending_blobs w
                     = prefix (S j)).
      { unfold Session.pending_blobs. now rewrite Hbuf, Hblob, Hb, prefix_succ. }
      rewrite Hchunks, Hcur. cbn [JsEq.throws].
      change (JsEq.loose_equal (Js.Num (Z.of_nat (S j))) (Js.Num chunks))
        with (Z.of_nat (S j) =? chunks).
      destruct (Z.of_nat (S j) =? chunks) eqn:Hlast.
      * apply Z.eqb_eq in Hlast.
        rewrite (updateQRImage_shown _ _ _ _ Hsr').
        apply invariant_receiver_turn with (n := S j);
          cbn [Session.sender Session.receiver fst].
        -- exact Hsafe.
        -- unfold Session.sender_at. cbn. now repeat split.
        -- now apply Hstored.
        -- exists ChunkType.completed, (JsString.trim EmptyString), now.
           split; [reflexivity|]. exists w.
           split; [exact Hlast|]. split; [exact Hcoll | exact Hall].
      * apply Z.eqb_neq in Hlast.
        rewrite (reader_read (S j)) by lia.
        destruct (reader_cache (S j)) as [-> _].
        rewrite (updateQRImage_shown _ _ _ _ (Hsr _)).
        unfold Session.wire at 1. rewrite blobAsBase64_trimmed.
        fold (Session.wire file chunkSize (S j)).
        apply invariant_receiver_turn with (n := S (S j));
          cbn [Session.sender Session.receiver fst].
        -- exact Hsafe.
        -- unfold Session.sender_at. cbn. repeat split; auto. lia.
        -- now apply Hstored.
        -- exists ChunkType.okNext, (wire (S j)), now. split; [reflexivity|].
           exists (S j), w. split; [reflexivity|]. split; [reflexivity|].
           split; [exact Hcoll | exact Hall].
    + rewrite Hwire. rewrite (updateQRImage_shown _ _ _ _ Hsr').
      unfold Session.wire at 1. rewrite blobAsBase64_trimmed.
      fold (Session.wire file chunkSize j).
      apply invariant_receiver_turn with (n := S j);
        cbn [Session.sender Session.receiver fst].
      * exact Hsafe.
      * unfold Session.sender_at. cbn. now repeat split.
      * now apply Hstored.
      * exists ChunkType.invalidSha256, (wire j), now. split; [reflexivity|].
        exists j, w. split; [reflexivity|]. split; [reflexivity|].
        split; [exact Hcoll | exact Hbuf].
Qed.

(** *** The invariant holds all along *)

Lemma receiver_idle_step (s : Session.t) (now : Z) (rawData : string)
  (shown seen : Js.value) :
  Session.receiver_idle s ->
  Core.qrCode (Session.sender s) = Some shown ->
  Session.read_by_receiver shown seen ->
  JsString.trim rawData <> EmptyString ->
  JSON_parse (Js.Str (JsString.trim rawData)) = Some seen ->
  fst (Core._onQRDataReceived now (Some rawData) (Session.receiver s))
  = Session.receiver s.
Proof.
  intros [Hoff | Hseen] Hshown Hread Hne Hparse.
  - now rewrite not_running_ignores.
  - unfold Session.seen in Hseen. rewrite Hshown in Hseen.
    destruct Hseen as (k & bd & dt & -> & Hlast).
    destruct (receiver_reads_nonce _ _ k bd dt Hread eq_refl) as (bd' & -> & _).
    now apply observes_seen with (k := k) (bd := bd') (dt := dt).
Qed.

Lemma sender_idle_step (s : Session.t) (now : Z) (rawData : string)
  (shown seen : Js.value) :
  Session.sender_idle s ->
  Core.qrCode (Session.receiver s) = Some shown ->
  Session.read_by_sender (Session.sender s) shown seen ->
  JsString.trim rawData <> EmptyString ->
  JSON_parse (Js.Str (JsString.trim rawData)) = Some seen ->
  fst (Core._onQRDataReceived now (Some rawData) (Session.sender s))
  = Session.sender s.
Proof.
  intros Hseen Hshown Hread Hne Hparse.
  unfold Session.sender_idle, Session.seen in Hseen. rewrite Hshown in Hseen.
  destruct Hseen as (k & bd & dt & -> & Hlast).
  destruct (sender_reads_nonce _ _ _ k bd dt Hread eq_refl) as (bd' & -> & _).
  now apply observes_seen with (k := k) (bd := bd') (dt := dt).
Qed.

Lemma invariant_step (s s' : Session.t) :
  Session.invariant file chunkSize s -> Session.step s s' ->
  Session.invariant file chunkSize s'.
Proof.
  intros Hinv Hstep. pose proof Hinv as (Hsafe & n & Hat & Hturn).
  destruct Hstep as [now rawData shown seen Hshown Hread Hne Hparse
                    | now rawData shown seen Hshown Hread Hne Hparse].
  - destruct Hturn as [[Hsi [Hri | Hdue]] | [Hri _]].
    + rewrite (receiver_idle_step s now rawData shown seen Hri Hshown Hread
                 Hne Hparse), session_eta. exact Hinv.
    + now apply receiver_step with (n := n) (shown := shown) (seen := seen).
    + rewrite (receiver_idle_step s now rawData shown seen Hri Hshown Hread
                 Hne Hparse), session_eta. exact Hinv.
  - destruct Hturn as [[Hsi _] | [Hri [Hsi | Hdue]]].
    + rewrite (sender_idle_step s now rawData shown seen Hsi Hshown Hread
                 Hne Hparse), session_eta. exact Hinv.
    + rewrite (sender_idle_step s now rawData shown seen Hsi Hshown Hread
                 Hne Hparse), session_eta. exact Hinv.
    + now apply sender_step with (n := n) (shown := shown) (seen := seen).
Qed.

Lemma invariant_start (now : Z) (senderLast receiverLast : Js.value)
  (senderImg receiverImg : bool) :
  Session.invariant file chunkSize
    (Session.start file chunkSize now senderLast receiverLast
       senderImg receiverImg).
Proof.
  apply invariant_receiver_turn with (n := O).
  - intros d [].
  - unfold Session.sender_at. cbn. repeat split.
    apply chunks_nonneg. exact chunkSize_positive.
  - apply seen_nothing. reflexivity.
  - eexists ChunkType.metaInfo, _, now. split; [reflexivity|].
    now repeat split.
Qed.

Lemma invariant_reachable (now : Z) (senderLast receiverLast : Js.value)
  (senderImg receiverImg : bool) (s : Session.t) :
  Session.reachable
    (Session.start file chunkSize now senderLast receiverLast
       senderImg receiverImg) s ->
  Session.invariant file chunkSize s.
Proof.
  induction 1 as [|s s' _ IH Hstep].
  - apply invariant_start.
  - exact (invariant_step s s' IH Hstep).
Qed.

(** A run of faithful sightings is a sequence of steps. *)
Lemma run_reachable (obs : list (bool * Z)) (s0 s : Session.t) :
  Session.reachable s0 s -> Session.faithful obs s ->
  Session.reachable s0 (Session.run obs s).
Proof.
  revert s. induction obs as [|[who now] r IH]; intros s Hreach Hf;
    [exact Hreach|].
  cbn [Session.run]. destruct Hf as [(shown & Hshown & Hne & Hparse) Hrest].
  apply IH; [|exact Hrest].
  apply Session.reachable_step with (s := s); [exact Hreach|].
  unfold Session.observe. destruct who.
  - rewrite Hshown. cbn [option_map].
    now apply Session.receiver_observes with (shown := shown) (seen := shown);
      [|constructor| |].
  - rewrite Hshown. cbn [option_map].
    now apply Session.sender_observes with (shown := shown) (seen := shown);
      [|constructor| |].
Qed.

Lemma play_reachable (obs : list (bool * Z * string)) (s0 s : Session.t) :
  Session.reachable s0 s -> Session.admissible obs s ->
  Session.reachable s0 (Session.play obs s).
Proof.
  revert s. induction obs as [|[[who now] rawData] r IH]; intros s Hreach Ha;
    [exact Hreach|].
  cbn [Session.play].
  destruct Ha as [(shown & seen & Hshown & Hread & Hne & Hparse) Hrest].
  apply IH; [|exact Hrest].
  apply Session.reachable_step with (s := s); [exact Hreach|].
  unfold Session.observe_text. destruct who.
  - now apply Session.receiver_observes with (shown := shown) (seen := seen).
  - now apply Session.sender_observes with (shown := shown) (seen := seen).
Qed.

(** C1: in every state a session can reach, whatever the Receiver has
    handed over for download (it does so when it processes [completed])
    is the Sender's file, byte for byte, and has the length of the
    file. *)
Theorem C1_delivered_file_is_source (now : Z) (senderLast receiverLast : Js.value)
  (senderImg receiverImg : bool) (s : Session.t) (d : FileWorker.Download) :
  Session.reachable
    (Session.start file chunkSize now senderLast receiverLast
       senderImg receiverImg) s ->
  In d (Core.downloads (Session.receiver s)) ->
  FileWorker.blobContent d = FileWorker.content file /\
  Z.of_nat (length (FileWorker.blobContent d)) = FileWorker.size file.
Proof.
  intros Hreach Hin.
  destruct (invariant_reachable now senderLast receiverLast senderImg
              receiverImg s Hreach) as [Hsafe _].
  rewrite (Hsafe d Hin). now split.
Qed.

End TransferFacts.

(** The run of [Example.run8] is a run of the session. *)
Lemma run8_reachable :
  Session.reachable Example.session8 (Session.run Example.run8 Example.session8).
Proof.
  apply run_reachable; [constructor|].
  unfold Example.run8. cbn [Session.faithful].
  repeat (split;
          [ eexists; split;
            [ evaluate | split; [vm_compute; discriminate | evaluate] ] | ]).
  exact I.
Qed.

Ltac read_as_shown :=
  split;
  [ eexists _, _; split; [evaluate|]; split; [constructor|];
    split; [vm_compute; discriminate | evaluate] | ].

(** So is the run of [Example.retry8], misreadings included. *)
Lemma retry8_reachable :
  Session.reachable Example.session8
    (Session.play Example.retry8 Example.session8).
Proof.
  apply play_reachable; [constructor|].
  unfold Example.retry8. cbn [Session.admissible].
  read_as_shown. read_as_shown.
  split.
  { eexists _, _. split; [evaluate|]. split.
    - apply (Session.receiver_misreads _ ChunkType.okNext "AAECAw=="
               "AAECAg==" 12); [evaluate | now left | vm_compute; discriminate].
    - split; [vm_compute; discriminate | evaluate]. }
  read_as_shown. read_as_shown. read_as_shown. read_as_shown.
  split.
  { eexists _, _. split; [evaluate|]. split.
    - apply (Session.sender_misreads _ _ (Utils.sha256 "BAUGBw==") "00" 17);
        [evaluate | vm_compute; discriminate].
    - split; [vm_compute; discriminate | evaluate]. }
  read_as_shown. read_as_shown. read_as_shown.
  exact I.
Qed.

(** Both runs end with the eight bytes of [file8] handed over. *)
Lemma C1_delivered_file_is_source_witness :
  (Core.downloads (Session.receiver (Session.run Example.run8 Example.session8))
   = [Example.download8] /\
   Core.downloads
     (Session.receiver (Session.play Example.retry8 Example.session8))
   = [Example.download8]) /\
  FileWorker.blobContent Example.download8
  = ["000"; "001"; "002"; "003"; "004"; "005"; "006"; "007"]%byte /\
  Z.of_nat (length (FileWorker.blobContent Example.download8)) = 8.
Proof.
  assert (Hin : In Example.download8
                  (Core.downloads
                     (Session.receiver
                        (Session.play Example.retry8 Example.session8))))
    by (vm_compute; left; reflexivity).
  split; [split; evaluate|].
  exact (C1_delivered_file_is_source Example.file8 4 ltac:(lia) 10 Js.Null
           Js.Null true true _ Example.download8 retry8_reachable Hin).
Defined.

(* ================================================================== *)
(** * Part III. Further properties of the code                        *)
(* ================================================================== *)

(** ** The elapsed time *)

Lemma padded_two_digits (n : Z) :
  0 <= n < 100 ->
  Utils.padded n
  = String (Utils.decimal_digit (n / 10))
      (String (Utils.decimal_digit (n mod 10)) EmptyString).
Proof.
  intros H.
  assert (E : forallb
                (fun k =>
                   String.eqb (Utils.padded (Z.of_nat k))
                     (String (Utils.decimal_digit (Z.of_nat k / 10))
                        (String (Utils.decimal_digit (Z.of_nat k mod 10))
                           EmptyString)))
                (seq 0 100) = true) by (vm_compute; reflexivity).
  rewrite forallb_forall in E. specialize (E (Z.to_nat n)).
  rewrite Z2Nat.id in E by lia.
  apply String.eqb_eq, E, in_seq. lia.
Qed.

Lemma padded_negative (n : Z) :
  n < 0 -> exists r, Utils.padded n = String "0" (String "-" r).
Proof.
  intros H. unfold Utils.padded.
  destruct (Z.ltb_spec n 10); [|lia].
  destruct n as [|p|p]; try lia.
  eexists. reflexivity.
Qed.

(** X1. [Utils.elapsedTime]: up to a hundred hours after [fromDate] the
    result is the clock text HH:MM:SS of the whole seconds elapsed, two
    digits each, minutes and seconds below sixty. When the clock reads
    less than [fromDate] (it was set back), the result starts with
    [0-]: the hours are negative and padded all the same. *)
Theorem elapsedTime_clock (now fromDate : Z) :
  (fromDate <= now < fromDate + 360000000 ->
   let sec := (now - fromDate) / 1000 in
   let h := sec / 3600 in
   let m := (sec / 60) mod 60 in
   let s := sec mod 60 in
   Utils.elapsedTime now (Some fromDate)
   = string_of_list_ascii
       [Utils.decimal_digit (h / 10); Utils.decimal_digit (h mod 10); ":"%char;
        Utils.decimal_digit (m / 10); Utils.decimal_digit (m mod 10); ":"%char;
        Utils.decimal_digit (s / 10); Utils.decimal_digit (s mod 10)]) /\
  (now < fromDate ->
   exists r, Utils.elapsedTime now (Some fromDate) = String "0" (String "-" r)).
Proof.
  split.
  - intros H sec h m s. unfold Utils.elapsedTime. fold sec. fold h.
    assert (Hsec : 0 <= sec < 360000)
      by (unfold sec; Z.div_mod_to_equations; lia).
    assert (Hh : 0 <= h < 100) by (unfold h; Z.div_mod_to_equations; lia).
    assert (Hm : (sec - h * 3600) / 60 = m)
      by (unfold m, h; Z.div_mod_to_equations; lia).
    assert (Hs : sec - h * 3600 - m * 60 = s)
      by (unfold s, m, h; Z.div_mod_to_equations; lia).
    rewrite Hm, Hs.
    rewrite !padded_two_digits; [reflexivity | | | assumption];
      [unfold s | unfold m]; Z.div_mod_to_equations; lia.
  - intros H. unfold Utils.elapsedTime.
    destruct (padded_negative ((now - fromDate) / 1000 / 3600)) as [r Hr].
    + Z.div_mod_to_equations; lia.
    + rewrite Hr. eexists. reflexivity.
Qed.

(** One hour, two minutes and five seconds; and a clock set back by a
    millisecond. *)
Lemma elapsedTime_clock_witness :
  Utils.elapsedTime 1600003725999 (Some 1600000000000) = "01:02:05" /\
  exists r, Utils.elapsedTime 999 (Some 1000) = String "0" (String "-" r).
Proof.
  split.
  - pose proof (proj1 (elapsedTime_clock 1600003725999 1600000000000)
                  ltac:(lia)) as H.
    vm_compute in H |- *. exact H.
  - exact (proj2 (elapsedTime_clock 999 1000) ltac:(lia)).
Defined.

(** ** Base64 text of a blob *)

Lemma length_string_of_list_ascii (l : list ascii) :
  String.length (string_of_list_ascii l) = length l.
Proof. induction l; cbn; congruence. Qed.

Lemma sextets_length (bs : list byte) :
  (length (Base64.sextets bs) + length (Base64.padding (length bs))
   = 4 * ((length bs + 2) / 3))%nat.
Proof.
  induction bs as [| a | a b | a b c r IH] using list_ind3; try reflexivity.
  cbn [Base64.sextets length]. rewrite padding_step.
  replace (S (S (S (length r))) + 2)%nat with (1 * 3 + (length r + 2))%nat by lia.
  rewrite Nat.div_add_l by lia. lia.
Qed.

Lemma digit_in_alphabet (k : N) :
  (k < 64)%N -> In (Base64.digit k) Base64.alphabet.
Proof.
  intros H. unfold Base64.digit. apply nth_In.
  change (length Base64.alphabet) with 64%nat. lia.
Qed.

(** X2. [Utils.bufferArrayFromBase64] undoes [Utils.blobAsBase64]; the
    text of a blob of [n] bytes has four characters for every three
    bytes begun, and holds digits of the alphabet and [=] only. *)
Theorem blobAsBase64_round_trip (blob : list byte) :
  Utils.bufferArrayFromBase64 (Utils.blobAsBase64 blob) = Some blob /\
  String.length (Utils.blobAsBase64 blob) = (4 * ((length blob + 2) / 3))%nat /\
  Forall (fun c => In c Base64.alphabet \/ c = Base64.pad)
    (list_ascii_of_string (Utils.blobAsBase64 blob)).
Proof.
  rewrite blobAsBase64_encode. split; [apply bufferArrayFromBase64_encode|].
  unfold Base64.encode. split.
  - rewrite length_string_of_list_ascii, length_app.
    unfold Base64.digits. rewrite length_map. apply sextets_length.
  - rewrite list_ascii_of_string_of_list_ascii. apply Forall_app. split.
    + unfold Base64.digits. apply Forall_map.
      eapply Forall_impl; [|apply sextets_bound].
      intros k Hk. left. now apply digit_in_alphabet.
    + unfold Base64.padding.
      destruct (length blob mod 3)%nat as [|[|?]];
        repeat (apply Forall_cons; [right; reflexivity|]); apply Forall_nil.
Qed.

(** ** The worker's chunk count and meta information *)

(** X3. [updateChunkSize] on a reader: the chunk count is the least
    number of chunks of the new size that cover the file. On a writer
    the call changes nothing. *)
Theorem updateChunkSize_least_cover (w : FileWorker.t) (file : FileWorker.File)
  (size_ : Z) :
  (FileWorker.readMode w = true -> FileWorker._inputFile w = Some file ->
   0 < size_ ->
   exists n,
     FileWorker.fileChunks (FileWorker.updateChunkSize size_ w) = Js.Num n /\
     FileWorker._chunkSize (FileWorker.updateChunkSize size_ w) = Js.Num size_ /\
     (n - 1) * size_ < FileWorker.size file <= n * size_) /\
  (FileWorker.readMode w = false -> FileWorker.updateChunkSize size_ w = w).
Proof.
  split.
  - intros Hr Hf Hs. unfold FileWorker.updateChunkSize. rewrite Hr, Hf. cbn.
    eexists. split; [reflexivity|]. split; [reflexivity|].
    unfold ceil_div. Z.div_mod_to_equations. nia.
  - intros Hr. unfold FileWorker.updateChunkSize. now rewrite Hr.
Qed.

(** Eight bytes in chunks of three: three chunks. *)
Lemma updateChunkSize_least_cover_witness :
  FileWorker.fileChunks
    (FileWorker.updateChunkSize 3 (FileWorker.createReader Example.file8))
  = Js.Num 3 /\
  FileWorker.updateChunkSize 3 (Example.worker Example.collecting)
  = Example.worker Example.collecting.
Proof.
  pose proof (updateChunkSize_least_cover) as H.
  split.
  - destruct (proj1 (H (FileWorker.createReader Example.file8) Example.file8 3)
                eq_refl eq_refl ltac:(lia)) as (n & Hn & _ & Hlo & Hhi).
    rewrite Hn. f_equal. change (FileWorker.size Example.file8) with 8 in *. lia.
  - exact (proj2 (H (Example.worker Example.collecting) Example.file8 3)
             eq_refl).
Defined.

(** X4. [createWriter] undoes [metaInfo]: from the meta information of
    a worker (a reader with its file, or a writer) it makes a writer
    with the same meta information, nothing received yet. *)
Theorem createWriter_metaInfo (w : FileWorker.t) :
  FileWorker.metaInfo w <> Js.Null ->
  exists w',
    FileWorker.createWriter (FileWorker.metaInfo w) = Some w' /\
    FileWorker.metaInfo w' = FileWorker.metaInfo w /\
    FileWorker.readMode w' = false /\
    FileWorker.curChunk w' = 0 /\
    FileWorker._writerBuffer w' = [] /\
    FileWorker.lastChunkBlob w' = None.
Proof.
  intros H. unfold FileWorker.metaInfo in *.
  destruct (FileWorker.readMode w), (FileWorker._inputFile w);
    try congruence; eexists; repeat split; reflexivity.
Qed.

(** The writer made from the meta information of the reader of
    [file8]. *)
Lemma createWriter_metaInfo_witness :
  exists w',
    FileWorker.createWriter
      (FileWorker.metaInfo (FileWorker.createReader Example.file8)) = Some w' /\
    FileWorker.metaInfo w'
    = FileWorker.metaInfo (FileWorker.createReader Example.file8) /\
    FileWorker.readMode w' = false.
Proof.
  destruct (createWriter_metaInfo (FileWorker.createReader Example.file8)
              ltac:(discriminate)) as (w' & H1 & H2 & H3 & _).
  exists w'. split; [exact H1|]. split; [exact H2 | exact H3].
Defined.

(** ** Chunk type identifiers *)

Lemma chunkTypeFromId_cases (id : Js.value) :
  id = Js.Num (ChunkType.id (Core._chunkTypeFromId id)) \/
  (Core._chunkTypeFromId id = ChunkType.unknown /\
   forall k, id <> Js.Num (ChunkType.id k)).
Proof.
  destruct id as [| |b|n|s|items|fields];
    try (right; split; [reflexivity | intros k'; discriminate]).
  destruct (Z.eq_dec n 0) as [->|]; [left; reflexivity|].
  destruct (Z.eq_dec n 1) as [->|]; [left; reflexivity|].
  destruct (Z.eq_dec n 2) as [->|]; [left; reflexivity|].
  destruct (Z.eq_dec n 3) as [->|]; [left; reflexivity|].
  destruct (Z.eq_dec n 4) as [->|]; [left; reflexivity|].
  destruct (Z.eq_dec n 50) as [->|]; [left; reflexivity|].
  destruct (Z.eq_dec n 100) as [->|]; [left; reflexivity|].
  right. split.
  - destruct n as [|p|p]; try congruence; [|reflexivity].
    do 6 (destruct p as [p|p|]; try congruence; try reflexivity).
  - intros k Hk. injection Hk as ->. destruct k; cbn in *; congruence.
Qed.

(** X5. [_chunkTypeFromId] reads back the identifier of every chunk
    type, and nothing else: a value is read as the type [k] exactly
    when it is the number [k.id], or when [k] is [unknown] and the value
    is the identifier of no type (a string such as ["2"] included, the
    [switch] comparing with [===]). *)
Theorem chunkTypeFromId_spec (id : Js.value) (k : ChunkType.t) :
  Core._chunkTypeFromId id = k <->
  id = Js.Num (ChunkType.id k) \/
  (k = ChunkType.unknown /\ forall k', id <> Js.Num (ChunkType.id k')).
Proof.
  split.
  - intros <-. apply chunkTypeFromId_cases.
  - intros [-> | [-> H]]; [apply chunkTypeFromId_id|].
    destruct (chunkTypeFromId_cases id) as [E | [E _]]; [|exact E].
    exfalso. exact (H _ E).
Qed.

(** ** What the handler does with texts it has no use for *)

Section Edge.

Context {P : Platform}.

(** X6. A payload that is no envelope changes nothing, not even the
    stored nonce: no text at all, a blank text, a text that is no JSON,
    or a JSON value that lacks one of [ckTId], [bd] and [dt]. The JSON
    text [null] is the exception: reading [jsObj["ckTId"]] throws, and
    the state is left as it was. *)
Theorem malformed_payload_ignored (now : Z) (c : Core.t) :
  Core._onQRDataReceived now None c = (c, Returned) /\
  (forall rawData,
     JsString.trim rawData = EmptyString \/
     JSON_parse (Js.Str (JsString.trim rawData)) = None \/
     (exists jsObj,
        JSON_parse (Js.Str (JsString.trim rawData)) = Some jsObj /\
        (Js.get jsObj "ckTId" = Some Js.Undefined \/
         Js.get jsObj "bd" = Some Js.Undefined \/
         Js.get jsObj "dt" = Some Js.Undefined)) ->
     Core._onQRDataReceived now (Some rawData) c = (c, Returned)) /\
  (forall rawData,
     Core._isRunning c = true ->
     JsString.trim rawData <> EmptyString ->
     JSON_parse (Js.Str (JsString.trim rawData)) = Some Js.Null ->
     Core._onQRDataReceived now (Some rawData) c = (c, Thrown)).
Proof.
  split; [|split].
  - unfold Core._onQRDataReceived. now destruct (Core._isRunning c).
  - intros rawData H. unfold Core._onQRDataReceived.
    destruct (Core._isRunning c); [|reflexivity]. cbn [negb].
    destruct H as [H | [H | (jsObj & H & Hf)]].
    + now rewrite H.
    + rewrite H. now destruct (String.length _ =? 0)%nat.
    + rewrite H. destruct (String.length _ =? 0)%nat; [reflexivity|].
      unfold Core.onParsed.
      destruct jsObj as [| |b|n|s|items|fields];
        try (destruct Hf as [Hf | [Hf | Hf]]; discriminate Hf);
        try reflexivity.
      cbn [Js.get] in *.
      destruct Hf as [Hf | [Hf | Hf]]; injection Hf as Hf; rewrite Hf; cbn;
        rewrite ?orb_true_r; reflexivity.
  - intros rawData Hrun Hne Hp.
    rewrite (observed_parsed now rawData Js.Null c Hrun Hne Hp). reflexivity.
Qed.

(** X7. An envelope the observing side has no use for changes nothing
    but the stored nonce: on the Sender, any kind but
    [meta_info_received] and [eval_sha256], and every kind while no file
    is picked; on the Receiver, chunks and [completed] before the meta
    information, a further [meta_info] once a session is open, and the
    kinds meant for the Sender; every kind in the other views. *)
Theorem foreign_envelope_stores_nonce_only (now : Z) (rawData : string)
  (ckTId bd dt : Js.value) (c : Core.t) :
  Core._isRunning c = true ->
  Core.decodes rawData ckTId bd dt ->
  let k := Core._chunkTypeFromId ckTId in
  match Core._displayedView c with
  | Some ViewOption.sendFile =>
      Core._fileWorker c = None \/
      (k <> ChunkType.metaInfoReceived /\ k <> ChunkType.evalSha256)
  | Some ViewOption.receiveFile =>
      match Core._fileWorker c with
      | None => k <> ChunkType.metaInfo
      | Some _ =>
          k <> ChunkType.okNext /\ k <> ChunkType.invalidSha256 /\
          k <> ChunkType.completed
      end
  | _ => True
  end ->
  Core._onQRDataReceived now (Some rawData) c
  = (Core.set_lastReceivedDatetime dt c, Returned).
Proof.
  intros Hrun Hdec k H.
  rewrite (observed_envelope now rawData ckTId bd dt c Hrun Hdec).
  destruct (Js.strict_equal _ dt); [reflexivity|].
  fold k. unfold Core.dispatch.
  cbn [Core.set_lastReceivedDatetime Core._displayedView].
  destruct (Core._displayedView c) as [[| | |]|]; try reflexivity.
  - unfold Core.onSendFile.
    destruct H as [H | [H1 H2]].
    + destruct k; try reflexivity;
        cbn [Core._fileWorker Core.set_lastReceivedDatetime]; now rewrite H.
    + destruct k; congruence.
  - unfold Core.onReceiveFile.
    destruct (Core._fileWorker c) eqn:Hw.
    + destruct H as (H1 & H2 & H3).
      destruct k; try congruence; try reflexivity;
        cbn [Core._fileWorker Core.set_lastReceivedDatetime]; now rewrite Hw.
    + destruct k; try congruence; try reflexivity;
        cbn [Core._fileWorker Core.set_lastReceivedDatetime]; now rewrite Hw.
Qed.

Lemma drop_pad_keeps (x : ascii) (l : list ascii) :
  In x l -> x <> Base64.pad -> In x (Base64.drop_pad l).
Proof.
  intros Hin Hx. unfold Base64.drop_pad.
  destruct (rev l) as [|c r] eqn:E; [exact Hin|].
  destruct (Ascii.eqb_spec c Base64.pad) as [->|]; [|exact Hin].
  apply in_rev in Hin. rewrite E in Hin. destruct Hin as [Hin | Hin].
  - congruence.
  - now apply in_rev in Hin.
Qed.

Lemma values_refuses (x : ascii) (l : list ascii) :
  In x l -> Base64.value x = None -> Base64.values l = None.
Proof.
  intros Hin Hx. induction l as [|c r IH]; [contradiction|].
  cbn [Base64.values]. destruct Hin as [-> | Hin].
  - now rewrite Hx.
  - rewrite (IH Hin). now destruct (Base64.value c).
Qed.

Lemma atob_refuses (s : string) :
  existsb Base64.refused (list_ascii_of_string s) = true ->
  Base64.atob s = None.
Proof.
  intros H. apply existsb_exists in H. destruct H as (x & Hin & Hx).
  unfold Base64.refused in Hx.
  destruct (Base64.value x) eqn:Hv; [discriminate|].
  apply andb_prop in Hx. destruct Hx as [Hp Hw].
  apply negb_true_iff in Hp, Hw.
  assert (Hpad : x <> Base64.pad)
    by (intros ->; now rewrite Ascii.eqb_refl in Hp).
  unfold Base64.atob.
  set (data := filter _ _).
  assert (Hd : In x data)
    by (apply filter_In; split; [exact Hin | now rewrite Hw]).
  set (data' := if (length data mod 4 =? 0)%nat then _ else _).
  assert (Hd' : In x data').
  { unfold data'. destruct (length data mod 4 =? 0)%nat; [|exact Hd].
    apply drop_pad_keeps; [apply drop_pad_keeps|]; assumption. }
  destruct (length data' mod 4 =? 1)%nat; [reflexivity|].
  now rewrite (values_refuses x data' Hd' Hv).
Qed.

Lemma setPending_undecodable (bd : Js.value) (w : FileWorker.t) :
  FileWorker.readMode w = false ->
  (forall s, bd = Js.Str s ->
     existsb Base64.refused (list_ascii_of_string (JsString.trim s)) = true) ->
  FileWorker.writerSetPendingChunk bd w = (w, Thrown).
Proof.
  intros Hr H. unfold FileWorker.writerSetPendingChunk. rewrite Hr.
  destruct bd as [| |b|n|s|items|fields]; try reflexivity.
  unfold Utils.bufferArrayFromBase64.
  now rewrite (atob_refuses _ (H s eq_refl)).
Qed.

(** X8. A chunk whose body is no Base64 text: not a string, or a string
    with a character [window.atob] refuses. The Receiver's handler ends
    with an exception after the nonce was stored and, for [ok_next],
    after the chunk pending before was committed; the bad chunk is not
    taken and the code on show stays as it was. The same envelope seen
    again is dropped for its nonce, so the transfer hangs until the
    Sender shows something new. *)
Theorem undecodable_chunk_throws (now t : Z) (rawData : string)
  (bd : Js.value) (c : Core.t) (w : FileWorker.t) :
  Core._displayedView c = Some ViewOption.receiveFile ->
  Core._isRunning c = true ->
  Core._fileWorker c = Some w ->
  FileWorker.readMode w = false ->
  Core._lastReceivedDatetime c <> Js.Num t ->
  (forall s, bd = Js.Str s ->
     existsb Base64.refused (list_ascii_of_string (JsString.trim s)) = true) ->
  forall k, Core.decodes rawData (Js.Num k) bd (Js.Num t) ->
  let c' :=
    Core.set_fileWorker
      (Some (if k =? 2 then FileWorker.writerCommitPendingChunk w else w))
      (Core.set_lastReceivedDatetime (Js.Num t) c) in
  k = 2 \/ k = 4 ->
  Core._onQRDataReceived now (Some rawData) c = (c', Thrown) /\
  Core.qrCode c' = Core.qrCode c /\
  forall now', Core._onQRDataReceived now' (Some rawData) c' = (c', Returned).
Proof.
  intros Hview Hrun Hw Hr Hlast Hbd k Hdec c' Hk.
  assert (Hnew : Js.strict_equal (Core._lastReceivedDatetime c) (Js.Num t) = false).
  { destruct (Js.strict_equal _ _) eqn:E; [|reflexivity].
    now apply strict_equal_eq in E. }
  assert (Hcr : FileWorker.readMode (FileWorker.writerCommitPendingChunk w) = false)
    by apply (commit_buffer w Hr).
  split; [|split; [reflexivity|]].
  - rewrite (receiver_observes now rawData _ bd _ c Hview Hrun Hdec Hnew).
    unfold c'.
    destruct Hk as [-> | ->];
      cbn [Core._chunkTypeFromId Core.onReceiveFile Core._fileWorker
           Core.set_lastReceivedDatetime Z.eqb Pos.eqb];
      rewrite Hw; now rewrite setPending_undecodable.
  - intros now'.
    rewrite (observed_envelope now' rawData _ bd _ c' Hrun Hdec).
    cbn [c' Core._lastReceivedDatetime Core.set_fileWorker
         Core.set_lastReceivedDatetime Js.strict_equal].
    rewrite Z.eqb_refl. reflexivity.
Qed.

End Edge.

(** A second [meta_info], for another file, once the session on [file8]
    is open. *)
Lemma foreign_envelope_stores_nonce_only_witness :
  Core._onQRDataReceived 14
    (Some (Example.text ChunkType.metaInfo
             (JSON_stringify Example.bad_meta) 13)) Example.collecting
  = (Core.set_lastReceivedDatetime (Js.Num 13) Example.collecting, Returned).
Proof.
  exact (foreign_envelope_stores_nonce_only 14
           (Example.text ChunkType.metaInfo (JSON_stringify Example.bad_meta) 13)
           (Js.Num 0) (Js.Str (JSON_stringify Example.bad_meta)) (Js.Num 13)
           Example.collecting ltac:(evaluate) ltac:(decode)
           ltac:(vm_compute; repeat split; discriminate)).
Defined.

(** The first chunk of [file8] with a [*] in its text, while the
    Receiver holds that chunk as pending: the chunk is committed, the
    handler throws. *)
Lemma undecodable_chunk_throws_witness :
  Core._onQRDataReceived 16
    (Some (Example.text ChunkType.okNext "BAUG*w==" 15)) Example.pending
  = (Core.set_fileWorker
       (Some (FileWorker.writerCommitPendingChunk (Example.worker Example.pending)))
       (Core.set_lastReceivedDatetime (Js.Num 15) Example.pending), Thrown).
Proof.
  exact (proj1 (undecodable_chunk_throws 16 15
                  (Example.text ChunkType.okNext "BAUG*w==" 15)
                  (Js.Str "BAUG*w==") Example.pending
                  (Example.worker Example.pending)
                  ltac:(evaluate) ltac:(evaluate) ltac:(evaluate)
                  ltac:(evaluate) ltac:(vm_compute; discriminate)
                  ltac:(intros s [= <-]; evaluate)
                  2 ltac:(decode) ltac:(left; reflexivity))).
Defined.

(** ** The worker over any sequence of calls *)

Section Calls.

Context {P : Platform}.

Lemma coherent_perform (k : FileWorker.call) (w : FileWorker.t) :
  FileWorker.coherent w -> FileWorker.coherent (FileWorker.perform k w).
Proof.
  intros H. destruct k as [size_ | | base64Chunk |]; cbn [FileWorker.perform].
  - unfold FileWorker.updateChunkSize.
    destruct (negb (FileWorker.readMode w)); exact H.
  - unfold FileWorker.readNextChunk.
    destruct (negb (FileWorker.readMode w)); [exact H|].
    destruct (FileWorker._inputFile w) as [file|]; [|exact I].
    destruct (FileWorker.number (FileWorker.fileChunks w)) as [chunks|];
      [|exact H].
    destruct (FileWorker.number (FileWorker._chunkSize w)) as [chunkSize|];
      [|exact H].
    destruct (FileWorker.curChunk w >=? chunks); [exact I|].
    split; [apply bufferArrayFromBase64_blobAsBase64 | reflexivity].
  - unfold FileWorker.writerSetPendingChunk.
    destruct (FileWorker.readMode w); [exact H|].
    destruct base64Chunk as [| |b|n|s|items|fields]; try exact H.
    destruct (Utils.bufferArrayFromBase64 (JsString.trim s)) as [arr|] eqn:E;
      [|exact H].
    split; [exact E | reflexivity].
  - unfold FileWorker.writerCommitPendingChunk.
    destruct (FileWorker.readMode w); [exact H|].
    destruct (FileWorker.lastChunkBlob w); [exact I | exact H].
Qed.

Lemma readMode_perform (k : FileWorker.call) (w : FileWorker.t) :
  FileWorker.readMode (FileWorker.perform k w) = FileWorker.readMode w.
Proof.
  destruct k as [size_ | | base64Chunk |]; cbn [FileWorker.perform].
  - unfold FileWorker.updateChunkSize.
    destruct (FileWorker.readMode w) eqn:E; cbn; congruence.
  - unfold FileWorker.readNextChunk.
    destruct (FileWorker.readMode w) eqn:E; cbn [negb]; [|exact E].
    destruct (FileWorker._inputFile w); [|exact E].
    destruct (FileWorker.number _); [|exact E].
    destruct (FileWorker.number _); [|exact E].
    destruct (_ >=? _); exact E.
  - unfold FileWorker.writerSetPendingChunk.
    destruct (FileWorker.readMode w) eqn:E; [exact E|].
    destruct base64Chunk; try exact E.
    destruct (Utils.bufferArrayFromBase64 _); exact E.
  - unfold FileWorker.writerCommitPendingChunk.
    destruct (FileWorker.readMode w) eqn:E; [exact E|].
    destruct (FileWorker.lastChunkBlob w); exact E.
Qed.

Lemma performs_app (ks more : list FileWorker.call) (w : FileWorker.t) :
  FileWorker.performs (ks ++ more) w
  = FileWorker.performs more (FileWorker.performs ks w).
Proof. apply fold_left_app. Qed.

(** X10. Whatever is called on a worker, in whatever order, a cache
    that is coherent (as that of a new worker is) stays coherent: the
    three fields of the last chunk are all [null],
    or the Base64 text kept decodes to the blob kept and the digest kept
    is the digest of that text. The mode of the worker never changes.
    (A chunk size of zero, for which [Math.ceil] gives no integer, is
    left aside.) *)
Theorem cache_stays_coherent (ks : list FileWorker.call) (w : FileWorker.t) :
  ~ In (FileWorker.call_updateChunkSize 0) ks ->
  FileWorker.coherent w ->
  FileWorker.coherent (FileWorker.performs ks w) /\
  FileWorker.readMode (FileWorker.performs ks w) = FileWorker.readMode w.
Proof.
  intros _. revert w. induction ks as [|k ks IH]; intros w H; [now split|].
  destruct (IH (FileWorker.perform k w) (coherent_perform k w H)) as [H1 H2].
  change (FileWorker.performs (k :: ks) w)
    with (FileWorker.performs ks (FileWorker.perform k w)).
  split; [exact H1|]. now rewrite H2, readMode_perform.
Qed.

Lemma app_nil_tail {A : Type} (l : list A) : exists tail, l = l ++ tail.
Proof. exists []. now rewrite app_nil_r. Qed.

Lemma writer_perform (k : FileWorker.call) (w0 w : FileWorker.t) :
  FileWorker.readMode w = false ->
  FileWorker.curChunk w = Z.of_nat (length (FileWorker._writerBuffer w)) ->
  FileWorker.metaInfo w = FileWorker.metaInfo w0 ->
  let w' := FileWorker.perform k w in
  FileWorker.readMode w' = false /\
  FileWorker.curChunk w' = Z.of_nat (length (FileWorker._writerBuffer w')) /\
  FileWorker.metaInfo w' = FileWorker.metaInfo w0 /\
  exists tail, FileWorker._writerBuffer w' = FileWorker._writerBuffer w ++ tail.
Proof.
  intros Hr Hc Hm w'. unfold w'.
  assert (Hsame : FileWorker.readMode w = false /\
            FileWorker.curChunk w = Z.of_nat (length (FileWorker._writerBuffer w)) /\
            FileWorker.metaInfo w = FileWorker.metaInfo w0 /\
            exists tail,
              FileWorker._writerBuffer w = FileWorker._writerBuffer w ++ tail)
    by (split; [|split; [|split]]; try assumption; apply app_nil_tail).
  destruct k as [size_ | | base64Chunk |]; cbn [FileWorker.perform].
  - unfold FileWorker.updateChunkSize. rewrite Hr. exact Hsame.
  - unfold FileWorker.readNextChunk. rewrite Hr. exact Hsame.
  - unfold FileWorker.writerSetPendingChunk. rewrite Hr.
    destruct base64Chunk as [| |b|n|s|items|fields]; try exact Hsame.
    destruct (Utils.bufferArrayFromBase64 _); [|exact Hsame].
    cbn [fst]. split; [exact Hr|]. split; [exact Hc|]. split.
    + unfold FileWorker.metaInfo in *. cbn. rewrite Hr in *. exact Hm.
    + apply app_nil_tail.
  - unfold FileWorker.writerCommitPendingChunk. rewrite Hr.
    destruct (FileWorker.lastChunkBlob w) as [blob|]; [|exact Hsame].
    split; [exact Hr|]. split; [|split].
    + cbn. rewrite length_app. cbn [length]. lia.
    + unfold FileWorker.metaInfo in *. cbn. rewrite Hr in *. exact Hm.
    + now exists [blob].
Qed.

Lemma writer_performs (ks : list FileWorker.call) (w0 w : FileWorker.t) :
  FileWorker.readMode w = false ->
  FileWorker.curChunk w = Z.of_nat (length (FileWorker._writerBuffer w)) ->
  FileWorker.metaInfo w = FileWorker.metaInfo w0 ->
  let w' := FileWorker.performs ks w in
  FileWorker.readMode w' = false /\
  FileWorker.curChunk w' = Z.of_nat (length (FileWorker._writerBuffer w')) /\
  FileWorker.metaInfo w' = FileWorker.metaInfo w0 /\
  exists tail, FileWorker._writerBuffer w' = FileWorker._writerBuffer w ++ tail.
Proof.
  revert w. induction ks as [|k ks IH]; intros w Hr Hc Hm; cbv zeta.
  - cbn. split; [|split; [|split]]; try assumption. apply app_nil_tail.
  - destruct (writer_perform k w0 w Hr Hc Hm) as (Hr' & Hc' & Hm' & t1 & Ht1).
    destruct (IH _ Hr' Hc' Hm') as (Hr2 & Hc2 & Hm2 & t2 & Ht2).
    change (FileWorker.performs (k :: ks) w)
      with (FileWorker.performs ks (FileWorker.perform k w)).
    split; [|split; [|split]]; try assumption.
    exists (t1 ++ t2). rewrite Ht2, Ht1. now rewrite app_assoc.
Qed.

(** X11. A writer, whatever is called on it: [curChunk] counts the
    blobs of its buffer, the buffer only grows at its end (what was
    committed is neither dropped nor reordered), the meta information
    stays what [createWriter] was given, and the file it would hand over
    is the buffer in order, under the announced name and type; it
    hands over none when the name or the type is an object or array
    without primitive conversion, of which no string can be made. *)
Theorem writer_tallies_commits (m : Js.value) (w0 : FileWorker.t)
  (ks more : list FileWorker.call) :
  FileWorker.createWriter m = Some w0 ->
  let w := FileWorker.performs ks w0 in
  FileWorker.curChunk w = Z.of_nat (length (FileWorker._writerBuffer w)) /\
  FileWorker.metaInfo w = FileWorker.metaInfo w0 /\
  (exists tail,
     FileWorker._writerBuffer (FileWorker.performs (ks ++ more) w0)
     = FileWorker._writerBuffer w ++ tail) /\
  FileWorker._writerCreateDownloadFile w
  = if Js.convertible (FileWorker.inputFileType w0)
       && Js.convertible (FileWorker.inputFileName w0)
    then Some {| FileWorker.download := FileWorker.inputFileName w0;
                 FileWorker.blobType := FileWorker.inputFileType w0;
                 FileWorker.blobContent := concat (FileWorker._writerBuffer w) |}
    else None.
Proof.
  intros Hm w.
  assert (H0 : FileWorker.readMode w0 = false /\
               FileWorker.curChunk w0 = 0 /\ FileWorker._writerBuffer w0 = []).
  { unfold FileWorker.createWriter in Hm.
    destruct (Js.get m "fileType"), (Js.get m "fileName"),
      (Js.get m "fileSize"), (Js.get m "chunkSize"), (Js.get m "fileChunks");
      try discriminate.
    injection Hm as <-. repeat split. }
  destruct H0 as (Hr0 & Hc0 & Hb0).
  assert (Hc0' : FileWorker.curChunk w0
                 = Z.of_nat (length (FileWorker._writerBuffer w0)))
    by now rewrite Hc0, Hb0.
  destruct (writer_performs ks w0 w0 Hr0 Hc0' eq_refl) as (Hr & Hc & Hmeta & _).
  fold w in Hr, Hc, Hmeta.
  split; [exact Hc|]. split; [exact Hmeta|]. split.
  - rewrite performs_app. fold w.
    destruct (writer_performs more w0 w Hr Hc Hmeta) as (_ & _ & _ & Ht).
    exact Ht.
  - rewrite (download_of_writer w Hr).
    unfold FileWorker.metaInfo in Hmeta. rewrite Hr, Hr0 in Hmeta.
    injection Hmeta as -> -> _ _ _. reflexivity.
Qed.

End Calls.

(** The reader of [file8]: a chunk size is chosen, two chunks are read,
    and calls meant for a writer come in between. *)
Lemma cache_stays_coherent_witness :
  let ks :=
    [FileWorker.call_updateChunkSize 4; FileWorker.call_readNextChunk;
     FileWorker.call_writerCommitPendingChunk;
     FileWorker.call_writerSetPendingChunk (Js.Str "AA==");
     FileWorker.call_readNextChunk] in
  FileWorker.coherent
    (FileWorker.performs ks (FileWorker.createReader Example.file8)) /\
  FileWorker.readMode
    (FileWorker.performs ks (FileWorker.createReader Example.file8)) = true.
Proof.
  intros ks.
  assert (Hks : ~ In (FileWorker.call_updateChunkSize 0) ks)
    by (unfold ks; cbn; intuition discriminate).
  exact (cache_stays_coherent ks (FileWorker.createReader Example.file8) Hks I).
Defined.

(** The writer for [file8]: the first chunk is set twice and committed,
    the second is set and committed, and a commit with nothing pending
    follows. The writer of a session whose type is an object with a
    [toString] of its own hands over no file. *)
Lemma writer_tallies_commits_witness :
  let w0 := Example.worker Example.collecting in
  let w :=
    FileWorker.performs
      [FileWorker.call_writerSetPendingChunk (Js.Str "AAECAg==");
       FileWorker.call_writerSetPendingChunk (Js.Str "AAECAw==");
       FileWorker.call_writerCommitPendingChunk;
       FileWorker.call_writerSetPendingChunk (Js.Str "BAUGBw==");
       FileWorker.call_writerCommitPendingChunk;
       FileWorker.call_writerCommitPendingChunk] w0 in
  FileWorker.curChunk w = 2 /\
  FileWorker._writerCreateDownloadFile w = Some Example.download8 /\
  FileWorker._writerCreateDownloadFile
    (FileWorker.performs
       [FileWorker.call_writerSetPendingChunk (Js.Str "AAECAw==");
        FileWorker.call_writerCommitPendingChunk]
       (Example.worker Example.odd_type))
  = None.
Proof.
  intros w0 w.
  assert (Hnone : FileWorker._writerCreateDownloadFile
                    (FileWorker.performs
                       [FileWorker.call_writerSetPendingChunk (Js.Str "AAECAw==");
                        FileWorker.call_writerCommitPendingChunk]
                       (Example.worker Example.odd_type))
                  = None).
  { destruct (writer_tallies_commits Example.odd_type_meta
                (Example.worker Example.odd_type)
                [FileWorker.call_writerSetPendingChunk (Js.Str "AAECAw==");
                 FileWorker.call_writerCommitPendingChunk] []
                ltac:(evaluate)) as (_ & _ & _ & Hd).
    rewrite Hd. evaluate. }
  destruct (writer_tallies_commits
              (FileWorker.metaInfo
                 (FileWorker.updateChunkSize 4
                    (FileWorker.createReader Example.file8)))
              w0
              [FileWorker.call_writerSetPendingChunk (Js.Str "AAECAg==");
               FileWorker.call_writerSetPendingChunk (Js.Str "AAECAw==");
               FileWorker.call_writerCommitPendingChunk;
               FileWorker.call_writerSetPendingChunk (Js.Str "BAUGBw==");
               FileWorker.call_writerCommitPendingChunk;
               FileWorker.call_writerCommitPendingChunk] []
              ltac:(evaluate)) as (Hc & _ & _ & Hd).
  fold w in Hc, Hd. split; [|split; [|exact Hnone]].
  - rewrite Hc. vm_compute. reflexivity.
  - rewrite Hd. vm_compute. reflexivity.
Defined.

(** ** Reading a file from its first chunk to its last *)

Section Reading.

Context {P : Platform}.

Variable file : FileWorker.File.

Variable chunkSize : Z.

Hypothesis chunkSize_positive : 0 < chunkSize.

Local Abbreviation chunk := (Session.chunk file chunkSize).
Local Abbreviation chunks := (Session.chunks file chunkSize).
Local Abbreviation reader := (Session.reader file chunkSize).
Local Abbreviation cleared := (Session.cleared file chunkSize).

Lemma reader_past_end (n : nat) (w : FileWorker.t) :
  Z.of_nat n = chunks ->
  w = reader n \/ w = cleared n ->
  FileWorker.readNextChunk w = cleared n.
Proof.
  intros Hn Hw.
  destruct (reader_fields file chunkSize n) as (Hr & Hf & Hc & Hs & Hk).
  assert (E : FileWorker.readMode w = true /\
              FileWorker._inputFile w = Some file /\
              FileWorker.fileChunks w = Js.Num chunks /\
              FileWorker._chunkSize w = Js.Num chunkSize /\
              FileWorker.curChunk w = Z.of_nat n /\
              FileWorker.set_lastChunk None None None w = cleared n)
    by (destruct Hw as [-> | ->]; repeat split; assumption).
  destruct E as (Er & Ef & Ec & Es & Ek & Eset).
  unfold FileWorker.readNextChunk. rewrite Er, Ef, Ec, Es, Ek.
  cbn [negb FileWorker.number].
  destruct (Z.geb_spec (Z.of_nat n) chunks); [exact Eset | lia].
Qed.

Lemma iter_reader (k : nat) :
  Z.of_nat k <= chunks ->
  Nat.iter k FileWorker.readNextChunk (reader 0) = reader k.
Proof.
  induction k as [|k IH]; intros H; [reflexivity|].
  rewrite Nat.iter_succ, IH by lia. apply reader_read. lia.
Qed.

Lemma iter_past_end (n k : nat) :
  Z.of_nat n = chunks -> (n < k)%nat ->
  Nat.iter k FileWorker.readNextChunk (reader 0) = cleared n.
Proof.
  intros Hn Hk. induction k as [|k IH]; [lia|].
  rewrite Nat.iter_succ. destruct (Nat.eq_dec k n) as [->|Hne].
  - rewrite iter_reader by lia. apply reader_past_end; auto.
  - rewrite IH by lia. apply reader_past_end; auto.
Qed.

Lemma slice_length (l : list byte) (a cs : Z) :
  0 <= a -> 0 <= cs -> Z.of_nat (length (Blob.slice l a (a + cs))) <= cs.
Proof.
  intros Ha Hcs. unfold Blob.slice.
  destruct (Z.ltb_spec a 0); [lia|]. destruct (Z.ltb_spec (a + cs) 0); [lia|].
  rewrite length_firstn. lia.
Qed.

(** X9. A reader with a chunk size above zero, [readNextChunk] called
    again and again: with [n] the chunk count, call [k + 1] caches chunk
    [k] of the file and its Base64 text, for every [k] below [n]; the
    chunks are not empty, none is longer than the chunk size, and one
    after the other they make up the file. Every call after that finds
    nothing to read: it leaves [null] in the cache and [n] in
    [curChunk]. *)
Theorem reader_reads_whole_file :
  let w0 := FileWorker.updateChunkSize chunkSize (FileWorker.createReader file) in
  let after := fun k => Nat.iter k FileWorker.readNextChunk w0 in
  exists n : nat,
    FileWorker.fileChunks w0 = Js.Num (Z.of_nat n) /\
    (forall k, (k < n)%nat ->
       FileWorker.lastChunkBlob (after (S k)) = Some (chunk k) /\
       FileWorker.lastChunkBase64 (after (S k))
       = Some (Utils.blobAsBase64 (chunk k)) /\
       FileWorker.curChunk (after (S k)) = Z.of_nat (S k) /\
       chunk k <> [] /\ Z.of_nat (length (chunk k)) <= chunkSize) /\
    concat (map chunk (seq 0 n)) = FileWorker.content file /\
    (forall k, (n < k)%nat ->
       FileWorker.lastChunkBlob (after k) = None /\
       FileWorker.lastChunkBase64 (after k) = None /\
       FileWorker.lastChunkSha256 (after k) = None /\
       FileWorker.curChunk (after k) = Z.of_nat n).
Proof.
  intros w0 after.
  pose proof (chunks_nonneg file chunkSize chunkSize_positive) as Hnn.
  exists (Z.to_nat chunks).
  assert (Hn : Z.of_nat (Z.to_nat chunks) = chunks) by lia.
  split; [cbn; now rewrite Hn|]. split; [|split].
  - intros k Hk. unfold after. change w0 with (reader 0).
    rewrite iter_reader by lia.
    split; [reflexivity|]. split; [reflexivity|]. split; [reflexivity|].
    split; [apply chunk_not_empty; [assumption | lia]|].
    apply slice_length; lia.
  - now apply concat_prefix_all.
  - intros k Hk. unfold after. change w0 with (reader 0).
    rewrite (iter_past_end _ k Hn Hk).
    destruct (reader_fields file chunkSize (Z.to_nat chunks))
      as (_ & _ & _ & _ & Hc).
    repeat split. cbn. exact Hc.
Qed.

End Reading.

(** The eight bytes of [file8] in chunks of three. *)
Lemma reader_reads_whole_file_witness :
  let w0 :=
    FileWorker.updateChunkSize 3 (FileWorker.createReader Example.file8) in
  let after := fun k => Nat.iter k FileWorker.readNextChunk w0 in
  FileWorker.lastChunkBlob (after 1%nat) = Some ["000"; "001"; "002"]%byte /\
  FileWorker.lastChunkBlob (after 3%nat) = Some ["006"; "007"]%byte /\
  FileWorker.lastChunkBlob (after 4%nat) = None.
Proof.
  intros w0 after.
  destruct (reader_reads_whole_file Example.file8 3 ltac:(lia))
    as (n & Hn & Hread & _ & Hend).
  assert (En : n = 3%nat).
  { change (Js.Num 3 = Js.Num (Z.of_nat n)) in Hn. injection Hn as Hn. lia. }
  subst n.
  destruct (Hread 0%nat ltac:(lia)) as (H0 & _).
  destruct (Hread 2%nat ltac:(lia)) as (H2 & _).
  destruct (Hend 4%nat ltac:(lia)) as (H4 & _).
  split; [|split].
  - unfold after, w0. rewrite H0. vm_compute. reflexivity.
  - unfold after, w0. rewrite H2. vm_compute. reflexivity.
  - exact H4.
Defined.

(** ** A peer watching arbitrary texts *)

Section Watching.

Context {P : Platform}.

(** How a call of the handler can end: nothing changed, the nonce
    stored and no more, or the nonce stored and the envelope
    dispatched. *)
Lemma observed_cases (now : Z) (rawData : option string) (c : Core.t) :
  fst (Core._onQRDataReceived now rawData c) = c \/
  exists ckTId bd dt,
    Core._isRunning c = true /\
    (Core._onQRDataReceived now rawData c
     = (Core.set_lastReceivedDatetime dt c, Returned) \/
     Core._onQRDataReceived now rawData c
     = Core.dispatch now (Core._chunkTypeFromId ckTId) bd
         (Core.set_lastReceivedDatetime dt c)).
Proof.
  unfold Core._onQRDataReceived.
  destruct (Core._isRunning c) eqn:Hrun; [|now left]. cbn [negb].
  destruct rawData as [rawData|]; [|now left].
  destruct (String.length _ =? 0)%nat; [now left|].
  destruct (JSON_parse _) as [jsObj|]; [|now left].
  unfold Core.onParsed.
  destruct (Js.get jsObj "ckTId") as [ckTId|]; [|now left].
  destruct (Js.get jsObj "bd") as [bd|]; [|now left].
  destruct (Js.get jsObj "dt") as [dt|]; [|now left].
  destruct (_ || _); [now left|].
  right. exists ckTId, bd, dt. split; [reflexivity|].
  cbn [Core._lastReceivedDatetime Core.set_lastReceivedDatetime].
  destruct (Js.strict_equal _ dt); [now left | now right].
Qed.

Lemma updateQRImage_keeps (now : Z) (k : option ChunkType.t)
  (input : option string) (c : Core.t) :
  let c' := fst (Core._updateQRImage now k input c) in
  Core._displayedView c' = Core._displayedView c /\
  Core._fileWorker c' = Core._fileWorker c /\
  Core._isRunning c' = Core._isRunning c /\
  Core._lastReceivedDatetime c' = Core._lastReceivedDatetime c /\
  Core.qrViewHasImg c' = Core.qrViewHasImg c /\
  Core.downloads c' = Core.downloads c.
Proof.
  cbv zeta. unfold Core._updateQRImage.
  destruct (Core._isSenderReceiverView c); cbn [negb];
    [|cbn; repeat split; reflexivity].
  destruct input as [s|], k as [k|]; try (cbn; repeat split; reflexivity);
    destruct (Core.qrViewHasImg c) eqn:E; cbn; rewrite ?E; repeat split;
    reflexivity.
Qed.

(** One call of the handler adds no download, or one, and then leaves
    the peer stopped. *)
Lemma observed_downloads (now : Z) (rawData : option string) (c : Core.t) :
  let c' := fst (Core._onQRDataReceived now rawData c) in
  Core.downloads c' = Core.downloads c \/
  exists d,
    Core.downloads c' = Core.downloads c ++ [d] /\
    Core._isRunning c' = false /\ Core._fileWorker c' = None.
Proof.
  intros c'. unfold c'.
  destruct (observed_cases now rawData c)
    as [-> | (ckTId & bd & dt & Hrun & [-> | ->])];
    [now left | now left |].
  unfold Core.dispatch.
  destruct (Core._displayedView _) as [[| | |]|]; try (now left).
  - left. unfold Core.onSendFile.
    destruct (Core._chunkTypeFromId ckTId); try reflexivity;
      destruct (Core._fileWorker _); try reflexivity;
      cbv zeta;
      repeat match goal with
      | |- context [if ?b then _ else _] => destruct b
      end;
      first [ reflexivity
            | now rewrite (proj2 (proj2 (proj2 (proj2 (proj2
                             (updateQRImage_keeps _ _ _ _)))))) ].
  - unfold Core.onReceiveFile.
    destruct (Core._chunkTypeFromId ckTId); try (now left);
      destruct (Core._fileWorker _) as [w|] eqn:Hw; try (now left).
    + left. destruct (JSON_parse bd) as [m|]; [|reflexivity].
      destruct (FileWorker.createWriter m); [|reflexivity].
      labels_cases; [|reflexivity].
      now rewrite (proj2 (proj2 (proj2 (proj2 (proj2
                     (updateQRImage_keeps _ _ _ _)))))).
    + left. destruct (FileWorker.writerSetPendingChunk _ _) as [w' [|]];
        [|reflexivity].
      labels_cases; [|reflexivity].
      now rewrite (proj2 (proj2 (proj2 (proj2 (proj2
                     (updateQRImage_keeps _ _ _ _)))))).
    + left. destruct (FileWorker.writerSetPendingChunk _ _) as [w' [|]];
        [|reflexivity].
      labels_cases; [|reflexivity].
      now rewrite (proj2 (proj2 (proj2 (proj2 (proj2
                     (updateQRImage_keeps _ _ _ _)))))).
    + destruct (FileWorker._writerCreateDownloadFile _) as [a|]; [|now left].
      right. exists a. unfold Core.stopReceiving.
      destruct (setup_keeps now
                  (Core.add_download a
                     (Core.set_fileWorker
                        (Some (FileWorker.writerCommitPendingChunk w))
                        (Core.set_lastReceivedDatetime dt c))))
        as (_ & H1 & H2 & _ & H3 & _).
      rewrite H1, H2, H3. now repeat split.
Qed.

(** Nothing in the [switch] changes the view. *)
Lemma dispatch_view (now : Z) (k : ChunkType.t) (bd : Js.value) (c : Core.t) :
  Core._displayedView (fst (Core.dispatch now k bd c)) = Core._displayedView c.
Proof.
  unfold Core.dispatch.
  destruct (Core._displayedView c) as [[| | |]|] eqn:Hv; try exact Hv.
  - unfold Core.onSendFile.
    destruct k; try exact Hv; destruct (Core._fileWorker c) as [w|];
      try exact Hv.
    + now rewrite (proj1 (updateQRImage_keeps _ _ _ _)).
    + cbv zeta. destruct (JsEq.throws bd _); [exact Hv|].
      destruct (JsEq.loose_equal bd _);
        [destruct (JsEq.throws _ _); [exact Hv|];
         destruct (JsEq.loose_equal _ _)|];
        now rewrite (proj1 (updateQRImage_keeps _ _ _ _)).
  - unfold Core.onReceiveFile.
    destruct k; try exact Hv; destruct (Core._fileWorker c) as [w|];
      try exact Hv.
    + destruct (JSON_parse bd) as [m|]; [|exact Hv].
      destruct (FileWorker.createWriter m); [|exact Hv].
      labels_cases; [|exact Hv].
      now rewrite (proj1 (updateQRImage_keeps _ _ _ _)).
    + destruct (FileWorker.writerSetPendingChunk bd _) as [w' []];
        [|exact Hv].
      labels_cases; [|exact Hv].
      now rewrite (proj1 (updateQRImage_keeps _ _ _ _)).
    + destruct (FileWorker.writerSetPendingChunk bd _) as [w' []];
        [|exact Hv].
      labels_cases; [|exact Hv].
      now rewrite (proj1 (updateQRImage_keeps _ _ _ _)).
    + destruct (FileWorker._writerCreateDownloadFile _); [|exact Hv].
      unfold Core.stopReceiving.
      now rewrite (proj1 (setup_keeps now _)).
Qed.

Lemma stopped_watches_nothing (obs : list (Z * string)) (c : Core.t) :
  Core._isRunning c = false -> Core.watch obs c = c.
Proof.
  revert c. induction obs as [|[now rawData] obs IH]; intros c H;
    [reflexivity|].
  cbn [Core.watch]. rewrite (not_running_ignores now (Some rawData) c H).
  now apply IH.
Qed.

(** X12. Whatever texts a peer decodes, each one handled to the end
    before the next, at most one file is handed over for download; and
    once one is, the peer is stopped and holds no worker, so that
    nothing decoded later has any effect. *)
Theorem receiver_hands_over_once (obs : list (Z * string)) (c : Core.t) :
  let c' := Core.watch obs c in
  exists more,
    Core.downloads c' = Core.downloads c ++ more /\
    (length more <= 1)%nat /\
    (more <> [] ->
     Core._isRunning c' = false /\ Core._fileWorker c' = None /\
     forall later, Core.watch later c' = c').
Proof.
  revert c. induction obs as [|[now rawData] obs IH]; intros c; cbv zeta.
  - exists []. rewrite app_nil_r. repeat split; cbn; try lia; congruence.
  - cbn [Core.watch].
    destruct (observed_downloads now (Some rawData) c)
      as [H | (d & H & Hrun & Hw)].
    + destruct (IH (fst (Core._onQRDataReceived now (Some rawData) c)))
        as (more & H1 & H2 & H3).
      exists more. rewrite H1, H. auto.
    + rewrite (stopped_watches_nothing _ _ Hrun). exists [d].
      split; [exact H|]. split; [cbn; lia|]. intros _.
      split; [exact Hrun|]. split; [exact Hw|].
      intros later. now apply stopped_watches_nothing.
Qed.

End Watching.

(** ** What the Sender shows, whatever it observes *)

Section Sending.

Context {P : Platform}.

Variable file : FileWorker.File.

Variable chunkSize : Z.

Hypothesis chunkSize_positive : 0 < chunkSize.

Local Abbreviation chunk := (Session.chunk file chunkSize).
Local Abbreviation wire := (Session.wire file chunkSize).
Local Abbreviation chunks := (Session.chunks file chunkSize).
Local Abbreviation reader := (Session.reader file chunkSize).
Local Abbreviation cleared := (Session.cleared file chunkSize).
Local Abbreviation sender_shows := (Session.sender_shows file chunkSize).
Local Abbreviation sending := (Session.sending file chunkSize).

Lemma sender_shows_more (n n' : nat) (q : option Js.value) :
  (n <= n')%nat -> Z.of_nat n' <= chunks ->
  sender_shows n q -> sender_shows n' q.
Proof.
  intros Hle Hn'. destruct q as [q|]; [|trivial].
  intros (dt & [H | [(j & Hj & H) | [Hn H]]]); exists dt.
  - now left.
  - right. left. exists j. split; [lia | exact H].
  - right. right. split; [lia | exact H].
Qed.

(** [_updateQRImage] on a Sender. *)
Lemma sending_update (n : nat) (now : Z) (k : option ChunkType.t)
  (input : option string) (c : Core.t) :
  sending n c ->
  sender_shows n
    (match input, k with
     | Some s, Some k => Some (Core.qrData k (JsString.trim s) now)
     | _, _ => None
     end) ->
  sending n (fst (Core._updateQRImage now k input c)).
Proof.
  intros (Hle & Hview & Hrun & Hw & Hq) Hnew.
  unfold Core._updateQRImage.
  rewrite (sender_view c Hview). cbn [negb].
  destruct input as [s|], k as [k|]; cbn [fst];
    try destruct (Core.qrViewHasImg c); cbn [fst];
    repeat split; try assumption.
Qed.

Lemma sending_worker (n n' : nat) (w' : FileWorker.t) (c : Core.t) :
  sending n c ->
  Z.of_nat n' <= chunks -> (n <= n')%nat ->
  w' = reader n' \/ (Z.of_nat n' = chunks /\ w' = cleared n') ->
  sending n' (Core.set_fileWorker (Some w') c).
Proof.
  intros (Hle & Hview & Hrun & _ & Hq) Hle' Hnn Hw'.
  split; [exact Hle'|]. split; [exact Hview|]. split; [exact Hrun|].
  split.
  - cbn. destruct Hw' as [-> | [H ->]]; auto.
  - now apply sender_shows_more with (n := n).
Qed.

(** Reading on from [n] chunks: the next chunk, or the cleared cache
    past the end. *)
Lemma sending_read (n : nat) (w : FileWorker.t) :
  Z.of_nat n <= chunks ->
  w = reader n \/ (Z.of_nat n = chunks /\ w = cleared n) ->
  (Z.of_nat n < chunks /\ w = reader n /\
   FileWorker.readNextChunk w = reader (S n) /\
   FileWorker.lastChunkBase64 (FileWorker.readNextChunk w) = Some (wire n)) \/
  (Z.of_nat n = chunks /\ FileWorker.readNextChunk w = cleared n /\
   FileWorker.lastChunkBase64 (FileWorker.readNextChunk w) = None).
Proof.
  intros Hle [-> | [Hn ->]].
  - destruct (Z_lt_le_dec (Z.of_nat n) chunks) as [Hlt | Hge].
    + left. rewrite (reader_read file chunkSize n Hlt).
      split; [exact Hlt|]. split; [reflexivity|]. split; [reflexivity|].
      apply (reader_cache file chunkSize n).
    + right. assert (Hn : Z.of_nat n = chunks) by lia.
      rewrite (reader_past_end file chunkSize n (reader n) Hn) by now left.
      now repeat split.
  - right.
    rewrite (reader_past_end file chunkSize n (cleared n) Hn) by now right.
    now repeat split.
Qed.

Lemma sending_holds (n : nat) (c : Core.t) :
  sending n c ->
  exists w,
    Core._fileWorker c = Some w /\
    (w = reader n \/ (Z.of_nat n = chunks /\ w = cleared n)) /\
    FileWorker.curChunk w = Z.of_nat n /\
    FileWorker.fileChunks w = Js.Num chunks.
Proof.
  intros (_ & _ & _ & Hw & _).
  destruct (reader_fields file chunkSize n) as (_ & _ & H1 & _ & H2).
  destruct Hw as [Hw | [Hn Hw]]; eexists; (split; [exact Hw|]);
    (split; [auto|]); split; assumption.
Qed.

(** One call of the handler on a Sender, whatever the text. *)
Lemma sender_any_step (n : nat) (now : Z) (rawData : option string)
  (c : Core.t) :
  sending n c ->
  exists n', (n <= n')%nat /\
             sending n' (fst (Core._onQRDataReceived now rawData c)).
Proof.
  intros Hs.
  destruct (observed_cases now rawData c)
    as [-> | (ckTId & bd & dt & _ & [-> | ->])];
    [exists n; split; [lia | exact Hs] .. |].
  assert (Hs' : sending n (Core.set_lastReceivedDatetime dt c)) by exact Hs.
  set (c1 := Core.set_lastReceivedDatetime dt c) in *.
  pose proof Hs' as (Hle & Hview & Hrun & _ & Hq).
  destruct (sending_holds n c1 Hs') as (w & Hcw & Hwn & Hcur & Hch).
  assert (Htrim : JsString.trim (wire n) = wire n)
    by apply blobAsBase64_trimmed.
  unfold Core.dispatch. rewrite Hview. unfold Core.onSendFile.
  destruct (Core._chunkTypeFromId ckTId);
    try (exists n; split; [lia | exact Hs']); rewrite Hcw.
  - (* meta_info_received *)
    destruct (sending_read n w Hle Hwn)
      as [(Hlt & -> & -> & ->) | (Hn & -> & ->)].
    + exists (S n). split; [lia|]. apply sending_update.
      * apply (sending_worker n (S n) _ c1 Hs'); [lia | lia | now left].
      * exists now. right. left. exists n. split; [lia|]. left.
        now rewrite Htrim.
    + exists n. split; [lia|]. apply sending_update; [|exact I].
      apply (sending_worker n n _ c1 Hs'); [lia | lia | now right].
  - (* eval_sha256 *)
    cbv zeta. rewrite Hcur, Hch. cbn [JsEq.throws].
    change (JsEq.loose_equal (Js.Num (Z.of_nat n)) (Js.Num chunks))
      with (Z.of_nat n =? chunks).
    destruct (JsEq.throws bd _); [exists n; split; [lia | exact Hs']|].
    destruct (JsEq.loose_equal bd _).
    + destruct (Z.eqb_spec (Z.of_nat n) chunks) as [Hn | Hn].
      * exists n. split; [lia|]. apply sending_update; [exact Hs'|].
        exists now. right. right. now split.
      * destruct (sending_read n w Hle Hwn)
          as [(Hlt & -> & -> & ->) | (Hn' & _)]; [|contradiction].
        exists (S n). split; [lia|]. apply sending_update.
        -- apply (sending_worker n (S n) _ c1 Hs'); [lia | lia | now left].
        -- exists now. right. left. exists n. split; [lia|]. left.
           now rewrite Htrim.
    + exists n. split; [lia|]. apply sending_update; [exact Hs'|].
      destruct Hwn as [-> | [_ ->]]; [|exact I].
      destruct n as [|j]; [exact I|].
      destruct (reader_cache file chunkSize j) as [-> _].
      exists now. right. left. exists j. split; [lia|]. right.
      assert (Htrimj : JsString.trim (wire j) = wire j)
        by apply blobAsBase64_trimmed.
      now rewrite Htrimj.
Qed.

Lemma sender_any_watch (obs : list (Z * string)) (n : nat) (c : Core.t) :
  sending n c -> exists n', (n <= n')%nat /\ sending n' (Core.watch obs c).
Proof.
  revert n c. induction obs as [|[now rawData] obs IH]; intros n c Hs.
  - exists n. split; [lia | exact Hs].
  - cbn [Core.watch].
    destruct (sender_any_step n now (Some rawData) c Hs) as (n1 & H1 & Hs1).
    destruct (IH n1 _ Hs1) as (n2 & H2 & Hs2).
    exists n2. split; [lia | exact Hs2].
Qed.

Lemma sending_start (t0 : Z) (last last' : Js.value) (img img' : bool) :
  sending 0
    (Session.sender (Session.start file chunkSize t0 last last' img img')).
Proof.
  pose proof (chunks_nonneg file chunkSize chunkSize_positive).
  split; [lia|]. split; [reflexivity|]. split; [reflexivity|].
  split; [now left|].
  exists t0. now left.
Qed.

(** X13. A Sender started on a file, whatever texts its camera decodes
    afterwards, each one handled to the end before the next, and for as
    long as it is not stopped (by hand, or by the timer set when
    [completed] is shown): its worker still reads that file, [curChunk]
    never exceeds the chunk count, and what it shows is nothing at all,
    its meta information, a chunk it has read ([ok_next] or
    [invalid_sha256], with the Base64 text of a chunk below [curChunk]),
    or [completed] once [curChunk] is the chunk count. *)
Theorem sender_shows_only_its_file (obs : list (Z * string)) (t0 : Z)
  (last last' : Js.value) (img img' : bool) :
  let c :=
    Core.watch obs
      (Session.sender (Session.start file chunkSize t0 last last' img img')) in
  exists (n : nat) (w : FileWorker.t),
    Core._fileWorker c = Some w /\
    FileWorker._inputFile w = Some file /\
    FileWorker.curChunk w = Z.of_nat n /\
    FileWorker.fileChunks w = Js.Num chunks /\
    Z.of_nat n <= chunks /\
    match Core.qrCode c with
    | None => True
    | Some q =>
        exists dt,
          q = Core.qrData ChunkType.metaInfo
                (JsString.trim
                   (JSON_stringify
                      (FileWorker.metaInfo
                         (FileWorker.updateChunkSize chunkSize
                            (FileWorker.createReader file))))) dt \/
          (exists j, (j < n)%nat /\
             (q = Core.qrData ChunkType.okNext (Utils.blobAsBase64 (chunk j)) dt \/
              q = Core.qrData ChunkType.invalidSha256
                    (Utils.blobAsBase64 (chunk j)) dt)) \/
          (Z.of_nat n = chunks /\
           q = Core.qrData ChunkType.completed EmptyString dt)
    end.
Proof.
  intros c.
  destruct (sender_any_watch obs 0 _ (sending_start t0 last last' img img'))
    as (n & _ & Hs).
  fold c in Hs.
  destruct (sending_holds n c Hs) as (w & Hcw & Hwn & Hcur & Hch).
  destruct Hs as (Hle & _ & _ & _ & Hq).
  exists n, w. split; [exact Hcw|]. split.
  - destruct (reader_fields file chunkSize n) as (_ & Hf & _).
    destruct Hwn as [-> | [_ ->]]; exact Hf.
  - split; [exact Hcur|]. split; [exact Hch|]. split; [exact Hle|]. exact Hq.
Qed.

End Sending.

(** The Sender of [file8], two chunks of four bytes: the texts it
    decodes make it read both chunks, and then a digest that fits
    nothing; it shows the second chunk again. *)
Lemma sender_shows_only_its_file_witness :
  let c :=
    Core.watch
      [(11, Example.text ChunkType.metaInfoReceived EmptyString 1);
       (12, Example.text ChunkType.evalSha256 (Utils.sha256 "AAECAw==") 2);
       (13, Example.text ChunkType.evalSha256 "00" 3)]
      (Session.sender
         (Session.start Example.file8 4 10 Js.Null Js.Null true true)) in
  Core.qrCode c = Some (Core.qrData ChunkType.invalidSha256 "BAUGBw==" 13) /\
  exists (n : nat) (w : FileWorker.t),
    Core._fileWorker c = Some w /\
    FileWorker.curChunk w = Z.of_nat n /\
    Z.of_nat n <= Session.chunks Example.file8 4.
Proof.
  cbv zeta.
  destruct (sender_shows_only_its_file Example.file8 4 ltac:(lia)
              [(11, Example.text ChunkType.metaInfoReceived EmptyString 1);
               (12, Example.text ChunkType.evalSha256
                      (Utils.sha256 "AAECAw==") 2);
               (13, Example.text ChunkType.evalSha256 "00" 3)]
              10 Js.Null Js.Null true true)
    as (n & w & Hw & _ & Hcur & _ & Hle & _).
  split; [evaluate|].
  exists n, w. split; [exact Hw|]. split; [exact Hcur | exact Hle].
Defined.

(** ** A run without misreadings delivers the file *)

Section Delivery.

Context {P : Platform}.

Variable file : FileWorker.File.

Variable chunkSize : Z.

Hypothesis chunkSize_positive : 0 < chunkSize.

Local Abbreviation chunk := (Session.chunk file chunkSize).
Local Abbreviation wire := (Session.wire file chunkSize).
Local Abbreviation digest := (Session.digest file chunkSize).
Local Abbreviation chunks := (Session.chunks file chunkSize).
Local Abbreviation prefix := (Session.prefix file chunkSize).
Local Abbreviation reader := (Session.reader file chunkSize).
Local Abbreviation sender_at := (Session.sender_at file chunkSize).
Local Abbreviation named := (Session.named file chunkSize).
Local Abbreviation received := (Session.received file chunkSize).
Local Abbreviation pending := (Session.pending file chunkSize).
Local Abbreviation meta_text := (Session.meta_text file chunkSize).
Local Abbreviation envelopes := (Session.envelopes file chunkSize).

Lemma older_new (dt : Z) (v : Js.value) :
  Session.older dt v -> Js.strict_equal v (Js.Num dt) = false.
Proof.
  destruct v; try reflexivity. cbn. intros H. apply Z.eqb_neq. lia.
Qed.

Lemma older_more (a b : Z) (v : Js.value) :
  a <= b -> Session.older a v -> Session.older b v.
Proof. destruct v; cbn; try trivial. lia. Qed.

(** A peer reads the code the other one shows, for the first time. *)
Lemma reads_new (now : Z) (k : ChunkType.t) (bd : string) (dt : Z)
  (shower observer : Core.t) :
  Core.qrCode shower = Some (Core.qrData k bd dt) ->
  Session.older dt (Core._lastReceivedDatetime observer) ->
  Core._isRunning observer = true ->
  Session.legible shower ->
  Core._onQRDataReceived now (option_map JSON_stringify (Core.qrCode shower))
    observer
  = Core.dispatch now k (Js.Str bd)
      (Core.set_lastReceivedDatetime (Js.Num dt) observer).
Proof.
  intros Hq Hold Hrun (shown & Hq' & Hne & Hparse).
  rewrite Hq in Hq'. injection Hq' as <-. rewrite Hq. cbn [option_map].
  rewrite (observes_qrData now _ k bd dt observer Hrun Hne Hparse).
  now rewrite (older_new dt _ Hold).
Qed.

Lemma receiver_sr (c : Core.t) :
  Core._displayedView c = Some ViewOption.receiveFile ->
  forall q dt,
    Core._isSenderReceiverView
      (Core.set_fileWorker q (Core.set_lastReceivedDatetime dt c)) = true.
Proof. intros H q dt. unfold Core._isSenderReceiverView. cbn. now rewrite H. Qed.

Lemma sender_sr (c : Core.t) :
  Core._displayedView c = Some ViewOption.sendFile ->
  forall dt,
    Core._isSenderReceiverView (Core.set_lastReceivedDatetime dt c) = true /\
    forall q,
      Core._isSenderReceiverView
        (Core.set_fileWorker q (Core.set_lastReceivedDatetime dt c)) = true.
Proof.
  intros H dt. unfold Core._isSenderReceiverView. cbn. now rewrite H.
Qed.

(** The writer the Receiver makes of the Sender's meta information. *)
Lemma writer_of_reader :
  exists w,
    FileWorker.createWriter (FileWorker.metaInfo (reader 0)) = Some w /\
    FileWorker.readMode w = false /\
    FileWorker._writerBuffer w = [] /\
    FileWorker.lastChunkBlob w = None /\
    named w /\
    forallb Js.convertible
      [FileWorker.inputFileName w; FileWorker.fileSize w;
       FileWorker.fileChunks w; FileWorker._chunkSize w] = true.
Proof. eexists. repeat split; reflexivity. Qed.

(** What a peer has just shown can be read by the other one. *)
Lemma shown_legible (now : Z) (k : ChunkType.t) (input : string) (c : Core.t) :
  Core._isSenderReceiverView c = true ->
  Session.reads_back (Core.qrData k (JsString.trim input) now) ->
  Session.legible (fst (Core._updateQRImage now (Some k) (Some input) c)).
Proof.
  intros Hview Hback. rewrite (updateQRImage_shown _ _ _ _ Hview).
  eexists. split; [reflexivity | exact Hback].
Qed.

(** The Receiver reads the meta information. *)
Lemma takes_meta (bound now : Z) (s : Session.t) :
  sender_at 0 (Session.sender s) ->
  Session.shows_new ChunkType.metaInfo meta_text bound
    (Session.sender s) (Session.receiver s) ->
  Session.awaiting (Session.receiver s) ->
  JSON_parse (Js.Str meta_text) = Some (FileWorker.metaInfo (reader 0)) ->
  Session.legible (Session.sender s) ->
  Session.reads_back (Core.qrData ChunkType.metaInfoReceived EmptyString now) ->
  bound < now ->
  let s' := Session.observe true now s in
  sender_at 0 (Session.sender s') /\
  Session.shows_new ChunkType.metaInfoReceived EmptyString now
    (Session.receiver s') (Session.sender s') /\
  Session.legible (Session.receiver s') /\
  received 0 (Session.receiver s').
Proof.
  intros Hat (dt & Hq & Hdt & Hold & Hmine) (Hview & Hrun & Hworker & Hdown)
    Hmeta Hleg Hback Hnow s'.
  unfold s', Session.observe. cbn [Session.sender Session.receiver].
  rewrite (reads_new now _ _ dt _ _ Hq Hold Hrun Hleg).
  unfold Core.dispatch.
  cbn [Core._displayedView Core.set_lastReceivedDatetime]. rewrite Hview.
  unfold Core.onReceiveFile.
  cbn [Core._fileWorker Core.set_lastReceivedDatetime]. rewrite Hworker, Hmeta.
  destruct writer_of_reader as (w & Hw & Hmode & Hbuf & Hblob & Hnamed & Hconv).
  rewrite Hw. cbv zeta.
  rewrite (labels_of_writer _ w (receiver_sr _ Hview _ _) Hrun eq_refl Hmode),
    Hconv.
  cbn [Core.and_then]. split; [exact Hat|]. split; [|split].
  - rewrite (updateQRImage_shown _ _ _ _ (receiver_sr _ Hview _ _)).
    exists now. cbn. split; [reflexivity|]. split; [lia|]. split.
    + apply older_more with (a := bound + 1); [lia | exact Hmine].
    + lia.
  - apply shown_legible; [apply (receiver_sr _ Hview) | exact Hback].
  - rewrite (updateQRImage_shown _ _ _ _ (receiver_sr _ Hview _ _)). cbn [fst].
    exists w. split; [|split].
    + unfold Session.collecting. cbn. auto.
    + exact Hnamed.
    + unfold Session.pending_blobs. now rewrite Hbuf, Hblob.
Qed.

(** What the Sender shows once it has read chunk [n]. *)
Lemma sender_offers (n : nat) (bound now dt : Z) (s : Session.t) :
  sender_at n (Session.sender s) ->
  Z.of_nat n < chunks ->
  Session.older (bound + 1) (Core._lastReceivedDatetime (Session.receiver s)) ->
  dt <= bound -> bound < now ->
  Session.reads_back (Core.qrData ChunkType.okNext (wire n) now) ->
  let sender' :=
    fst (Core._updateQRImage now (Some ChunkType.okNext)
           (FileWorker.lastChunkBase64 (FileWorker.readNextChunk (reader n)))
           (Core.set_fileWorker (Some (FileWorker.readNextChunk (reader n)))
              (Core.set_lastReceivedDatetime (Js.Num dt) (Session.sender s)))) in
  sender_at (S n) sender' /\
  Session.shows_new ChunkType.okNext (wire n) now sender' (Session.receiver s) /\
  Session.legible sender'.
Proof.
  intros (Hview & Hrun & Hworker & Hle) Hlt Hold Hdt Hnow Hback sender'.
  unfold sender'. rewrite (reader_read file chunkSize n Hlt).
  destruct (reader_cache file chunkSize n) as [-> _].
  assert (Htrim : JsString.trim (wire n) = wire n)
    by apply blobAsBase64_trimmed.
  split; [|split].
  - rewrite (updateQRImage_shown _ _ _ _ (proj2 (sender_sr _ Hview _) _)).
    unfold Session.sender_at. cbn. repeat split; auto. lia.
  - rewrite (updateQRImage_shown _ _ _ _ (proj2 (sender_sr _ Hview _) _)).
    rewrite Htrim. exists now. cbn. split; [reflexivity|]. split; [lia|]. split.
    + apply older_more with (a := bound + 1); [lia | exact Hold].
    + lia.
  - apply shown_legible; [apply (sender_sr _ Hview) | now rewrite Htrim].
Qed.

(** The Sender reads the acknowledgement of the meta information. *)
Lemma reads_on (bound now : Z) (s : Session.t) :
  sender_at 0 (Session.sender s) ->
  Session.shows_new ChunkType.metaInfoReceived EmptyString bound
    (Session.receiver s) (Session.sender s) ->
  0 < chunks ->
  Session.legible (Session.receiver s) ->
  Session.reads_back (Core.qrData ChunkType.okNext (wire 0) now) ->
  bound < now ->
  let s' := Session.observe false now s in
  Session.receiver s' = Session.receiver s /\
  sender_at 1 (Session.sender s') /\
  Session.shows_new ChunkType.okNext (wire 0) now
    (Session.sender s') (Session.receiver s') /\
  Session.legible (Session.sender s').
Proof.
  intros Hat (dt & Hq & Hdt & Hold & Hmine) Hsome Hleg Hback Hnow s'.
  pose proof Hat as (Hview & Hrun & Hworker & Hle).
  unfold s', Session.observe. cbn [Session.sender Session.receiver].
  split; [reflexivity|].
  rewrite (reads_new now _ _ dt _ _ Hq Hold Hrun Hleg).
  unfold Core.dispatch.
  cbn [Core._displayedView Core.set_lastReceivedDatetime]. rewrite Hview.
  unfold Core.onSendFile.
  cbn [Core._fileWorker Core.set_lastReceivedDatetime]. rewrite Hworker.
  apply (sender_offers 0 bound now dt s Hat); auto.
Qed.

Lemma named_commit (w : FileWorker.t) :
  named w -> named (FileWorker.writerCommitPendingChunk w).
Proof.
  intros H. unfold FileWorker.writerCommitPendingChunk.
  destruct (FileWorker.readMode w); [exact H|].
  destruct (FileWorker.lastChunkBlob w); exact H.
Qed.

Lemma named_convertible (w : FileWorker.t) :
  named w ->
  Js.convertible (FileWorker.inputFileName w) = true /\
  Js.convertible (FileWorker.inputFileType w) = true /\
  Js.convertible (FileWorker.fileChunks w) = true.
Proof. intros (-> & -> & ->). now repeat split. Qed.

(** The Receiver reads chunk [j]. *)
Lemma takes_chunk (j : nat) (bound now : Z) (s : Session.t) :
  sender_at (S j) (Session.sender s) ->
  Session.shows_new ChunkType.okNext (wire j) bound
    (Session.sender s) (Session.receiver s) ->
  received j (Session.receiver s) ->
  Session.legible (Session.sender s) ->
  Session.reads_back (Core.qrData ChunkType.evalSha256 (digest j) now) ->
  bound < now ->
  let s' := Session.observe true now s in
  sender_at (S j) (Session.sender s') /\
  Session.shows_new ChunkType.evalSha256 (digest j) now
    (Session.receiver s') (Session.sender s') /\
  Session.legible (Session.receiver s') /\
  pending j (Session.receiver s').
Proof.
  intros Hat (dt & Hq & Hdt & Hold & Hmine)
    (w & (Hview & Hrun & Hworker & Hmode & Hdown) & Hnamed & Hbuf)
    Hleg Hback Hnow s'.
  unfold s', Session.observe. cbn [Session.sender Session.receiver].
  rewrite (reads_new now _ _ dt _ _ Hq Hold Hrun Hleg).
  unfold Core.dispatch.
  cbn [Core._displayedView Core.set_lastReceivedDatetime]. rewrite Hview.
  unfold Core.onReceiveFile.
  cbn [Core._fileWorker Core.set_lastReceivedDatetime]. rewrite Hworker.
  destruct (commit_buffer w Hmode) as (Hmode1 & Hbuf1 & _ & Hblob1).
  fold (Session.pending_blobs w) in Hbuf1. rewrite Hbuf in Hbuf1.
  rewrite (setPending_decoded (wire j) (chunk j) _ Hmode1)
    by apply bufferArrayFromBase64_blobAsBase64.
  cbv zeta.
  rewrite (updateProgresses_worker _ _ (receiver_sr _ Hview _ _) Hrun eq_refl).
  cbn [FileWorker.fileChunks FileWorker.set_lastChunk
       FileWorker.lastChunkSha256].
  unfold Js.ToPrimitive.
  rewrite (proj2 (proj2 (named_convertible _ (named_commit w Hnamed)))).
  cbn [Core.and_then].
  assert (Htrim : JsString.trim (Utils.sha256 (wire j)) = digest j)
    by apply sha256_trimmed.
  split; [exact Hat|]. split; [|split].
  - rewrite (updateQRImage_shown _ _ _ _ (receiver_sr _ Hview _ _)), Htrim.
    exists now. cbn. split; [reflexivity|]. split; [lia|]. split.
    + apply older_more with (a := bound + 1); [lia | exact Hmine].
    + lia.
  - apply shown_legible; [apply (receiver_sr _ Hview) | now rewrite Htrim].
  - rewrite (updateQRImage_shown _ _ _ _ (receiver_sr _ Hview _ _)). cbn [fst].
    eexists. split; [|split; [|split]].
    + unfold Session.collecting. cbn. auto.
    + exact (named_commit w Hnamed).
    + exact Hbuf1.
    + reflexivity.
Qed.

(** The Sender reads the digest of chunk [j]. *)
Lemma checks_digest (j : nat) (bound now : Z) (s : Session.t) :
  sender_at (S j) (Session.sender s) ->
  Session.shows_new ChunkType.evalSha256 (digest j) bound
    (Session.receiver s) (Session.sender s) ->
  Session.legible (Session.receiver s) ->
  (Z.of_nat (S j) = chunks ->
   Session.reads_back (Core.qrData ChunkType.completed EmptyString now)) ->
  (Z.of_nat (S j) <> chunks ->
   Session.reads_back (Core.qrData ChunkType.okNext (wire (S j)) now)) ->
  bound < now ->
  let s' := Session.observe false now s in
  Session.receiver s' = Session.receiver s /\
  Session.legible (Session.sender s') /\
  if Z.of_nat (S j) =? chunks
  then sender_at (S j) (Session.sender s') /\
       Session.shows_new ChunkType.completed EmptyString now
         (Session.sender s') (Session.receiver s')
  else sender_at (S (S j)) (Session.sender s') /\
       Session.shows_new ChunkType.okNext (wire (S j)) now
         (Session.sender s') (Session.receiver s').
Proof.
  intros Hat (dt & Hq & Hdt & Hold & Hmine) Hleg Hdone Hnext Hnow s'.
  pose proof Hat as (Hview & Hrun & Hworker & Hle).
  unfold s', Session.observe. cbn [Session.sender Session.receiver].
  split; [reflexivity|].
  rewrite (reads_new now _ _ dt _ _ Hq Hold Hrun Hleg).
  unfold Core.dispatch.
  cbn [Core._displayedView Core.set_lastReceivedDatetime]. rewrite Hview.
  unfold Core.onSendFile.
  cbn [Core._fileWorker Core.set_lastReceivedDatetime]. rewrite Hworker.
  destruct (reader_cache file chunkSize j) as [Hwire Hsha].
  destruct (reader_fields file chunkSize (S j)) as (_ & _ & Hchunks & _ & Hcur).
  cbv zeta. rewrite Hsha. cbn [Js.of_option JsEq.throws].
  change (JsEq.loose_equal (Js.Str (digest j)) (Js.Str (digest j)))
    with (String.eqb (digest j) (digest j)).
  rewrite String.eqb_refl, Hchunks, Hcur. cbn [JsEq.throws].
  change (JsEq.loose_equal (Js.Num (Z.of_nat (S j))) (Js.Num chunks))
    with (Z.of_nat (S j) =? chunks).
  destruct (Z.eqb_spec (Z.of_nat (S j)) chunks) as [Hlast | Hmore].
  - split; [|split].
    + apply shown_legible; [apply (sender_sr _ Hview) | exact (Hdone Hlast)].
    + rewrite (updateQRImage_shown _ _ _ _ (proj1 (sender_sr _ Hview _))).
      unfold Session.sender_at. cbn. now repeat split.
    + rewrite (updateQRImage_shown _ _ _ _ (proj1 (sender_sr _ Hview _))).
      exists now. cbn. split; [reflexivity|]. split; [lia|]. split.
      * apply older_more with (a := bound + 1); [lia | exact Hmine].
      * lia.
  - destruct (sender_offers (S j) bound now dt s Hat ltac:(lia) Hmine Hdt Hnow
                (Hnext Hmore)) as (H1 & H2 & H3).
    split; [exact H3|]. split; [exact H1 | exact H2].
Qed.

(** The Receiver reads [completed]. *)
Lemma takes_completed (n : nat) (bound now : Z) (s : Session.t) :
  Z.of_nat n = chunks ->
  Session.shows_new ChunkType.completed EmptyString bound
    (Session.sender s) (Session.receiver s) ->
  received n (Session.receiver s) ->
  Session.legible (Session.sender s) ->
  let s' := Session.observe true now s in
  Core.downloads (Session.receiver s') = [Session.delivery file chunkSize] /\
  Core._isRunning (Session.receiver s') = false /\
  Core._fileWorker (Session.receiver s') = None.
Proof.
  intros Hn (dt & Hq & Hdt & Hold & Hmine)
    (w & (Hview & Hrun & Hworker & Hmode & Hdown) & Hnamed & Hbuf) Hleg s'.
  destruct (named_commit w Hnamed) as (Hname & Htype & _).
  destruct (named_convertible _ (named_commit w Hnamed)) as (Hcn & Hct & _).
  unfold s', Session.observe. cbn [Session.sender Session.receiver].
  rewrite (reads_new now _ _ dt _ _ Hq Hold Hrun Hleg).
  unfold Core.dispatch.
  cbn [Core._displayedView Core.set_lastReceivedDatetime]. rewrite Hview.
  unfold Core.onReceiveFile.
  cbn [Core._fileWorker Core.set_lastReceivedDatetime]. rewrite Hworker.
  destruct (commit_buffer w Hmode) as (Hmode1 & Hbuf1 & _ & _).
  fold (Session.pending_blobs w) in Hbuf1. rewrite Hbuf in Hbuf1.
  rewrite (download_of_writer _ Hmode1), Hct, Hcn, Hbuf1. cbn [andb].
  rewrite (concat_prefix_all file chunkSize chunkSize_positive n Hn).
  rewrite Hname, Htype.
  unfold Core.stopReceiving.
  rewrite setup_cases
    by (unfold Core._isSenderReceiverView; cbn; now rewrite Hview).
  cbn. rewrite Hdown. now repeat split.
Qed.

Lemma pending_received (j : nat) (c : Core.t) :
  pending j c -> received (S j) c.
Proof.
  intros (w & Hcoll & Hnamed & Hbuf & Hblob). exists w.
  split; [exact Hcoll|]. split; [exact Hnamed|].
  unfold Session.pending_blobs. now rewrite Hbuf, Hblob, prefix_succ.
Qed.

(** The envelopes of the transfer. *)
Lemma envelope_completed : In (ChunkType.completed, EmptyString) envelopes.
Proof. right. right. now left. Qed.

Lemma envelope_chunk (j : nat) :
  Z.of_nat j < chunks ->
  In (ChunkType.okNext, wire j) envelopes /\
  In (ChunkType.evalSha256, digest j) envelopes.
Proof.
  intros Hj.
  assert (Hin : In j (seq 0 (Z.to_nat chunks))) by (apply in_seq; lia).
  split; do 3 right; apply in_flat_map; exists j; (split; [exact Hin|]);
    [now left | right; now left].
Qed.

(** From chunk [j] on show to the end, [m] chunks after it. *)
Lemma delivers_from (m : nat) :
  forall (j : nat) (bound : Z) (ts : list Z) (s : Session.t),
    Z.of_nat (S j) + Z.of_nat m = chunks ->
    sender_at (S j) (Session.sender s) ->
    Session.shows_new ChunkType.okNext (wire j) bound
      (Session.sender s) (Session.receiver s) ->
    Session.legible (Session.sender s) ->
    received j (Session.receiver s) ->
    Session.increasing bound ts ->
    length ts = (2 * m + 3)%nat ->
    (forall k bd dt,
       In (k, bd) envelopes -> In dt ts ->
       Session.reads_back (Core.qrData k bd dt)) ->
    let s' := Session.run (Session.turns true ts) s in
    Core.downloads (Session.receiver s') = [Session.delivery file chunkSize] /\
    Core._isRunning (Session.receiver s') = false /\
    Core._fileWorker (Session.receiver s') = None.
Proof.
  induction m as [|m IH];
    intros j bound ts s Hm Hat Hshow Hleg Hrec Hinc Hlen Hback.
  - destruct ts as [|t1 [|t2 [|t3 [|]]]]; cbn [length] in Hlen; try lia.
    cbn [Session.turns negb Session.run Session.increasing] in *.
    destruct Hinc as (H1 & H2 & H3 & _).
    destruct (envelope_chunk j ltac:(lia)) as [_ Hdig].
    destruct (takes_chunk j bound t1 s Hat Hshow Hrec Hleg
                (Hback _ _ t1 Hdig ltac:(now left)) H1)
      as (Hat1 & Hshow1 & Hleg1 & Hpend1).
    destruct (checks_digest j t1 t2 _ Hat1 Hshow1 Hleg1
                (fun _ => Hback _ _ t2 envelope_completed
                            ltac:(right; now left))
                ltac:(intros; exfalso; lia) H2)
      as (Hsame & Hleg2 & Hnext).
    destruct (Z.eqb_spec (Z.of_nat (S j)) chunks) as [Hlast|]; [|lia].
    destruct Hnext as [Hat2 Hshow2].
    apply (takes_completed (S j) t2 t3 _ Hlast Hshow2); [|exact Hleg2].
    rewrite Hsame. now apply pending_received.
  - destruct ts as [|t1 [|t2 ts]]; cbn [length] in Hlen; try lia.
    cbn [Session.turns negb Session.run Session.increasing] in *.
    destruct Hinc as (H1 & H2 & Hinc).
    destruct (envelope_chunk j ltac:(lia)) as [_ Hdig].
    destruct (envelope_chunk (S j) ltac:(lia)) as [Hwire _].
    destruct (takes_chunk j bound t1 s Hat Hshow Hrec Hleg
                (Hback _ _ t1 Hdig ltac:(now left)) H1)
      as (Hat1 & Hshow1 & Hleg1 & Hpend1).
    destruct (checks_digest j t1 t2 _ Hat1 Hshow1 Hleg1
                (fun _ => Hback _ _ t2 envelope_completed
                            ltac:(right; now left))
                (fun _ => Hback _ _ t2 Hwire ltac:(right; now left)) H2)
      as (Hsame & Hleg2 & Hnext).
    destruct (Z.eqb_spec (Z.of_nat (S j)) chunks) as [|Hmore]; [lia|].
    destruct Hnext as [Hat2 Hshow2].
    apply (IH (S j) t2 ts _); auto.
    + lia.
    + rewrite Hsame. now apply pending_received.
    + lia.
    + intros k bd dt Hk Hdt. apply Hback; [exact Hk | now do 2 right].
Qed.

(** X14. The transfer of a file that is not empty, in chunks of a size
    above zero, when the peers take turns: the Receiver reads first,
    each peer then reads the text of the code the other one shows (or
    nothing, if it shows none), at clock readings that go up,
    [2 * fileChunks + 3] readings in all; the nonces the peers
    remember from before are older than the start. Of the platform it
    is assumed that [JSON.parse] undoes [JSON.stringify] on the
    envelopes of this transfer (the meta information and its
    acknowledgement, the chunks and their digests, [completed], with
    the clock readings of the run as nonces) and reads the text of the
    meta information as the object it was made of. Then every reading
    finds the code it needs, and the Receiver ends with exactly one
    file handed over: the content of the Sender's file, under the name
    and the type the Sender announced; and the Receiver is stopped.
    (The Receiver reads [completed] while the Sender still shows it,
    before the Sender's timer stops it.) *)
Theorem run_in_turns_delivers (t0 : Z) (ts : list Z)
  (senderLast receiverLast : Js.value) (senderImg receiverImg : bool) :
  0 < FileWorker.size file ->
  Session.older t0 senderLast -> Session.older t0 receiverLast ->
  Session.increasing t0 ts ->
  Z.of_nat (length ts) = 2 * chunks + 3 ->
  JSON_parse (Js.Str meta_text) = Some (FileWorker.metaInfo (reader 0)) ->
  (forall k bd dt,
     In (k, bd) envelopes -> In dt (t0 :: ts) ->
     Session.reads_back (Core.qrData k bd dt)) ->
  let s :=
    Session.run (Session.turns true ts)
      (Session.start file chunkSize t0 senderLast receiverLast
         senderImg receiverImg) in
  Core.downloads (Session.receiver s) = [Session.delivery file chunkSize] /\
  Core._isRunning (Session.receiver s) = false /\
  Core._fileWorker (Session.receiver s) = None.
Proof.
  intros Hsize HoldS HoldR Hinc Hlen Hmeta Hback s.
  set (s0 := Session.start file chunkSize t0 senderLast receiverLast
               senderImg receiverImg) in *.
  assert (Hsome : 0 < chunks).
  { pose proof (ceil_div_covers (FileWorker.size file) chunkSize
                  chunkSize_positive).
    unfold Session.chunks. nia. }
  destruct ts as [|t1 [|t2 ts]]; cbn [length] in Hlen; try lia.
  unfold s.
  cbn [Session.turns negb Session.run Session.increasing] in *.
  destruct Hinc as (H1 & H2 & Hinc).
  assert (Hat0 : sender_at 0 (Session.sender s0)).
  { split; [reflexivity|]. split; [reflexivity|]. split; [reflexivity|]. lia. }
  assert (Hshow0 : Session.shows_new ChunkType.metaInfo meta_text t0
                     (Session.sender s0) (Session.receiver s0)).
  { exists t0. split; [reflexivity|]. split; [lia|]. split; [exact HoldR|].
    apply older_more with (a := t0); [lia | exact HoldS]. }
  assert (Hleg0 : Session.legible (Session.sender s0)).
  { eexists. split; [reflexivity|].
    apply (Hback ChunkType.metaInfo meta_text t0); now left. }
  assert (Hawait : Session.awaiting (Session.receiver s0)) by now repeat split.
  destruct (envelope_chunk 0 Hsome) as [Hwire0 _].
  destruct (takes_meta t0 t1 s0 Hat0 Hshow0 Hawait Hmeta Hleg0
              (Hback _ _ t1 ltac:(right; now left) ltac:(right; now left)) H1)
    as (Hat1 & Hshow1 & Hleg1 & Hrec1).
  destruct (reads_on t1 t2 _ Hat1 Hshow1 Hsome Hleg1
              (Hback _ _ t2 Hwire0 ltac:(do 2 right; now left)) H2)
    as (Hsame & Hat2 & Hshow2 & Hleg2).
  assert (Hrec2 : received 0
                    (Session.receiver
                       (Session.observe false t2 (Session.observe true t1 s0))))
    by now rewrite Hsame.
  apply (delivers_from (Z.to_nat (chunks - 1)) 0 t2 ts _
           ltac:(lia) Hat2 Hshow2 Hleg2 Hrec2 Hinc ltac:(lia)).
  intros k bd dt Hk Hdt. apply Hback; [exact Hk | now do 3 right].
Qed.

End Delivery.

(** The reference platform reads the envelopes of the transfer of
    [file8] in chunks of four bytes back, at the clock readings 10 to
    17. *)
Lemma envelopes8_read_back (k : ChunkType.t) (bd : string) (dt : Z) :
  In (k, bd) (Session.envelopes Example.file8 4) ->
  In dt [10; 11; 12; 13; 14; 15; 16; 17] ->
  Session.reads_back (Core.qrData k bd dt).
Proof.
  intros Hk Hdt. vm_compute in Hk.
  repeat (destruct Hk as [Hk | Hk]; [injection Hk as <- <-|]);
    try contradiction;
    cbn [In] in Hdt;
    repeat (destruct Hdt as [<- | Hdt]); try contradiction;
    (split; [vm_compute; discriminate | vm_compute; reflexivity]).
Qed.

(** The run of seven readings on [file8] in two chunks of four bytes
    hands over [file8]. *)
Lemma run_in_turns_delivers_witness :
  Core.downloads
    (Session.receiver
       (Session.run (Session.turns true [11; 12; 13; 14; 15; 16; 17])
          Example.session8))
  = [Session.delivery Example.file8 4].
Proof.
  exact (proj1 (run_in_turns_delivers Example.file8 4 ltac:(lia) 10
                  [11; 12; 13; 14; 15; 16; 17] Js.Null Js.Null true true
                  ltac:(vm_compute; reflexivity) I I
                  ltac:(cbn; lia) ltac:(vm_compute; reflexivity)
                  ltac:(evaluate) envelopes8_read_back)).
Defined.

(** ** Views, stopping and starting again *)

Section Views.

Context {P : Platform}.

Lemma set_displayedView_same (c : Core.t) :
  Core.set_displayedView (Core._displayedView c) c = c.
Proof. now destruct c. Qed.

Lemma same_view_refl (v : option ViewOption.t) : Core.same_view v v = true.
Proof. now destruct v as [[| | |]|]. Qed.

Lemma loadView_tracked (now : Z) (view : ViewOption.t) (c : Core.t) :
  Core._displayedView c = Some view -> Core.loadView now view c = (c, Returned).
Proof.
  intros H. unfold Core.loadView.
  assert (E : match view with
              | ViewOption.help => c
              | _ => Core.set_displayedView (Some view) c
              end = c)
    by (rewrite <- H, set_displayedView_same; now destruct view).
  rewrite E, H. now rewrite same_view_refl.
Qed.

(** X16. The help, and the view already on: [loadView] of the help
    view, [closeHelp], and [loadView] of the view that is tracked as
    displayed leave the state as it is. A transfer goes on while the
    help is read, and selecting the current view again does not reset
    it. *)
Theorem loadView_help_or_same (now : Z) (c : Core.t) :
  Core.loadView now ViewOption.help c = (c, Returned) /\
  Core.closeHelp now c = (c, Returned) /\
  (forall view,
     Core._displayedView c = Some view ->
     Core.loadView now view c = (c, Returned)).
Proof.
  split; [|split].
  - unfold Core.loadView. destruct (Core._displayedView c); [|reflexivity].
    now rewrite same_view_refl.
  - unfold Core.closeHelp.
    destruct (Core._displayedView c) as [view|] eqn:H; [|reflexivity].
    now apply loadView_tracked.
  - intros view. apply loadView_tracked.
Qed.

(** X17. Leaving the Sender or the Receiver view for the home view
    ends the session: the peer is stopped and its worker dropped, so
    that nothing decoded afterwards has any effect; the code last shown
    is not cleared (the home view has no QR view), and the stored nonce
    and the files handed over stay. Entering the Sender or the Receiver
    view from another view starts clean: stopped, no worker, no code on
    show. *)
Theorem loadView_switch_resets (now : Z) (c : Core.t) :
  (Core._displayedView c = Some ViewOption.sendFile \/
   Core._displayedView c = Some ViewOption.receiveFile ->
   Core.loadView now ViewOption.home c
   = (Core.set_fileWorker None
        (Core.set_isRunning false
           (Core.set_displayedView (Some ViewOption.home) c)), Returned) /\
   forall obs,
     Core.watch obs (fst (Core.loadView now ViewOption.home c))
     = fst (Core.loadView now ViewOption.home c)) /\
  (forall view,
     view = ViewOption.sendFile \/ view = ViewOption.receiveFile ->
     Core._displayedView c <> Some view ->
     let c' := fst (Core.loadView now view c) in
     Core._displayedView c' = Some view /\
     Core._isRunning c' = false /\
     Core._fileWorker c' = None /\
     Core.qrCode c' = None /\
     Core._lastReceivedDatetime c' = Core._lastReceivedDatetime c /\
     Core.downloads c' = Core.downloads c).
Proof.
  split.
  - intros Hview.
    assert (E : Core.loadView now ViewOption.home c
                = (Core.set_fileWorker None
                     (Core.set_isRunning false
                        (Core.set_displayedView (Some ViewOption.home) c)),
                   Returned)).
    { unfold Core.loadView.
      cbn [Core._displayedView Core.set_displayedView].
      destruct Hview as [-> | ->]; reflexivity. }
    split; [exact E|]. intros obs. rewrite E. cbn [fst].
    now apply stopped_watches_nothing.
  - intros view Hv Hother c'. unfold c', Core.loadView.
    assert (Hdiff : Core.same_view (Some view) (Core._displayedView c) = false).
    { destruct (Core._displayedView c) as [[| | |]|];
        destruct Hv as [-> | ->]; try reflexivity; congruence. }
    destruct Hv as [-> | ->];
      cbn [Core._displayedView Core.set_displayedView]; rewrite Hdiff;
      unfold Core._setupSender, Core._setupReceiver, Core.setQRCodeViewer,
        Core._reset, Core._updateQRImage, Core._isSenderReceiverView;
      cbn; destruct (Core.qrViewHasImg c); cbn; repeat split.
Qed.

(** X15. Stopping does not forget the nonce: a peer that has processed
    an envelope, is stopped and started again, runs without a worker and
    still drops that envelope as seen. (A Receiver started again in
    front of the meta information it has already read does not open a
    session.) *)
Theorem restart_keeps_nonce (now now1 now2 t : Z) (rawData : string)
  (ckTId bd : Js.value) (c : Core.t) :
  Core._isSenderReceiverView c = true ->
  Core._isRunning c = true ->
  Core.decodes rawData ckTId bd (Js.Num t) ->
  let c1 := fst (Core._onQRDataReceived now (Some rawData) c) in
  let c2 := Core.startReceiving (fst (Core.stopReceiving now1 c1)) in
  Core._isRunning c2 = true /\
  Core._fileWorker c2 = None /\
  Core._lastReceivedDatetime c2 = Js.Num t /\
  Core._onQRDataReceived now2 (Some rawData) c2 = (c2, Returned).
Proof.
  intros Hsr Hrun Hdec c1 c2.
  assert (Hlast1 : Core._lastReceivedDatetime c1 = Js.Num t)
    by apply (observed_last now rawData ckTId bd (Js.Num t) c Hrun Hdec).
  assert (Hview1 : Core._isSenderReceiverView c1 = true).
  { unfold c1.
    destruct (observed_cases now (Some rawData) c)
      as [-> | (k & b & d & _ & [-> | ->])]; try exact Hsr.
    unfold Core._isSenderReceiverView in *.
    rewrite dispatch_view. exact Hsr. }
  set (c1' := fst (Core.stopReceiving now1 c1)).
  assert (H1' : Core._isSenderReceiverView c1' = true /\
                Core._isRunning c1' = false /\
                Core._fileWorker c1' = None /\
                Core._lastReceivedDatetime c1' = Js.Num t).
  { unfold c1', Core.stopReceiving. rewrite (setup_cases now1 c1 Hview1).
    unfold Core._isSenderReceiverView in *. cbn. auto. }
  destruct H1' as (Hv & Hr & Hw & Hl).
  assert (E : c2 = Core.set_isRunning true c1').
  { unfold c2. fold c1'. unfold Core.startReceiving. now rewrite Hv, Hr. }
  rewrite E. split; [reflexivity|]. split; [exact Hw|]. split; [exact Hl|].
  rewrite (observed_envelope now2 rawData ckTId bd (Js.Num t)
             (Core.set_isRunning true c1') eq_refl Hdec).
  cbn [Core._lastReceivedDatetime Core.set_isRunning]. rewrite Hl.
  cbn [Js.strict_equal]. rewrite Z.eqb_refl. f_equal.
  destruct c1'; cbn in *. now subst.
Qed.

(** X18. The Receiver does not compare what it holds with what was
    announced: on [completed] it commits the pending chunk, if there is
    one, and hands over the buffer as it stands, whatever [fileSize] and
    [fileChunks] say and however many chunks came; it is stopped then
    and holds no worker. (The name and the type of the session are
    values strings can be made of, as all but objects and arrays with a
    [toString] of their own are.) With a name or a type of which no
    string can be made, the pending chunk is committed and the handler
    throws: nothing is handed over and the Receiver keeps running. *)
Theorem completed_hands_over_what_is_held (now : Z) (rawData : string)
  (bd dt : Js.value) (c : Core.t) (w : FileWorker.t) :
  Core._displayedView c = Some ViewOption.receiveFile ->
  Core._isRunning c = true ->
  Core._fileWorker c = Some w ->
  FileWorker.readMode w = false ->
  Core.decodes rawData (Js.Num 50) bd dt ->
  Js.strict_equal (Core._lastReceivedDatetime c) dt = false ->
  let c' := fst (Core._onQRDataReceived now (Some rawData) c) in
  (Js.convertible (FileWorker.inputFileType w) = true ->
   Js.convertible (FileWorker.inputFileName w) = true ->
   Core.downloads c'
   = Core.downloads c
       ++ [{| FileWorker.download := FileWorker.inputFileName w;
              FileWorker.blobType := FileWorker.inputFileType w;
              FileWorker.blobContent :=
                concat (FileWorker._writerBuffer w
                          ++ Session.pending_blobs w) |}] /\
   Core._isRunning c' = false /\ Core._fileWorker c' = None) /\
  (Js.convertible (FileWorker.inputFileType w) = false \/
   Js.convertible (FileWorker.inputFileName w) = false ->
   Core._onQRDataReceived now (Some rawData) c
   = (Core.set_fileWorker (Some (FileWorker.writerCommitPendingChunk w))
        (Core.set_lastReceivedDatetime dt c), Thrown)).
Proof.
  intros Hview Hrun Hw Hmode Hdec Hnew c'. unfold c'.
  rewrite (receiver_observes now rawData _ bd dt c Hview Hrun Hdec Hnew).
  cbn [Core._chunkTypeFromId Core.onReceiveFile Core._fileWorker
       Core.set_lastReceivedDatetime].
  rewrite Hw.
  destruct (commit_buffer w Hmode) as (Hmode1 & Hbuf1 & _ & _).
  fold (Session.pending_blobs w) in Hbuf1.
  destruct (commit_keeps w) as (Hname & Htype & _).
  rewrite (download_of_writer _ Hmode1), Hbuf1, Hname, Htype.
  split.
  - intros -> ->. cbn [andb]. unfold Core.stopReceiving.
    rewrite setup_cases
      by (unfold Core._isSenderReceiverView; cbn; now rewrite Hview).
    cbn. now repeat split.
  - intros [-> | ->]; [reflexivity|].
    now destruct (Js.convertible (FileWorker.inputFileType w)).
Qed.

(** X19. A digest report whose body is an object or array without
    primitive conversion: the comparison with the Sender's own digest
    throws. The nonce is stored and nothing else changes: the Sender
    shows neither the next chunk nor the same one again. *)
Theorem unconvertible_digest_throws (now : Z) (rawData sha : string)
  (bd dt : Js.value) (c : Core.t) (w : FileWorker.t) :
  Core._displayedView c = Some ViewOption.sendFile ->
  Core._isRunning c = true ->
  Core._fileWorker c = Some w ->
  FileWorker.lastChunkSha256 w = Some sha ->
  Core.decodes rawData (Js.Num 3) bd dt ->
  Js.strict_equal (Core._lastReceivedDatetime c) dt = false ->
  Js.convertible bd = false ->
  Core._onQRDataReceived now (Some rawData) c
  = (Core.set_lastReceivedDatetime dt c, Thrown).
Proof.
  intros Hview Hrun Hw Hsha Hdec Hnew Hbd.
  rewrite (sender_observes now rawData _ bd dt c Hview Hrun Hdec Hnew).
  cbn [Core._chunkTypeFromId]. unfold Core.onSendFile.
  cbn [Core._fileWorker Core.set_lastReceivedDatetime]. rewrite Hw.
  cbv zeta. rewrite Hsha. cbn [Js.of_option].
  destruct bd; cbn [Js.convertible] in Hbd; try discriminate Hbd;
    unfold JsEq.throws; cbn [Js.convertible]; now rewrite Hbd.
Qed.

(** X20. Once the Sender is stopped in its view, by hand or by the
    timer set when [completed] is shown, it shows no code, whatever its
    QR view holds, and the session stands still: whichever peer reads,
    and however often, nothing changes. A Receiver that has not read
    [completed] by then never hands over the file. *)
Theorem stopped_sender_freezes_session (now : Z) (s : Session.t) :
  Core._isSenderReceiverView (Session.sender s) = true ->
  let s' := {| Session.sender := fst (Core.stopSending now (Session.sender s));
               Session.receiver := Session.receiver s |} in
  Core.qrCode (Session.sender s') = None /\
  Core._isRunning (Session.sender s') = false /\
  Core._fileWorker (Session.sender s') = None /\
  forall obs, Session.run obs s' = s'.
Proof.
  intros Hview s'. unfold s', Core.stopSending, Core._setupSender.
  fold (Core._setupReceiver now (Session.sender s)).
  rewrite (setup_cases now _ Hview). cbn [fst Session.sender Session.receiver].
  split; [reflexivity|]. split; [reflexivity|]. split; [reflexivity|].
  induction obs as [|[who t] obs IH]; [reflexivity|].
  cbn [Session.run]. rewrite <- IH at 2. f_equal.
  unfold Session.observe. cbn [Session.sender Session.receiver].
  destruct who.
  - cbn [Core.qrCode Core.set_qrCode option_map].
    f_equal. unfold Core._onQRDataReceived.
    now destruct (negb (Core._isRunning (Session.receiver s))).
  - now rewrite not_running_ignores.
Qed.

End Views.

(** The Sender view was on with a file picked; home, and back. *)
Lemma loadView_switch_resets_witness :
  Core.loadView 20 ViewOption.home Example.transmitting
  = (Core.set_fileWorker None
       (Core.set_isRunning false
          (Core.set_displayedView (Some ViewOption.home) Example.transmitting)),
     Returned) /\
  Core.qrCode
    (fst (Core.loadView 21 ViewOption.sendFile
            (fst (Core.loadView 20 ViewOption.home Example.transmitting))))
  = None.
Proof.
  split.
  - exact (proj1 (proj1 (loadView_switch_resets 20 Example.transmitting)
                    ltac:(left; evaluate))).
  - destruct (proj2 (loadView_switch_resets 21
                       (fst (Core.loadView 20 ViewOption.home
                               Example.transmitting)))
                ViewOption.sendFile ltac:(left; reflexivity)
                ltac:(vm_compute; discriminate)) as (_ & _ & _ & H & _).
    exact H.
Defined.

(** The Receiver has read the meta information of [file8]; it is
    stopped and started again, and sees the same code. *)
Lemma restart_keeps_nonce_witness :
  let rawData := Example.text ChunkType.metaInfo Example.meta8 11 in
  let c2 :=
    Core.startReceiving
      (fst (Core.stopReceiving 13
              (fst (Core._onQRDataReceived 12 (Some rawData) Example.awaiting)))) in
  Core._fileWorker c2 = None /\
  Core._onQRDataReceived 14 (Some rawData) c2 = (c2, Returned).
Proof.
  cbv zeta.
  destruct (restart_keeps_nonce 12 13 14 11
              (Example.text ChunkType.metaInfo Example.meta8 11)
              (Js.Num 0) (Js.Str Example.meta8) Example.awaiting
              ltac:(evaluate) ltac:(evaluate) ltac:(decode))
    as (_ & Hw & _ & H).
  exact (conj Hw H).
Defined.

(** Two chunks were announced for [file8]; [completed] comes while the
    first one is pending: its four bytes are handed over. When the
    type of the session is an object with a [toString] of its own, the
    chunk is committed, nothing is handed over and the Receiver keeps
    running. *)
Lemma completed_hands_over_what_is_held_witness :
  FileWorker.fileChunks (Example.worker Example.pending) = Js.Num 2 /\
  Core.downloads
    (fst (Core._onQRDataReceived 16
            (Some (Example.text ChunkType.completed EmptyString 15))
            Example.pending))
  = [{| FileWorker.download := Js.Str "eight.bin";
        FileWorker.blobType := Js.Str "application/octet-stream";
        FileWorker.blobContent := ["000"; "001"; "002"; "003"]%byte |}] /\
  (exists c',
     Core._onQRDataReceived 16
       (Some (Example.text ChunkType.completed EmptyString 15))
       Example.odd_type_pending
     = (c', Thrown) /\
     Core.downloads c' = [] /\ Core._isRunning c' = true /\
     FileWorker._writerBuffer (Example.worker c')
     = [["000"; "001"; "002"; "003"]%byte]).
Proof.
  split; [evaluate|]. split.
  2:{ assert (Htype : Js.convertible
                        (FileWorker.inputFileType
                           (Example.worker Example.odd_type_pending)) = false)
        by evaluate.
      eexists. split.
      - exact (proj2 (completed_hands_over_what_is_held 16
                        (Example.text ChunkType.completed EmptyString 15)
                        (Js.Str EmptyString) (Js.Num 15) Example.odd_type_pending
                        (Example.worker Example.odd_type_pending)
                        ltac:(evaluate) ltac:(evaluate) ltac:(evaluate)
                        ltac:(evaluate) ltac:(decode) ltac:(evaluate))
                 (or_introl Htype)).
      - repeat split; evaluate. }
  pose proof (proj1 (proj1 (completed_hands_over_what_is_held 16
                       (Example.text ChunkType.completed EmptyString 15)
                       (Js.Str EmptyString) (Js.Num 15) Example.pending
                       (Example.worker Example.pending)
                       ltac:(evaluate) ltac:(evaluate) ltac:(evaluate)
                       ltac:(evaluate) ltac:(decode) ltac:(evaluate))
                       ltac:(evaluate) ltac:(evaluate))) as H.
  rewrite H. vm_compute. reflexivity.
Defined.

(** The Sender with the first chunk of [file8] on show reads a digest
    report whose body is an object with a [toString] of its own. *)
Lemma unconvertible_digest_throws_witness :
  let rawData :=
    JSON_stringify
      (Js.Obj [("ckTId", Js.Num 3); ("bd", Js.Obj [("toString", Js.Num 1)]);
               ("dt", Js.Num 15)]) in
  Core._onQRDataReceived 16 (Some rawData) Example.transmitting
  = (Core.set_lastReceivedDatetime (Js.Num 15) Example.transmitting, Thrown).
Proof.
  exact (unconvertible_digest_throws 16
           (JSON_stringify
              (Js.Obj [("ckTId", Js.Num 3);
                       ("bd", Js.Obj [("toString", Js.Num 1)]);
                       ("dt", Js.Num 15)]))
           (Utils.sha256 "AAECAw==")
           (Js.Obj [("toString", Js.Num 1)]) (Js.Num 15) Example.transmitting
           (Example.worker Example.transmitting)
           ltac:(evaluate) ltac:(evaluate) ltac:(evaluate) ltac:(evaluate)
           ltac:(decode) ltac:(evaluate) ltac:(evaluate)).
Defined.

(** The Sender of [file8] is stopped with its first chunk on show: the
    Receiver that waits for that chunk reads nothing from then on. *)
Lemma stopped_sender_freezes_session_witness :
  let s' := {| Session.sender := fst (Core.stopSending 20 Example.transmitting);
               Session.receiver := Example.collecting |} in
  Core.qrCode Example.transmitting
  = Some (Core.qrData ChunkType.okNext "AAECAw==" 13) /\
  Core.qrCode (Session.sender s') = None /\
  Session.run [(true, 21); (false, 22); (true, 23)] s' = s'.
Proof.
  cbv zeta.
  destruct (stopped_sender_freezes_session 20
              {| Session.sender := Example.transmitting;
                 Session.receiver := Example.collecting |}
              ltac:(evaluate)) as (Hq & _ & _ & Hrun).
  split; [evaluate|]. split; [exact Hq|].
  exact (Hrun [(true, 21); (false, 22); (true, 23)]).
Defined.
